(** * MHT agent: the persisted event queue and its three workers

    A shallow embedding of [mhtagentic/db/database.py],
    [mhtagentic/db/result_processor.py], [mhtagentic/db/mht_simulator.py]
    and of the polling part of [mhtagentic/outbound/outbound_worker.py].

    The SQLite file is a value of type [Database]; every method opens its
    own connection, works on a pending copy and either commits it or loses
    it when the connection is closed.  Python exceptions are the [Raise]
    branch of [Outcome]; [datetime.now()] reads a clock that the world
    carries along. *)

From Stdlib Require Import ZArith QArith Bool String Ascii List Lia.
From Stdlib Require Import Sorted Permutation DecimalString.
Import ListNotations.

Local Open Scope string_scope.
Local Open Scope list_scope.
Local Open Scope Z_scope.

Set Warnings "-register-all".

(** ** Python values *)

(** What [json.loads] can return and [json.dumps] accepts. *)
Inductive JSON : Type :=
| JNull
| JBool (b : bool)
| JInt (n : Z)
| JFloat (q : Q)
| JStr (s : string)
| JList (items : list JSON)
| JDict (fields : list (string * JSON)).

Inductive Exn : Type :=
| AttributeError (what : string)
| TypeError (what : string)
| KeyError (what : string)
| IndexError (what : string)
| ValueError (what : string)
| JSONDecodeError
| OtherError (what : string).

Inductive Outcome (A : Type) : Type :=
| Ok (a : A)
| Raise (e : Exn).
Arguments Ok {A} a.
Arguments Raise {A} e.

Fixpoint assoc {A : Type} (k : string) (kv : list (string * A)) : option A :=
  match kv with
  | [] => None
  | (k', v) :: rest => if String.eqb k k' then Some v else assoc k rest
  end.

(** [obj.get(key, default)]: only a dict has the method. *)
Definition py_get (obj : JSON) (key : string) (default : JSON) : Outcome JSON :=
  match obj with
  | JDict kv => Ok (match assoc key kv with Some v => v | None => default end)
  | _ => Raise (AttributeError "get")
  end.

Fixpoint chars (s : string) : list JSON :=
  match s with
  | EmptyString => []
  | String c rest => JStr (String c EmptyString) :: chars rest
  end.

(** [for x in obj]: a list gives its items, a dict its keys, a str its
    characters; nothing else is iterable. *)
Definition py_iter (obj : JSON) : Outcome (list JSON) :=
  match obj with
  | JList l => Ok l
  | JDict kv => Ok (map (fun p => JStr (fst p)) kv)
  | JStr s => Ok (chars s)
  | _ => Raise (TypeError "not iterable")
  end.

Definition py_len (obj : JSON) : Outcome Z :=
  match obj with
  | JList l => Ok (Z.of_nat (List.length l))
  | JDict kv => Ok (Z.of_nat (List.length kv))
  | JStr s => Ok (Z.of_nat (String.length s))
  | _ => Raise (TypeError "no len()")
  end.

(** Truth value of an object in [if x] and [x or y]. *)
Definition py_truthy (obj : JSON) : bool :=
  match obj with
  | JNull => false
  | JBool b => b
  | JInt n => negb (n =? 0)
  | JFloat q => negb (Qeq_bool q 0)
  | JStr s => negb (String.eqb s EmptyString)
  | JList l => match l with [] => false | _ => true end
  | JDict kv => match kv with [] => false | _ => true end
  end.

Definition py_or (a b : JSON) : JSON := if py_truthy a then a else b.

Definition is_list (obj : JSON) : bool :=
  match obj with JList _ => true | _ => false end.

(** ** The host: library functions and the clock

    [json_loads] is [None] where [json.loads] raises; [py_str] is the text
    an f-string puts for a value; [clock n] is what the n-th call of
    [datetime.now().isoformat()] returns; [strftime] formats that reading;
    [randint n lo hi] is the n-th draw of [random.randint(lo, hi)];
    [fromisoformat] is [None] where [datetime.fromisoformat] raises, else a
    point in time; [seconds_since now then] is
    [(datetime.now() - then).total_seconds()] rounded down, for the clock
    reading [now]. *)
Class Host : Type := {
  json_loads : string -> option JSON;
  json_dumps : JSON -> string;
  py_str : JSON -> string;
  str_strip : string -> string;
  clock : nat -> string;
  strftime : string -> string -> string;
  randint : nat -> Z -> Z -> Z;
  fromisoformat : string -> option Z;
  seconds_since : string -> Z -> Z
}.

(** ** The two tables *)

Inductive Direction : Type := I | O.

Definition Direction_eqb (a b : Direction) : bool :=
  match a, b with
  | I, I => true
  | O, O => true
  | _, _ => false
  end.

(** A row of [common_event]. *)
Record Event : Type := mkEvent {
  id : Z;
  received_at : string;
  direction : Direction;
  raw_data : option string;
  converted_at : option string;
  converted_data : option string;
  sent_at : option string;
  response_data : option string;
  status : Z;
  kind : string;
  updated_at : option string;
  error_count : Z
}.

(** A row of [common_eventerror]. *)
Record EventError : Type := mkEventError {
  err_id : Z;
  created_at : string;
  error : string;
  event_id : Z
}.

(** The database file: both tables in rowid order and the two
    AUTOINCREMENT counters of [sqlite_sequence]. *)
Record Database : Type := mkDatabase {
  common_event : list Event;
  common_eventerror : list EventError;
  seq_event : Z;
  seq_eventerror : Z
}.

Definition set_status (s : Z) (e : Event) : Event :=
  mkEvent (id e) (received_at e) (direction e) (raw_data e) (converted_at e)
          (converted_data e) (sent_at e) (response_data e) s (kind e)
          (updated_at e) (error_count e).

Definition set_updated_at (t : string) (e : Event) : Event :=
  mkEvent (id e) (received_at e) (direction e) (raw_data e) (converted_at e)
          (converted_data e) (sent_at e) (response_data e) (status e) (kind e)
          (Some t) (error_count e).

Definition set_error_count (n : Z) (e : Event) : Event :=
  mkEvent (id e) (received_at e) (direction e) (raw_data e) (converted_at e)
          (converted_data e) (sent_at e) (response_data e) (status e) (kind e)
          (updated_at e) n.

Definition set_converted (t d : string) (e : Event) : Event :=
  mkEvent (id e) (received_at e) (direction e) (raw_data e) (Some t)
          (Some d) (sent_at e) (response_data e) (status e) (kind e)
          (updated_at e) (error_count e).

Definition set_sent (t d : string) (e : Event) : Event :=
  mkEvent (id e) (received_at e) (direction e) (raw_data e) (converted_at e)
          (converted_data e) (Some t) (Some d) (status e) (kind e)
          (updated_at e) (error_count e).

(** ** The world, connections and transactions *)

(** What the program can see and change: the database file, how often
    the clock and the random generator have been read, every state the file
    was committed in (oldest first), and the payloads handed to registered
    callbacks. *)
Record World : Type := mkWorld {
  db : Database;
  tick : nat;
  draws : nat;
  history : list Database;
  notified : list JSON
}.

(** An open connection: the world around it and what the open transaction
    has written so far. *)
Record Conn : Type := mkConn {
  world : World;
  pending : Database
}.

(** Computations that thread a state and may raise. *)
Definition SE (S A : Type) : Type := S -> Outcome A * S.

Definition ret {S A : Type} (a : A) : SE S A := fun s => (Ok a, s).

Definition raise {S A : Type} (e : Exn) : SE S A := fun s => (Raise e, s).

Definition bind {S A B : Type} (m : SE S A) (k : A -> SE S B) : SE S B :=
  fun s =>
    match m s with
    | (Ok a, s') => k a s'
    | (Raise e, s') => (Raise e, s')
    end.

(** [try: body except Exception as e: handler]. *)
Definition try_except {S A : Type} (body : SE S A) (handler : Exn -> SE S A)
  : SE S A :=
  fun s =>
    match body s with
    | (Ok a, s') => (Ok a, s')
    | (Raise e, s') => handler e s'
    end.

(** [try: body finally: cleanup]. *)
Definition try_finally {S A : Type} (body : SE S A) (cleanup : SE S unit)
  : SE S A :=
  fun s =>
    match body s with
    | (r, s') =>
        match cleanup s' with
        | (Ok _, s'') => (r, s'')
        | (Raise e, s'') => (Raise e, s'')
        end
    end.

Definition lift_outcome {S A : Type} (r : Outcome A) : SE S A := fun s => (r, s).

Declare Scope se_scope.
Delimit Scope se_scope with se.
Notation "x <- m ;; k" := (bind m (fun x => k))
  (at level 61, m at next level, right associativity) : se_scope.
Notation "m ;;; k" := (bind m (fun _ => k))
  (at level 61, right associativity) : se_scope.
Local Open Scope se_scope.

Definition M (A : Type) : Type := SE World A.
Definition Tx (A : Type) : Type := SE Conn A.

(** [for x in xs: body x]. *)
Fixpoint for_each {S A : Type} (xs : list A) (body : A -> SE S unit) : SE S unit :=
  match xs with
  | [] => ret tt
  | x :: rest => body x ;;; for_each rest body
  end.

(** [conn.commit()]: the pending state becomes the file. *)
Definition commit : Tx unit :=
  fun c =>
    let w := world c in
    (Ok tt,
     mkConn (mkWorld (pending c) (tick w) (draws w) (history w ++ [pending c])
                     (notified w))
            (pending c)).

(** [conn = self._get_connection(); try: body finally: conn.close()]:
    closing drops whatever was not committed. *)
Definition with_connection {A : Type} (body : Tx A) : M A :=
  fun w => let '(r, c) := body (mkConn w (db w)) in (r, world c).

Section Clock.
Context {host : Host}.

(** [datetime.now().isoformat()]. *)
Definition datetime_now : M string :=
  fun w => (Ok (clock (tick w)),
            mkWorld (db w) (S (tick w)) (draws w) (history w) (notified w)).

(** [random.randint(lo, hi)]. *)
Definition random_randint (lo hi : Z) : M Z :=
  fun w => (Ok (randint (draws w) lo hi),
            mkWorld (db w) (tick w) (S (draws w)) (history w) (notified w)).

Definition tx_now : Tx string :=
  fun c =>
    match datetime_now (world c) with
    | (r, w') => (r, mkConn w' (pending c))
    end.
End Clock.

(** AUTOINCREMENT: one more than the largest rowid ever used. *)
Definition next_rowid (seq : Z) (ids : list Z) : Z :=
  fold_right Z.max seq ids + 1.

(** [INSERT INTO common_event ...]; gives [cursor.lastrowid]. *)
Definition insert_event (mk : Z -> Event) : Tx Z :=
  fun c =>
    let d := pending c in
    let rid := next_rowid (seq_event d) (map id (common_event d)) in
    (Ok rid,
     mkConn (world c)
            (mkDatabase (common_event d ++ [mk rid]) (common_eventerror d)
                        rid (seq_eventerror d))).

(** [INSERT INTO common_eventerror ...]; gives [cursor.lastrowid]. *)
Definition insert_eventerror (mk : Z -> EventError) : Tx Z :=
  fun c =>
    let d := pending c in
    let rid := next_rowid (seq_eventerror d) (map err_id (common_eventerror d)) in
    (Ok rid,
     mkConn (world c)
            (mkDatabase (common_event d) (common_eventerror d ++ [mk rid])
                        (seq_event d) rid)).

Definition update_row (event_id : Z) (f : Event -> Event) (e : Event) : Event :=
  if id e =? event_id then f e else e.

Definition has_id (event_id : Z) (e : Event) : bool := id e =? event_id.

(** [UPDATE common_event SET ... WHERE id = ?]; gives [cursor.rowcount]. *)
Definition update_event (event_id : Z) (f : Event -> Event) : Tx Z :=
  fun c =>
    let d := pending c in
    (Ok (Z.of_nat (List.length (filter (has_id event_id) (common_event d)))),
     mkConn (world c)
            (mkDatabase (map (update_row event_id f) (common_event d))
                        (common_eventerror d) (seq_event d) (seq_eventerror d))).

(** [SELECT ... FROM common_event WHERE id = ?] then [fetchone()]. *)
Definition select_event (event_id : Z) : Tx (option Event) :=
  fun c => (Ok (find (has_id event_id) (common_event (pending c))), c).

(** ** ORDER BY

    The rows leave the table scan in rowid order and go through the
    sorter, here a stable insertion sort on the key.  SQL itself promises
    nothing about rows with equal keys. *)
Section OrderBy.
Variable K : Type.
Variable key_leb : K -> K -> bool.
Variable key : Event -> K.

Fixpoint insert_sorted (e : Event) (l : list Event) : list Event :=
  match l with
  | [] => [e]
  | x :: rest =>
      if key_leb (key e) (key x) then e :: l else x :: insert_sorted e rest
  end.

Fixpoint order_by (l : list Event) : list Event :=
  match l with
  | [] => []
  | x :: rest => insert_sorted x (order_by rest)
  end.
End OrderBy.
Arguments insert_sorted {K} key_leb key e l.
Arguments order_by {K} key_leb key l.

(** Text columns compare byte by byte; NULL sorts first. *)
Definition nullable_leb (a b : option string) : bool :=
  match a, b with
  | None, _ => true
  | Some _, None => false
  | Some x, Some y => String.leb x y
  end.

(** [SELECT ... WHERE p ORDER BY key] then [fetchall()]. *)
Definition select_where_order_by {K : Type} (p : Event -> bool)
           (key_leb : K -> K -> bool) (key : Event -> K) : Tx (list Event) :=
  fun c => (Ok (order_by key_leb key (filter p (common_event (pending c)))), c).

(** ** database.py *)

Module EventStatus.
(** The members of the IntEnum, aliases included, as declared. *)
Definition members : list (string * Z) :=
  [ ("INITIAL", 0); ("CONVERTED", 10); ("READY_TO_SEND", 20); ("SENT", 40);
    ("OUTBOUND_READY", 10); ("PROCESSING", 50); ("COMPLETE", 100);
    ("PENDING", 0); ("EXPIRED", 100) ].

(** [EventStatus.<name>]: a name that is not a member raises. *)
Definition attr {S : Type} (name : string) : SE S Z :=
  match assoc name members with
  | Some v => ret v
  | None => raise (AttributeError name)
  end.
End EventStatus.

Module MHTDatabase.
Section Methods.
Context {host : Host}.

Definition create_event (raw_data : JSON) (kind : string) : M Z :=
  with_connection (
    now <- tx_now ;;
    st <- EventStatus.attr "PENDING" ;;
    rid <- insert_event (fun rid =>
             mkEvent rid now I (Some (json_dumps raw_data)) None None None None
                     st kind (Some now) 0) ;;
    commit ;;;
    ret rid).

Definition update_event_converted (event_id : Z) (converted_data : JSON) : M bool :=
  with_connection (
    now <- tx_now ;;
    st <- EventStatus.attr "CONVERTED" ;;
    rowcount <- update_event event_id (fun e =>
             set_updated_at now (set_status st
               (set_converted now (json_dumps converted_data) e))) ;;
    commit ;;;
    ret (0 <? rowcount)).

Definition update_event_sent (event_id : Z) (response_data : JSON) : M bool :=
  with_connection (
    now <- tx_now ;;
    st <- EventStatus.attr "SENT" ;;
    rowcount <- update_event event_id (fun e =>
             set_updated_at now (set_status st
               (set_sent now (json_dumps response_data) e))) ;;
    commit ;;;
    ret (0 <? rowcount)).

Definition expire_event (event_id : Z) : M bool :=
  with_connection (
    now <- tx_now ;;
    st <- EventStatus.attr "EXPIRED" ;;
    rowcount <- update_event event_id (fun e =>
             set_updated_at now (set_status st e)) ;;
    commit ;;;
    ret (0 <? rowcount)).

(** The INSERT runs, then the parameters of the UPDATE are evaluated,
    which reads [EventStatus.ERROR]. *)
Definition record_error (event_id : Z) (error_message : string) : M Z :=
  with_connection (
    now <- tx_now ;;
    error_id <- insert_eventerror (fun rid =>
             mkEventError rid now error_message event_id) ;;
    st <- EventStatus.attr "ERROR" ;;
    update_event event_id (fun e =>
             set_updated_at now (set_status st
               (set_error_count (error_count e + 1) e))) ;;;
    commit ;;;
    ret error_id).

Definition get_event (event_id : Z) : M (option Event) :=
  with_connection (select_event event_id).

Definition get_pending_events : M (list Event) :=
  with_connection (
    st <- EventStatus.attr "PENDING" ;;
    select_where_order_by (fun e => status e =? st) String.leb received_at).

Definition get_converted_events : M (list Event) :=
  with_connection (
    st <- EventStatus.attr "CONVERTED" ;;
    select_where_order_by (fun e => status e =? st) nullable_leb converted_at).
End Methods.
End MHTDatabase.

(** ** result_processor.py *)

Definition opt_truthy (x : option JSON) : bool :=
  match x with
  | Some v => py_truthy v
  | None => false
  end.

(** [str(e)] of a caught exception. *)
Definition exn_message (e : Exn) : string :=
  match e with
  | AttributeError what => what
  | TypeError what => what
  | KeyError what => what
  | IndexError what => what
  | ValueError what => what
  | JSONDecodeError => "Expecting value"
  | OtherError what => what
  end.

(** A list comprehension or loop body that may raise midway. *)
Fixpoint map_m {S A B : Type} (f : A -> SE S B) (xs : list A) : SE S (list B) :=
  match xs with
  | [] => ret []
  | x :: rest => y <- f x ;; ys <- map_m f rest ;; ret (y :: ys)
  end.

(** Calling a registered callback: it is handed the payload and may raise. *)
Definition invoke (cb : JSON -> Outcome unit) (payload : JSON) : M unit :=
  fun w => (cb payload,
            mkWorld (db w) (tick w) (draws w) (history w) (notified w ++ [payload])).

Module MHTResultProcessor.

Definition STATUS_OUTBOUND_READY : Z := 10.
Definition STATUS_PROCESSING : Z := 50.
Definition STATUS_COMPLETE : Z := 100.
Definition MAX_ERRORS : Z := 4.

(** The fields of the object that the methods read. *)
Record t : Type := mk {
  poll_interval : Z;
  _on_result_processed : option (JSON -> Outcome unit)
}.

Section Methods.
Context {host : Host}.

Definition _get_pending_results : M (list Event) :=
  with_connection (
    select_where_order_by
      (fun e => Direction_eqb (direction e) O && (status e =? STATUS_OUTBOUND_READY))
      String.leb received_at).

Definition _update_status (event_id : Z) (status : Z)
           (converted_data response_data : option JSON) : M bool :=
  with_connection (
    now <- tx_now ;;
    rowcount <-
      match converted_data, response_data with
      | Some cd, Some rd =>
          if py_truthy cd && py_truthy rd then
            update_event event_id (fun e =>
              set_updated_at now
                (set_sent now (json_dumps rd)
                   (set_converted now (json_dumps cd) (set_status status e))))
          else
            update_event event_id (fun e => set_updated_at now (set_status status e))
      | _, _ =>
          update_event event_id (fun e => set_updated_at now (set_status status e))
      end ;;
    commit ;;;
    ret (0 <? rowcount)).

Definition _increment_error (event_id : Z) (current_status : Z)
           (error_message : string) : M bool :=
  with_connection (
    now <- tx_now ;;
    row <- select_event event_id ;;
    match row with
    | None => ret false
    | Some r =>
        let new_error_count := error_count r + 1 in
        if MAX_ERRORS <=? new_error_count then
          let new_status := - Z.abs current_status in
          update_event event_id (fun e =>
            set_updated_at now (set_error_count new_error_count
                                  (set_status new_status e))) ;;;
          commit ;;;
          ret true
        else
          update_event event_id (fun e =>
            set_updated_at now (set_error_count new_error_count e)) ;;;
          commit ;;;
          ret false
    end).

Definition assessment_summary (assessment : JSON) : M JSON :=
  a_id <- lift_outcome (py_get assessment "assessment_id" JNull) ;;
  a_name <- lift_outcome (py_get assessment "assessment_name" JNull) ;;
  a_type <- lift_outcome (py_get assessment "assessment_type" JNull) ;;
  total <- lift_outcome (py_get assessment "total_score_value" JNull) ;;
  legend <- lift_outcome (py_get assessment "total_score_legend" JNull) ;;
  severity <-
    (if py_truthy legend then ret legend
     else lift_outcome (py_get assessment "patient_score_legend_value" JNull)) ;;
  flagged <- lift_outcome (py_get assessment "flagged_abnormal" (JBool false)) ;;
  notes <- lift_outcome (py_get assessment "assessment_clinical_notes" JNull) ;;
  items <- lift_outcome (py_get assessment "assessment_items" (JList [])) ;;
  item_count <- lift_outcome (py_len items) ;;
  ret (JDict [ ("assessment_id", a_id); ("assessment_name", a_name);
               ("assessment_type", a_type); ("total_score", total);
               ("severity", severity); ("flagged_abnormal", flagged);
               ("clinical_notes", notes); ("item_count", JInt item_count) ]).

Definition _process_assessment_result (event : Event) : M JSON :=
  raw <-
    match raw_data event with
    | None => ret (JDict [])
    | Some text =>
        if String.eqb text EmptyString then ret (JDict [])
        else match json_loads text with
             | Some v => ret v
             | None => raise JSONDecodeError
             end
    end ;;
  data <- lift_outcome (py_get raw "data" raw) ;;
  patient <- lift_outcome (py_get data "patient" (JDict [])) ;;
  assessments <- lift_outcome (py_get data "assessment" (JList [])) ;;
  now <- datetime_now ;;
  patient_id <- lift_outcome (py_get patient "patient_id" JNull) ;;
  first_name <- lift_outcome (py_get patient "patient_first_name" (JStr EmptyString)) ;;
  last_name <- lift_outcome (py_get patient "patient_last_name" (JStr EmptyString)) ;;
  let patient_name :=
    str_strip (String.append (py_str first_name)
                             (String.append " " (py_str last_name))) in
  each <- lift_outcome (py_iter assessments) ;;
  summaries <- map_m assessment_summary each ;;
  pdf_url <- lift_outcome (py_get data "assessment_response_url" JNull) ;;
  ret (JDict [ ("event_id", JInt (id event)); ("processed_at", JStr now);
               ("patient_id", patient_id); ("patient_name", JStr patient_name);
               ("assessments", JList summaries); ("pdf_url", pdf_url) ]).

Definition _process_single_result (self : t) (event : Event) : M bool :=
  let event_id := id event in
  try_except (
    _update_status event_id STATUS_PROCESSING None None ;;;
    result_summary <- _process_assessment_result event ;;
    now <- datetime_now ;;
    let response_data :=
      JDict [ ("processed", JBool true); ("processed_at", JStr now);
              ("summary", result_summary); ("status", JStr "success") ] in
    _update_status event_id STATUS_COMPLETE (Some result_summary)
                   (Some response_data) ;;;
    match _on_result_processed self with
    | Some cb => invoke cb result_summary
    | None => ret tt
    end ;;;
    ret true)
  (fun e =>
    _increment_error event_id STATUS_OUTBOUND_READY (exn_message e) ;;;
    ret false).

Definition _poll_and_process (self : t) : M unit :=
  pending <- _get_pending_results ;;
  for_each pending (fun event => _process_single_result self event ;;; ret tt).

(** One pass of the body of [_run_loop] while [_running] stays set. *)
Definition poll (self : t) : M unit :=
  try_except (_poll_and_process self) (fun _ => ret tt).

(** [processed] counts the events whose processing returned True. *)
Fixpoint count_processed (self : t) (pending : list Event) (processed : Z) : M Z :=
  match pending with
  | [] => ret processed
  | event :: rest =>
      ok <- _process_single_result self event ;;
      count_processed self rest (if ok then processed + 1 else processed)
  end.

Definition process_now (self : t) : M Z :=
  pending <- _get_pending_results ;;
  count_processed self pending 0.

(** [SELECT COUNT( * ) FROM common_event WHERE p] then [fetchone()[0]]. *)
Definition select_count (p : Event -> bool) : Tx Z :=
  fun c => (Ok (Z.of_nat (List.length (filter p (common_event (pending c))))), c).

(** The dict [get_stats] returns, key by key. *)
Record Stats : Type := mkStats {
  outbound_pending : Z;
  outbound_complete : Z;
  outbound_failed : Z;
  inbound_total : Z;
  inbound_complete : Z
}.

Definition get_stats : M Stats :=
  with_connection (
    pending <- select_count (fun e => Direction_eqb (direction e) O && (status e =? 10)) ;;
    complete <- select_count (fun e => Direction_eqb (direction e) O && (status e =? 100)) ;;
    failed <- select_count (fun e => Direction_eqb (direction e) O && (status e <? 0)) ;;
    total <- select_count (fun e => Direction_eqb (direction e) I) ;;
    done <- select_count (fun e => Direction_eqb (direction e) I && (1 <=? status e)) ;;
    ret (mkStats pending complete failed total done)).
End Methods.
End MHTResultProcessor.

(** ** mht_simulator.py *)

Module MHTResponseSimulator.

Definition STATUS_INITIAL : Z := 0.
Definition STATUS_OUTBOUND_READY : Z := 100.
Definition STATUS_COMPLETE : Z := 200.

(** The fields of the object that the methods read and write. *)
Record t : Type := mk {
  response_delay : Z;
  _processed_event_ids : list Z
}.

Definition phq9_questions : list string :=
  [ "Little interest or pleasure in doing things";
    "Feeling down, depressed, or hopeless";
    "Trouble falling/staying asleep or sleeping too much";
    "Feeling tired or having little energy";
    "Poor appetite or overeating";
    "Feeling bad about yourself";
    "Trouble concentrating on things";
    "Moving or speaking slowly/being fidgety";
    "Thoughts of self-harm" ].

Definition legends : list string :=
  [ "Not at all"; "Several days"; "More than half"; "Nearly every day" ].

Definition severity_of (total_score : Z) : string :=
  if total_score <=? 4 then "Minimal"
  else if total_score <=? 9 then "Mild"
  else if total_score <=? 14 then "Moderate"
  else if total_score <=? 19 then "Moderately Severe"
  else "Severe".

(** [seq[i]] with Python's negative indices. *)
Definition py_index {A : Type} (l : list A) (i : Z) : Outcome A :=
  let n := Z.of_nat (List.length l) in
  let j := if i <? 0 then i + n else i in
  if (0 <=? j) && (j <? n) then
    match nth_error l (Z.to_nat j) with
    | Some x => Ok x
    | None => Raise (IndexError "list index out of range")
    end
  else Raise (IndexError "list index out of range").

Fixpoint enumerate_from {A : Type} (i : Z) (l : list A) : list (Z * A) :=
  match l with
  | [] => []
  | x :: rest => (i, x) :: enumerate_from (i + 1) rest
  end.

Fixpoint zip {A B : Type} (l : list A) (r : list B) : list (A * B) :=
  match l, r with
  | a :: l', b :: r' => (a, b) :: zip l' r'
  | _, _ => []
  end.

Section Methods.
Context {host : Host}.

Definition cat (parts : list string) : string :=
  fold_right String.append EmptyString parts.

Definition assessment_item (entry : Z * (string * Z)) : M JSON :=
  let '(i, (question, score)) := entry in
  legend <- lift_outcome (py_index legends score) ;;
  ret (JDict [ ("assessment_item_id", JInt (40 + i));
               ("assessment_item_name", JStr (cat ["PHQ-9 Q"; py_str (JInt i)]));
               ("assessment_item_description", JStr question);
               ("assessment_item_score", JStr (cat [py_str (JInt score); ".0"]));
               ("assessment_item_score_range", JStr "0.00 - 3.00");
               ("assessment_item_legend_value", JStr legend);
               ("assessment_item_asset", JStr (cat ["PHQ9_"; py_str (JInt i)]));
               ("assessment_item_type", JStr "Functional Impairment") ]).

Definition _generate_mock_assessment (self : t) (patient_data : JSON) : M JSON :=
  patient <- lift_outcome (py_get patient_data "patient" (JDict [])) ;;
  patient_id <- lift_outcome (py_get patient "patient_id" (JStr "unknown")) ;;
  first_name <- lift_outcome (py_get patient "patient_first_name" (JStr EmptyString)) ;;
  last_name <- lift_outcome (py_get patient "patient_last_name" (JStr EmptyString)) ;;
  phq9_scores <- map_m (fun _ : nat => random_randint 0 3) (seq 0 9) ;;
  let total_score := fold_right Z.add 0 phq9_scores in
  let severity := severity_of total_score in
  assessment_items <-
    map_m assessment_item (enumerate_from 1 (zip phq9_questions phq9_scores)) ;;
  now1 <- datetime_now ;;
  let mock_pdf_url :=
    cat [ "https://mht-assessments.s3.amazonaws.com/reports/";
          py_str patient_id; "_"; strftime "%Y%m%d%H%M%S" now1; ".pdf" ] in
  clinic_id <- lift_outcome (py_get patient_data "clinic_id" (JInt 110)) ;;
  mobile <- lift_outcome (py_get patient "patient_mobile" (JStr EmptyString)) ;;
  email <- lift_outcome (py_get patient "patient_email" (JStr EmptyString)) ;;
  now2 <- datetime_now ;;
  assessment_id <- random_randint 1000000 9999999 ;;
  now3 <- datetime_now ;;
  now4 <- datetime_now ;;
  now5 <- datetime_now ;;
  ret (JDict [
    ("data", JDict [
       ("Status", JStr "Success");
       ("clinic", JDict [ ("protocol", JStr "API"); ("clinic_id", clinic_id);
                          ("clinic_name", JStr "Southern Immediate Care");
                          ("clinic_location",
                           JStr "SOUTHERN IMMEDIATE CARE - ATTALLA") ]);
       ("patient", JDict [ ("patient_id", patient_id);
                           ("patient_first_name", first_name);
                           ("patient_last_name", last_name);
                           ("patient_mobile", mobile);
                           ("patient_email", email) ]);
       ("assessment_response_url", JStr mock_pdf_url);
       ("assessment_preferred_language", JStr "EN");
       ("assessment_completed_at", JStr now2);
       ("assessment", JList [
          JDict [ ("assessment_id", JInt assessment_id);
                  ("assessment_name", JStr "PHQ-9");
                  ("assessment_type", JStr "Depression Screening");
                  ("assessment_items", JList assessment_items);
                  ("total_score_legend", JStr severity);
                  ("total_score_value", JStr (py_str (JInt total_score)));
                  ("assessment_overall_legend_score",
                   JStr (cat [py_str (JInt total_score); ".0"]));
                  ("patient_score_legend_value", JStr severity);
                  ("assessment_clinical_notes",
                   JStr (cat [ "Patient "; py_str first_name; " ";
                               py_str last_name;
                               " completed PHQ-9 screening. Total score: ";
                               py_str (JInt total_score); " ("; severity; ")." ]));
                  ("flagged_abnormal", JBool (10 <=? total_score)) ] ]);
       ("encounter_id",
        JStr (cat ["ENC_"; py_str patient_id; "_"; strftime "%Y%m%d" now3]));
       ("current_time", JStr now4) ]);
    ("_metadata", JDict [
       ("simulated", JBool true);
       ("simulated_at", JStr now5);
       ("source_event_patient",
        JStr (cat [py_str last_name; ", "; py_str first_name]));
       ("response_delay_seconds", JInt (response_delay self)) ]) ]).

(** The connection is opened before the payload is generated, so a
    failure there closes it with nothing written. *)
Definition _create_outbound_event (self : t) (inbound_event_id : Z)
           (inbound_converted_data : JSON) : M Z :=
  now <- datetime_now ;;
  mock_response <- _generate_mock_assessment self inbound_converted_data ;;
  with_connection (
    event_id <- insert_event (fun rid =>
      mkEvent rid now O (Some (json_dumps mock_response)) None None None None
              STATUS_OUTBOUND_READY "assessment_result" (Some now) 0) ;;
    commit ;;;
    ret event_id).

(** The SELECT of [_check_and_respond]. *)
Definition answerable (e : Event) : bool :=
  Direction_eqb (direction e) I && (1 <=? status e) &&
  match converted_data e with Some _ => true | None => false end.

(** The object changes while the loop runs, so it is threaded next to
    the world: what was added to [_processed_event_ids] before an
    exception stays added. *)
Definition lift_m {A : Type} (m : M A) : SE (t * World) A :=
  fun s => match m (snd s) with (r, w') => (r, (fst s, w')) end.

Definition get_self : SE (t * World) t := fun s => (Ok (fst s), s).

Definition mark_processed (event_id : Z) : SE (t * World) unit :=
  fun s => (Ok tt,
            (mk (response_delay (fst s))
                (if existsb (Z.eqb event_id) (_processed_event_ids (fst s))
                 then _processed_event_ids (fst s)
                 else event_id :: _processed_event_ids (fst s)),
             snd s)).

Definition respond_to (row : Event) : SE (t * World) unit :=
  let event_id := id row in
  self <- get_self ;;
  if existsb (Z.eqb event_id) (_processed_event_ids self) then ret tt
  else
    match fromisoformat (received_at row) with
    | None => raise (ValueError "Invalid isoformat string")
    | Some received =>
        now <- lift_m datetime_now ;;
        if response_delay self <=? seconds_since now received then
          converted <-
            match converted_data row with
            | Some text =>
                match json_loads text with
                | Some v => ret v
                | None => raise JSONDecodeError
                end
            | None => raise (TypeError "the JSON object must be str")
            end ;;
          lift_m (_create_outbound_event self event_id converted) ;;;
          mark_processed event_id ;;;
          patient <- lift_outcome (py_get converted "patient" (JDict [])) ;;
          lift_outcome (py_get patient "patient_first_name" (JStr EmptyString)) ;;;
          lift_outcome (py_get patient "patient_last_name" (JStr EmptyString)) ;;;
          ret tt
        else ret tt
    end.

Definition _check_and_respond : SE (t * World) unit :=
  rows <- lift_m (with_connection (select_where_order_by answerable Z.leb id)) ;;
  for_each rows respond_to.
End Methods.
End MHTResponseSimulator.

(** ** outbound_worker.py *)

Module OutboundWorker.

Definition STATUS_READY : Z := 100.
Definition STATUS_PROCESSING : Z := 50.
Definition STATUS_DONE : Z := 200.
Definition STATUS_ERROR : Z := -100.

(** The fields of the object that the polling methods read;
    [poll_interval_tenths] is [int(self.poll_interval * 10)].  The overlay
    calls and the [_processing] flag touch neither table and are left
    out. *)
Record t : Type := mk {
  poll_interval_tenths : Z;
  _callback : option (JSON -> Outcome unit)
}.

Section Methods.
Context {host : Host}.

(** [_run_outbound_flow]: the on-screen entry of the results.  It sees
    the world it runs in, is handed the patient name and the assessment
    list, and returns a bool or raises. *)
Variable _run_outbound_flow : World -> string -> list JSON -> Outcome bool.

Definition _get_ready_outbound_events : M (list Event) :=
  with_connection (
    select_where_order_by
      (fun e => Direction_eqb (direction e) O && (status e =? STATUS_READY))
      Z.leb id).

Definition _update_event_status (event_id : Z) (status : Z) : M unit :=
  with_connection (
    now <- tx_now ;;
    update_event event_id (fun e => set_updated_at now (set_status status e)) ;;;
    commit).

Definition call_flow (patient_name : string) (assessments : list JSON) : M bool :=
  fun w => (_run_outbound_flow w patient_name assessments, w).

(** The head of the try block: the patient name and the assessment list
    are read from the payload of the fetched row. *)
Definition read_request (event : Event) : M (string * list JSON) :=
  raw <-
    match raw_data event with
    | Some text =>
        match json_loads text with
        | Some v => ret v
        | None => raise JSONDecodeError
        end
    | None => raise (TypeError "the JSON object must be str")
    end ;;
  data <- lift_outcome (py_get raw "data" raw) ;;
  patient <- lift_outcome (py_get data "patient" (JDict [])) ;;
  last_name <- lift_outcome (py_get patient "patient_last_name" JNull) ;;
  first_name <- lift_outcome (py_get patient "patient_first_name" JNull) ;;
  let patient_name :=
    String.append (py_str last_name) (String.append ", " (py_str first_name)) in
  found <- lift_outcome (py_get data "assessment" (JList [])) ;;
  let assessments :=
    match found with
    | JList l => l
    | other => [other]
    end in
  ret (patient_name, assessments).

(** What the callback is handed after a successful entry. *)
Definition done_notice (event_id : Z) (patient_name : string) : JSON :=
  JDict [ ("event_id", JInt event_id); ("patient", JStr patient_name);
          ("success", JBool true) ].

(** The try block of [_process_event] with its except clause. *)
Definition attempt_delivery (self : t) (event : Event) : M unit :=
  let event_id := id event in
  try_except (
    request <- read_request event ;;
    let '(patient_name, assessments) := request in
    success <- call_flow patient_name assessments ;;
    if success then
      _update_event_status event_id STATUS_DONE ;;;
      match _callback self with
      | Some cb => invoke cb (done_notice event_id patient_name)
      | None => ret tt
      end
    else
      _update_event_status event_id STATUS_ERROR)
  (fun _ => _update_event_status event_id STATUS_ERROR).

Definition _process_event (self : t) (event : Event) : M unit :=
  _update_event_status (id event) STATUS_PROCESSING ;;;
  attempt_delivery self event.

(** One pass of the body of [_run_loop] while [_running] stays set. *)
Definition poll (self : t) : M unit :=
  try_except (
    events <- _get_ready_outbound_events ;;
    for_each events (_process_event self))
  (fun _ => ret tt).

(** [process_pending]: the counter [processed] is a local of the method,
    threaded next to the world so that it keeps, in the except clause,
    the value it had when the exception was raised. *)
Definition lift_w {A : Type} (m : M A) : SE (Z * World) A :=
  fun s => match m (snd s) with (r, w') => (r, (fst s, w')) end.

Definition count_one : SE (Z * World) unit :=
  fun s => (Ok tt, (fst s + 1, snd s)).

Definition process_pending (self : t) : M Z :=
  fun w =>
    let '(_, (processed, w')) :=
      try_except (
        events <- lift_w _get_ready_outbound_events ;;
        for_each events (fun event =>
          lift_w (_process_event self event) ;;; count_one))
      (fun _ => ret tt)
      (0, w) in
    (Ok processed, w').

End Methods.
End OutboundWorker.

(** ** How the three loops wait between two polls

    Each [_run_loop] is [while self._running: poll; wait].  Between two
    polls a loop only sleeps and reads [_running]; this is that part, as
    the list of what it does, the test of the [while] included. *)

Inductive Wait : Type :=
| Sleep (ms : Z)
| ReadRunning.

(** [for _ in range(int(self.poll_interval * 10)):
       if not self._running: break
       time.sleep(0.1)]. *)
Fixpoint sliced_wait (slices : nat) : list Wait :=
  match slices with
  | Datatypes.O => []
  | S n => ReadRunning :: Sleep 100 :: sliced_wait n
  end.

Definition outbound_wait (self : OutboundWorker.t) : list Wait :=
  sliced_wait (Z.to_nat (OutboundWorker.poll_interval_tenths self)) ++ [ReadRunning].

(** [time.sleep(5)]. *)
Definition simulator_wait : list Wait := [Sleep 5000; ReadRunning].

(** [time.sleep(self.poll_interval)]. *)
Definition processor_wait (self : MHTResultProcessor.t) : list Wait :=
  [Sleep (1000 * MHTResultProcessor.poll_interval self); ReadRunning].

(** When a loop that starts waiting at time [now] notices that
    [_running] was cleared at time [stop]: at its first read of the flag
    that is not earlier.  [None] if this wait ends without such a read. *)
Fixpoint noticed_at (steps : list Wait) (now stop : Z) : option Z :=
  match steps with
  | [] => None
  | Sleep ms :: rest => noticed_at rest (now + ms) stop
  | ReadRunning :: rest =>
      if stop <=? now then Some now else noticed_at rest now stop
  end.

Fixpoint duration (steps : list Wait) : Z :=
  match steps with
  | [] => 0
  | Sleep ms :: rest => ms + duration rest
  | ReadRunning :: rest => duration rest
  end.

(** ** A host to run examples on

    Integers print in decimal, documents are written without spaces, and
    [json.loads] decodes exactly the documents of [library]. *)
Module Demo.

Definition decimal (n : Z) : string :=
  DecimalString.NilZero.string_of_int (Z.to_int n).

Definition comma_join (parts : list string) : string :=
  match parts with
  | [] => EmptyString
  | p :: rest => fold_left (fun acc x => String.append acc (String.append "," x)) rest p
  end.

Definition quote (s : string) : string :=
  let q := Ascii.ascii_of_nat 34 in String q (String.append s (String q EmptyString)).

Fixpoint dumps (v : JSON) : string :=
  match v with
  | JNull => "null"
  | JBool true => "true"
  | JBool false => "false"
  | JInt n => decimal n
  | JFloat q => String.append (decimal (Qnum q / Zpos (Qden q))) ".0"
  | JStr s => quote s
  | JList l => String.append "[" (String.append (comma_join (map dumps l)) "]")
  | JDict kv =>
      String.append "{"
        (String.append
           (comma_join
              (map (fun p => String.append (quote (fst p))
                               (String.append ":" (dumps (snd p)))) kv))
           "}")
  end.

Definition jane : JSON :=
  JDict [ ("patient", JDict [ ("patient_id", JStr "123");
                              ("patient_first_name", JStr "Jane");
                              ("patient_last_name", JStr "Doe") ]) ].

Definition result_for_jane : JSON :=
  JDict [ ("data", JDict [
            ("patient", JDict [ ("patient_id", JStr "123");
                                ("patient_first_name", JStr "Jane");
                                ("patient_last_name", JStr "Doe") ]);
            ("assessment", JList [
               JDict [ ("assessment_name", JStr "PHQ-9");
                       ("total_score_value", JStr "7");
                       ("total_score_legend", JStr "Mild");
                       ("assessment_items", JList []) ] ]) ]) ].

Definition library : list JSON := [ JDict []; jane; result_for_jane ].

Definition loads (text : string) : option JSON :=
  find (fun v => String.eqb (dumps v) text) library.

Definition show (v : JSON) : string :=
  match v with
  | JStr s => s
  | JNull => "None"
  | JBool true => "True"
  | JBool false => "False"
  | other => dumps other
  end.

(** The n-th clock reading: one second after the one before. *)
Definition reading (n : nat) : string :=
  String.append "2024-01-01T00:00:"
    (String.append (if Nat.ltb n 10 then "0" else EmptyString) (decimal (Z.of_nat n))).

#[export] Instance host : Host := {
  json_loads := loads;
  json_dumps := dumps;
  py_str := show;
  str_strip := fun s => s;
  clock := reading;
  strftime := fun _ t => t;
  randint := fun n lo hi => lo + Z.of_nat n mod (hi - lo + 1);
  fromisoformat := fun _ => Some 0;
  seconds_since := fun _ _ => 60
}.

Definition empty_db : Database := mkDatabase [] [] 0 0.

Definition world_of (d : Database) : World := mkWorld d 0 0 [] [].

(** An outbound result as the partner would store it: status 10. *)
Definition received (rid : Z) (at_ : string) (text : option string) : Event :=
  mkEvent rid at_ O text None None None None 10 "assessment_result" (Some at_) 0.
End Demo.

(** * Vocabulary of the properties *)

Definition lookup (d : Database) (event_id : Z) : option Event :=
  find (has_id event_id) (common_event d).

Definition absent (d : Database) (event_id : Z) : Prop :=
  forall e, In e (common_event d) -> id e <> event_id.

(** [n] calls of [_increment_error] in a row, with the same arguments. *)
Fixpoint record_failures {host : Host} (n : nat) (event_id current_status : Z)
         (error_message : string) : M (list bool) :=
  match n with
  | Datatypes.O => ret []
  | S k =>
      escalated <- MHTResultProcessor._increment_error event_id current_status
                     error_message ;;
      later <- record_failures k event_id current_status error_message ;;
      ret (escalated :: later)
  end.

(** How many rows of [common_eventerror] reference an event. *)
Definition errors_for (d : Database) (x : Z) : Z :=
  Z.of_nat (List.length (filter (fun r => event_id r =? x) (common_eventerror d))).

Module DemoFailures.
Definition ev : Event := Demo.received 1 "2024-01-01T00:00:00" (Some "{").
Definition w0 : World := Demo.world_of (mkDatabase [ev] [] 1 0).

(** An outbound event that the delivery worker left at ERROR. *)
Definition failed : Event := set_status OutboundWorker.STATUS_ERROR ev.
Definition w_failed : World := Demo.world_of (mkDatabase [failed] [] 1 0).

(** The event as [_process_single_result] has it when it counts an error:
    already moved to PROCESSING. *)
Definition processing : Event := set_status MHTResultProcessor.STATUS_PROCESSING ev.
Definition w_processing : World := Demo.world_of (mkDatabase [processing] [] 1 0).
End DemoFailures.

(** A method rewrote the rows with id [x] by some [f] that satisfies [P],
    touched no other row and no error row. *)
Definition rewrites (x : Z) (P : Event -> Event -> Prop) (w w' : World) : Prop :=
  exists f,
    (forall e, P e (f e)) /\
    common_event (db w') = map (update_row x f) (common_event (db w)) /\
    common_eventerror (db w') = common_eventerror (db w).

(** A method left the database file alone: no write, no commit. *)
Definition quiet (w w' : World) : Prop :=
  db w' = db w /\ history w' = history w.

Definition post {A : Type} (Q : World -> World -> Prop) (m : M A) : Prop :=
  forall w r w', m w = (r, w') -> Q w w'.

(** What a status update keeps and what it sets. *)
Definition restamped (s : Z) (e e' : Event) : Prop :=
  id e' = id e /\ direction e' = direction e /\ status e' = s /\
  error_count e' = error_count e /\ raw_data e' = raw_data e /\
  received_at e' = received_at e.

(** What the error counter keeps and what it may set. *)
Definition recounted (c : Z) (e e' : Event) : Prop :=
  id e' = id e /\ direction e' = direction e /\
  (status e' = status e \/ status e' = - Z.abs c).

(** No row becomes ready to process that was not ready before. *)
Definition settles (e e' : Event) : Prop :=
  id e' = id e /\ direction e' = direction e /\
  (status e' = MHTResultProcessor.STATUS_OUTBOUND_READY ->
   status e = MHTResultProcessor.STATUS_OUTBOUND_READY).

Definition calmer (w w' : World) : Prop :=
  Forall2 settles (common_event (db w)) (common_event (db w')).

(** No row with id [x] is ready to process. *)
Definition cool (x : Z) (w : World) : Prop :=
  forall e, In e (common_event (db w)) -> id e = x ->
            status e <> MHTResultProcessor.STATUS_OUTBOUND_READY.

Definition ready_to_process (e : Event) : bool :=
  Direction_eqb (direction e) O && (status e =? MHTResultProcessor.STATUS_OUTBOUND_READY).

(** Ascending on the key: every row is at most every later one. *)
Definition ascending (K : Type) (key_leb : K -> K -> bool) (key : Event -> K)
           (l : list Event) : Prop :=
  StronglySorted (fun a b => key_leb (key a) (key b) = true) l.

Definition ready_for_delivery (e : Event) : bool :=
  Direction_eqb (direction e) O && (status e =? OutboundWorker.STATUS_READY).

Module DemoOrder.
Definition t1 : string := "2024-01-01T09:00:00".
Definition t2 : string := "2024-01-01T09:00:01".
Definition t3 : string := "2024-01-01T09:00:02".

(** Three results ready to process whose ids run against their receipt
    times. *)
Definition late : Event := Demo.received 1 t3 (Some "{}").
Definition early : Event := Demo.received 2 t1 (Some "{}").
Definition middle : Event := Demo.received 3 t2 (Some "{}").
Definition w : World := Demo.world_of (mkDatabase [late; early; middle] [] 3 0).

(** The same three, committed and waiting for delivery. *)
Definition w_delivery : World :=
  Demo.world_of
    (mkDatabase (map (set_status OutboundWorker.STATUS_READY) [late; early; middle])
                [] 3 0).

(** Two inbound events created one after the other, the second one
    converted first. *)
Definition w_converted : World :=
  snd ((MHTDatabase.create_event (host := Demo.host) Demo.jane "patient_extraction" ;;;
        MHTDatabase.create_event (host := Demo.host) Demo.jane "patient_extraction" ;;;
        MHTDatabase.update_event_converted (host := Demo.host) 2 Demo.jane ;;;
        MHTDatabase.update_event_converted (host := Demo.host) 1 Demo.jane)
         (Demo.world_of Demo.empty_db)).
End DemoOrder.

Module DemoSimulator.
Definition self : MHTResponseSimulator.t := MHTResponseSimulator.mk 30 [].

(** One inbound event, converted and sent. *)
Definition w0 : World :=
  snd ((MHTDatabase.create_event (host := Demo.host) Demo.jane "patient_extraction" ;;;
        MHTDatabase.update_event_converted (host := Demo.host) 1 Demo.jane ;;;
        MHTDatabase.update_event_sent (host := Demo.host) 1 (JDict []))
         (Demo.world_of Demo.empty_db)).

(** The simulator answers it. *)
Definition w1 : World :=
  snd (snd (MHTResponseSimulator._check_and_respond (host := Demo.host) (self, w0))).
End DemoSimulator.

(** [n] passes of a loop body, one after the other. *)
Fixpoint passes (n : nat) (pass : M unit) : M unit :=
  match n with
  | Datatypes.O => ret tt
  | S k => pass ;;; passes k pass
  end.

(** The rows with id [x] are what they were. *)
Definition same_rows_at (x : Z) (w w' : World) : Prop :=
  filter (has_id x) (common_event (db w')) = filter (has_id x) (common_event (db w)).

Definition never_fetched (x : Z) (w : World) : Prop :=
  forall l, fst (MHTResultProcessor._get_pending_results w) = Ok l ->
            forall e, In e l -> id e <> x.

Definition status_in (d : Database) (x : Z) : option Z :=
  option_map status (lookup d x).

Definition statuses (x : Z) (commits : list Database) : list (option Z) :=
  map (fun d => status_in d x) commits.

(** The registered callback, if any, returns normally on the notice of
    this delivery. *)
Definition callback_returns (self : OutboundWorker.t) (event_id : Z)
           (patient_name : string) : Prop :=
  match OutboundWorker._callback self with
  | Some cb => cb (OutboundWorker.done_notice event_id patient_name) = Ok tt
  | None => True
  end.

Definition never_delivered (x : Z) (w : World) : Prop :=
  forall l, fst (OutboundWorker._get_ready_outbound_events w) = Ok l ->
            forall e, In e l -> id e <> x.

(** The ids in the table are what they were, in the same order. *)
Definition same_ids (w w' : World) : Prop :=
  map id (common_event (db w')) = map id (common_event (db w)).

Definition unchanged (w w' : World) : Prop := w' = w.

(** What holds of every step of [_process_event] on an event whose id is
    not [x]: ids stay, rows with id [x] stay. *)
Definition aside (x : Z) (w w' : World) : Prop :=
  same_ids w w' /\ same_rows_at x w w'.

(** The event with id [x] sits at ERROR and ids are unique. *)
Definition parked (x : Z) (e : Event) (w : World) : Prop :=
  NoDup (map id (common_event (db w))) /\
  lookup (db w) x = Some e /\ status e = OutboundWorker.STATUS_ERROR.

Module DemoDelivery.
(** A committed result waiting for delivery. *)
Definition ev : Event :=
  mkEvent 1 "2024-01-01T00:00:00" O (Some (Demo.dumps Demo.result_for_jane))
          None None None None OutboundWorker.STATUS_READY "assessment_result"
          (Some "2024-01-01T00:00:00") 0.
Definition w0 : World := Demo.world_of (mkDatabase [ev] [] 1 0).
Definition self : OutboundWorker.t := OutboundWorker.mk 50 None.

Definition flow_fails : World -> string -> list JSON -> Outcome bool :=
  fun _ _ _ => Ok false.
Definition flow_succeeds : World -> string -> list JSON -> Outcome bool :=
  fun _ _ _ => Ok true.
End DemoDelivery.

(** * Vocabulary of the further properties *)

(** The row [create_event] writes at clock reading [now]. *)
Definition created_row {host : Host} (rid : Z) (now : string) (raw : JSON)
           (kind : string) : Event :=
  mkEvent rid now I (Some (json_dumps raw)) None None None None 0 kind (Some now) 0.

Definition same_notices (w w' : World) : Prop := notified w' = notified w.

Definition count_rows (p : Event -> bool) (d : Database) : Z :=
  Z.of_nat (List.length (filter p (common_event d))).

Definition is_outbound (e : Event) : bool := Direction_eqb (direction e) O.

(** An outbound row that [get_stats] puts in none of its three outbound
    counts: its status is neither 10 nor 100 nor negative. *)
Definition uncounted (e : Event) : bool :=
  is_outbound e && (0 <=? status e) && negb (status e =? 10) && negb (status e =? 100).

Definition returns {A : Type} (P : A -> Prop) (m : M A) : Prop :=
  forall w a w', m w = (Ok a, w') -> P a.

(** What the processor stores as response_data next to a summary. *)
Definition response_for (summary : JSON) (now : string) : JSON :=
  JDict [ ("processed", JBool true); ("processed_at", JStr now);
          ("summary", summary); ("status", JStr "success") ].

(** The row of an event once its summary is committed. *)
Definition completed_row {host : Host} (e : Event) (summary : JSON)
           (processed_at committed_at : string) : Event :=
  mkEvent (id e) (received_at e) (direction e) (raw_data e)
          (Some committed_at) (Some (json_dumps summary))
          (Some committed_at) (Some (json_dumps (response_for summary processed_at)))
          MHTResultProcessor.STATUS_COMPLETE (kind e) (Some committed_at)
          (error_count e).

(** The part of [_process_single_result] that follows the commit of the
    summary: the callback, then [return True], inside the try. *)
Definition after_commit {host : Host} (self : MHTResultProcessor.t) (x : Z)
           (summary : JSON) : M bool :=
  try_except
    (match MHTResultProcessor._on_result_processed self with
     | Some cb => invoke cb summary
     | None => ret tt
     end ;;; ret true)
    (fun e =>
       MHTResultProcessor._increment_error x MHTResultProcessor.STATUS_OUTBOUND_READY
         (exn_message e) ;;;
       ret false).

(** The registered callback, if any, returns normally on this summary. *)
Definition callback_accepts (self : MHTResultProcessor.t) (summary : JSON) : Prop :=
  match MHTResultProcessor._on_result_processed self with
  | Some cb => cb summary = Ok tt
  | None => True
  end.

Definition notices_for (self : MHTResultProcessor.t) (summary : JSON) : list JSON :=
  match MHTResultProcessor._on_result_processed self with
  | Some _ => [summary]
  | None => []
  end.

Module DemoProcessing.
(** A well-formed result, ready to process. *)
Definition ev : Event :=
  Demo.received 1 "2024-01-01T00:00:00" (Some (Demo.dumps Demo.result_for_jane)).
Definition w0 : World := Demo.world_of (mkDatabase [ev] [] 1 0).

Definition quiet_self : MHTResultProcessor.t := MHTResultProcessor.mk 10 None.
Definition failing_self : MHTResultProcessor.t :=
  MHTResultProcessor.mk 10 (Some (fun _ => Raise (OtherError "callback"))).

(** The world in which the payload is read: the event is at PROCESSING. *)
Definition w1 : World :=
  snd (MHTResultProcessor._update_status (host := Demo.host) 1
         MHTResultProcessor.STATUS_PROCESSING None None w0).

Definition summary : JSON :=
  match fst (MHTResultProcessor._process_assessment_result (host := Demo.host) ev w1) with
  | Ok s => s
  | Raise _ => JNull
  end.

Definition w2 : World :=
  snd (MHTResultProcessor._process_assessment_result (host := Demo.host) ev w1).
End DemoProcessing.


Definition is_object (v : JSON) : bool :=
  match v with JDict _ => true | _ => false end.

Module DemoEdge.
(** The example host, decoding a few more documents. *)
Definition library : list JSON :=
  Demo.library ++ [ JNull; JList []; JDict [("data", JList [])] ].

Definition loads (text : string) : option JSON :=
  find (fun v => String.eqb (Demo.dumps v) text) library.

#[export] Instance host : Host := {
  json_loads := loads;
  json_dumps := Demo.dumps;
  py_str := Demo.show;
  str_strip := fun s => s;
  clock := Demo.reading;
  strftime := fun _ t => t;
  randint := fun n lo hi => lo + Z.of_nat n mod (hi - lo + 1);
  fromisoformat := fun _ => Some 0;
  seconds_since := fun _ _ => 60
}.
End DemoEdge.

Definition has_len (v : JSON) : Prop :=
  match v with
  | JList _ | JDict _ | JStr _ => True
  | _ => False
  end.

(** An assessment the processor can summarize: an object whose
    "assessment_items", if present, has a length. *)
Definition summarizable (a : JSON) : Prop :=
  exists kv,
    a = JDict kv /\
    match assoc "assessment_items" kv with
    | Some items => has_len items
    | None => True
    end.

(** How a summary entry relates to the assessment it was made from. *)
Definition summarizes (a s : JSON) : Prop :=
  py_get s "assessment_id" JNull = py_get a "assessment_id" JNull /\
  py_get s "assessment_name" JNull = py_get a "assessment_name" JNull /\
  py_get s "assessment_type" JNull = py_get a "assessment_type" JNull /\
  py_get s "total_score" JNull = py_get a "total_score_value" JNull /\
  py_get s "flagged_abnormal" JNull = py_get a "flagged_abnormal" (JBool false) /\
  (exists legend fallback,
      py_get a "total_score_legend" JNull = Ok legend /\
      py_get a "patient_score_legend_value" JNull = Ok fallback /\
      py_get s "severity" JNull = Ok (py_or legend fallback)) /\
  (exists items n,
      py_get a "assessment_items" (JList []) = Ok items /\
      py_len items = Ok n /\
      py_get s "item_count" JNull = Ok (JInt n)).

(** The host's [random.randint] stays within the bounds it is given. *)
Definition randint_in_bounds (host : Host) : Prop :=
  forall n lo hi, lo <= hi -> lo <= randint n lo hi <= hi.

(** The nine PHQ-9 scores drawn from a world. *)
Definition drawn_scores {host : Host} (w : World) : list Z :=
  map (fun k => randint (k + draws w) 0 3) (seq 0 9).

Definition drawn_total {host : Host} (w : World) : Z :=
  fold_right Z.add 0 (drawn_scores w).

(** The patient member of the converted data, [{}] when it is missing. *)
Definition patient_of (kv : list (string * JSON)) : JSON :=
  match assoc "patient" kv with
  | Some p => p
  | None => JDict []
  end.

(** The document [_generate_mock_assessment] builds, given what it read
    from the converted data, the items it made from its draws, and its
    clock readings. *)
Definition mock_document {host : Host} (self : MHTResponseSimulator.t)
           (kv pkv : list (string * JSON)) (w : World) (items : list JSON) : JSON :=
  let get (l : list (string * JSON)) (k : string) (d : JSON) :=
    match assoc k l with Some v => v | None => d end in
  let patient_id := get pkv "patient_id" (JStr "unknown") in
  let first_name := get pkv "patient_first_name" (JStr EmptyString) in
  let last_name := get pkv "patient_last_name" (JStr EmptyString) in
  let total_score := drawn_total w in
  let severity := MHTResponseSimulator.severity_of total_score in
  let now k := clock (k + tick w)%nat in
  JDict [
    ("data", JDict [
       ("Status", JStr "Success");
       ("clinic", JDict [ ("protocol", JStr "API");
                          ("clinic_id", get kv "clinic_id" (JInt 110));
                          ("clinic_name", JStr "Southern Immediate Care");
                          ("clinic_location",
                           JStr "SOUTHERN IMMEDIATE CARE - ATTALLA") ]);
       ("patient", JDict [ ("patient_id", patient_id);
                           ("patient_first_name", first_name);
                           ("patient_last_name", last_name);
                           ("patient_mobile", get pkv "patient_mobile" (JStr EmptyString));
                           ("patient_email", get pkv "patient_email" (JStr EmptyString)) ]);
       ("assessment_response_url",
        JStr (MHTResponseSimulator.cat
                [ "https://mht-assessments.s3.amazonaws.com/reports/";
                  py_str patient_id; "_"; strftime "%Y%m%d%H%M%S" (now 0%nat); ".pdf" ]));
       ("assessment_preferred_language", JStr "EN");
       ("assessment_completed_at", JStr (now 1%nat));
       ("assessment", JList [
          JDict [ ("assessment_id", JInt (randint (9 + draws w) 1000000 9999999));
                  ("assessment_name", JStr "PHQ-9");
                  ("assessment_type", JStr "Depression Screening");
                  ("assessment_items", JList items);
                  ("total_score_legend", JStr severity);
                  ("total_score_value", JStr (py_str (JInt total_score)));
                  ("assessment_overall_legend_score",
                   JStr (MHTResponseSimulator.cat [py_str (JInt total_score); ".0"]));
                  ("patient_score_legend_value", JStr severity);
                  ("assessment_clinical_notes",
                   JStr (MHTResponseSimulator.cat
                           [ "Patient "; py_str first_name; " "; py_str last_name;
                             " completed PHQ-9 screening. Total score: ";
                             py_str (JInt total_score); " ("; severity; ")." ]));
                  ("flagged_abnormal", JBool (10 <=? total_score)) ] ]);
       ("encounter_id",
        JStr (MHTResponseSimulator.cat
                ["ENC_"; py_str patient_id; "_"; strftime "%Y%m%d" (now 2%nat)]));
       ("current_time", JStr (now 3%nat)) ]);
    ("_metadata", JDict [
       ("simulated", JBool true);
       ("simulated_at", JStr (now 4%nat));
       ("source_event_patient",
        JStr (MHTResponseSimulator.cat [py_str last_name; ", "; py_str first_name]));
       ("response_delay_seconds", JInt (MHTResponseSimulator.response_delay self)) ]) ].

(** [v[k1][k2]...] read with [.get]. *)
Fixpoint py_path (keys : list string) (v : JSON) : Outcome JSON :=
  match keys with
  | [] => Ok v
  | k :: rest =>
      match py_get v k JNull with
      | Ok x => py_path rest x
      | Raise e => Raise e
      end
  end.

Definition get_or (kv : list (string * JSON)) (k : string) (d : JSON) : JSON :=
  match assoc k kv with
  | Some v => v
  | None => d
  end.

Module DemoPipeline.
(** The document the simulator generates for Jane on the example host. *)
Definition mock : JSON :=
  match fst (MHTResponseSimulator._generate_mock_assessment (host := Demo.host)
               DemoSimulator.self Demo.jane DemoSimulator.w0) with
  | Ok m => m
  | Raise _ => JNull
  end.

(** The example host, decoding that document too. *)
Definition loads (text : string) : option JSON :=
  find (fun v => String.eqb (Demo.dumps v) text) (Demo.library ++ [mock]).

#[export] Instance host : Host := {
  json_loads := loads;
  json_dumps := Demo.dumps;
  py_str := Demo.show;
  str_strip := fun s => s;
  clock := Demo.reading;
  strftime := fun _ t => t;
  randint := fun n lo hi => lo + Z.of_nat n mod (hi - lo + 1);
  fromisoformat := fun _ => Some 0;
  seconds_since := fun _ _ => 60
}.

(** The simulated result as the processor fetches it. *)
Definition ev : Event :=
  mkEvent 2 "2024-01-01T00:00:03" O (Some (Demo.dumps mock)) None None None None
          10 "assessment_result" (Some "2024-01-01T00:00:03") 0.
End DemoPipeline.

Definition post_se {S A : Type} (Q : S -> S -> Prop) (m : SE S A) : Prop :=
  forall s r s', m s = (r, s') -> Q s s'.

(** What one or more steps of [_check_and_respond] over the fetched rows
    [fetched] did: they added ids to the object's set and rows to the
    table, one row per id, each id one of a fetched row and not in the set
    before, each row an outbound one at status 100. *)
Definition answered (fetched : list Event)
           (s s' : MHTResponseSimulator.t * World) : Prop :=
  exists added new,
    MHTResponseSimulator._processed_event_ids (fst s')
      = added ++ MHTResponseSimulator._processed_event_ids (fst s) /\
    MHTResponseSimulator.response_delay (fst s')
      = MHTResponseSimulator.response_delay (fst s) /\
    common_event (db (snd s')) = common_event (db (snd s)) ++ new /\
    common_eventerror (db (snd s')) = common_eventerror (db (snd s)) /\
    List.length new = List.length added /\
    Forall (fun e => direction e = O /\
                     status e = MHTResponseSimulator.STATUS_OUTBOUND_READY) new /\
    Forall (fun i => ~ In i (MHTResponseSimulator._processed_event_ids (fst s)) /\
                     In i (map id fetched)) added /\
    NoDup added.

(** The tail of [respond_to] after the outbound event is created: the id
    is recorded, then the patient's names are read for the log line. *)
Definition record_and_log (event_id : Z) (converted : JSON)
  : SE (MHTResponseSimulator.t * World) unit :=
  MHTResponseSimulator.mark_processed event_id ;;;
  patient <- lift_outcome (py_get converted "patient" (JDict [])) ;;
  lift_outcome (py_get patient "patient_first_name" (JStr EmptyString)) ;;;
  lift_outcome (py_get patient "patient_last_name" (JStr EmptyString)) ;;;
  ret tt.

Module DemoBlocked.
(** Two converted inbound events; the converted data of the first is not
    a JSON document. *)
Definition bad : Event :=
  mkEvent 1 "2024-01-01T00:00:00" I (Some (Demo.dumps Demo.jane))
          (Some "2024-01-01T00:00:01") (Some "{") None None 1
          "patient_extraction" (Some "2024-01-01T00:00:01") 0.

Definition good : Event :=
  mkEvent 2 "2024-01-01T00:00:02" I (Some (Demo.dumps Demo.jane))
          (Some "2024-01-01T00:00:03") (Some (Demo.dumps Demo.jane)) None None 1
          "patient_extraction" (Some "2024-01-01T00:00:03") 0.

Definition w0 : World := Demo.world_of (mkDatabase [bad; good] [] 2 0).
End DemoBlocked.

Module DemoCallback.
(** A worker whose callback always raises. *)
Definition failing_self : OutboundWorker.t :=
  OutboundWorker.mk 50 (Some (fun _ => Raise (ValueError "callback failed"))).

(** Two results waiting for delivery and an inbound event. *)
Definition second : Event :=
  mkEvent 2 "2024-01-01T00:00:05" O (Some "{") None None None None
          OutboundWorker.STATUS_READY "assessment_result"
          (Some "2024-01-01T00:00:05") 0.

Definition inbound : Event :=
  mkEvent 3 "2024-01-01T00:00:06" I (Some (Demo.dumps Demo.jane)) None None None None
          0 "patient_extraction" (Some "2024-01-01T00:00:06") 0.

Definition w0 : World :=
  Demo.world_of (mkDatabase [DemoDelivery.ev; second; inbound] [] 3 0).
End DemoCallback.

(** * Properties *)

(** ** Rows, updates and lookups *)

Lemma update_absent (x : Z) (f : Event -> Event) (rows : list Event) :
  (forall e, In e rows -> id e <> x) ->
  map (update_row x f) rows = rows /\ filter (has_id x) rows = [].
Proof.
  induction rows as [|e rows IH]; intros Hx; [now split|].
  assert (He : id e <> x) by (apply Hx; now left).
  destruct IH as [IHm IHf]; [intros e' He'; apply Hx; now right|].
  cbn. unfold update_row at 1, has_id at 1.
  apply Z.eqb_neq in He. rewrite He. now rewrite IHm, IHf.
Qed.

Lemma database_eta (d : Database) :
  mkDatabase (common_event d) (common_eventerror d) (seq_event d) (seq_eventerror d) = d.
Proof. now destruct d. Qed.

Ltac run :=
  unfold with_connection, bind, ret, raise, lift_outcome, commit, tx_now,
         datetime_now, update_event, select_event, insert_event,
         insert_eventerror, select_where_order_by, EventStatus.attr;
  cbn.

Ltac run_in H :=
  unfold with_connection, bind, ret, raise, lift_outcome, commit, tx_now,
         datetime_now, update_event, select_event, insert_event,
         insert_eventerror, select_where_order_by, EventStatus.attr in H;
  cbn in H.

(** ** record_error *)

(** C5. Every call of [MHTDatabase.record_error] raises AttributeError for
    the missing member [EventStatus.ERROR] before it commits: it returns no
    error-record id, and the database file, both tables, is as it was (no
    commit is made either). *)
Theorem record_error_always_raises :
  forall (host : Host) (w : World) (event_id : Z) (error_message : string),
    fst (MHTDatabase.record_error event_id error_message w)
      = Raise (AttributeError "ERROR") /\
    db (snd (MHTDatabase.record_error event_id error_message w)) = db w /\
    history (snd (MHTDatabase.record_error event_id error_message w)) = history w.
Proof.
  intros host w event_id error_message.
  unfold MHTDatabase.record_error. run. auto.
Qed.

(** ** Updates of a row that is not there *)

(** C7. When no row has the given id, [update_event_converted],
    [update_event_sent], [expire_event] and the processor's
    [_update_status] return False without raising and leave the database
    file as it was. *)
Theorem advance_missing_row_is_noop :
  forall (host : Host) (w : World) (event_id : Z),
    absent (db w) event_id ->
    (forall payload,
        fst (MHTDatabase.update_event_converted event_id payload w) = Ok false /\
        db (snd (MHTDatabase.update_event_converted event_id payload w)) = db w) /\
    (forall payload,
        fst (MHTDatabase.update_event_sent event_id payload w) = Ok false /\
        db (snd (MHTDatabase.update_event_sent event_id payload w)) = db w) /\
    (fst (MHTDatabase.expire_event event_id w) = Ok false /\
     db (snd (MHTDatabase.expire_event event_id w)) = db w) /\
    (forall status converted_data response_data,
        fst (MHTResultProcessor._update_status event_id status converted_data
               response_data w) = Ok false /\
        db (snd (MHTResultProcessor._update_status event_id status converted_data
                   response_data w)) = db w).
Proof.
  intros host w event_id Habs.
  assert (Hm : forall f, map (update_row event_id f) (common_event (db w))
                         = common_event (db w))
    by (intro f; apply update_absent, Habs).
  assert (Hf : filter (has_id event_id) (common_event (db w)) = [])
    by (apply (update_absent event_id (fun e => e)), Habs).
  split; [|split; [|split]].
  - intro payload. unfold MHTDatabase.update_event_converted. run.
    rewrite Hm, Hf. cbn. auto using database_eta.
  - intro payload. unfold MHTDatabase.update_event_sent. run.
    rewrite Hm, Hf. cbn. auto using database_eta.
  - unfold MHTDatabase.expire_event. run.
    rewrite Hm, Hf. cbn. auto using database_eta.
  - intros status converted_data response_data.
    unfold MHTResultProcessor._update_status. run.
    destruct converted_data as [cd|], response_data as [rd|];
      try destruct (py_truthy cd && py_truthy rd);
      cbn; rewrite Hm, Hf; cbn; auto using database_eta.
Qed.

Lemma advance_missing_row_is_noop_witness :
  absent (db (Demo.world_of Demo.empty_db)) 7 /\
  fst (MHTDatabase.update_event_converted (host := Demo.host) 7 Demo.jane
         (Demo.world_of Demo.empty_db))
    = Ok false.
Proof.
  assert (H : absent (db (Demo.world_of Demo.empty_db)) 7)
    by (intros e He; destruct He).
  split; [exact H|].
  apply (advance_missing_row_is_noop Demo.host (Demo.world_of Demo.empty_db) 7 H).
Defined.

(** ** The processor's error counter *)

Lemma find_update_row (x : Z) (f : Event -> Event) (rows : list Event) :
  (forall e, id (f e) = id e) ->
  find (has_id x) (map (update_row x f) rows) = option_map f (find (has_id x) rows).
Proof.
  intros Hid. induction rows as [|e rows IH]; [reflexivity|].
  cbn [map find]. rewrite IH. unfold update_row, has_id.
  destruct (id e =? x) eqn:E.
  - rewrite Hid, E. reflexivity.
  - rewrite E. reflexivity.
Qed.

Lemma increment_error_step (host : Host) (w : World) (x c : Z) (msg : string)
      (e : Event) :
  lookup (db w) x = Some e ->
  exists w' e',
    MHTResultProcessor._increment_error x c msg w
      = (Ok (MHTResultProcessor.MAX_ERRORS <=? error_count e + 1), w') /\
    lookup (db w') x = Some e' /\
    error_count e' = error_count e + 1 /\
    status e' = (if MHTResultProcessor.MAX_ERRORS <=? error_count e + 1
                 then - Z.abs c else status e) /\
    common_eventerror (db w') = common_eventerror (db w).
Proof.
  intros Hl. unfold lookup in Hl.
  unfold MHTResultProcessor._increment_error. run. rewrite Hl.
  destruct (MHTResultProcessor.MAX_ERRORS <=? error_count e + 1) eqn:E; cbn.
  - eexists _, _. split; [reflexivity|]. cbn. unfold lookup. cbn.
    rewrite find_update_row by reflexivity. rewrite Hl. cbn. auto.
  - eexists _, _. split; [reflexivity|]. cbn. unfold lookup. cbn.
    rewrite find_update_row by reflexivity. rewrite Hl. cbn. auto.
Qed.

Lemma record_failures_S (host : Host) (k : nat) (x c : Z) (msg : string)
      (w w1 : World) (b : bool) :
  MHTResultProcessor._increment_error x c msg w = (Ok b, w1) ->
  record_failures (S k) x c msg w =
    match record_failures k x c msg w1 with
    | (Ok later, w2) => (Ok (b :: later), w2)
    | (Raise ex, w2) => (Raise ex, w2)
    end.
Proof.
  intros H. cbn [record_failures]. unfold bind at 1. rewrite H.
  unfold bind, ret. destruct (record_failures k x c msg w1) as [[later|ex] w2];
    reflexivity.
Qed.

(** C3, as the code has it.  Starting from an existing event with
    error_count 0, three consecutive calls of [_increment_error] each return
    False, leave the status as it was and make error_count 3; the fourth
    call returns True, makes error_count 4 and sets the status to
    [-abs(current_status)], the negated magnitude of the status the caller
    passes: that is [-S] when the caller passes the event's status [S] and
    [S >= 0]. *)
Theorem four_failures_escalate :
  forall (host : Host) (w : World) (x c : Z) (msg : string) (e : Event),
    lookup (db w) x = Some e ->
    error_count e = 0 ->
    (exists w3 e3,
        record_failures 3 x c msg w = (Ok [false; false; false], w3) /\
        lookup (db w3) x = Some e3 /\
        status e3 = status e /\ error_count e3 = 3) /\
    (exists w4 e4,
        record_failures 4 x c msg w = (Ok [false; false; false; true], w4) /\
        lookup (db w4) x = Some e4 /\
        status e4 = - Z.abs c /\ error_count e4 = 4 /\
        (c = status e -> 0 <= status e -> status e4 = - status e)).
Proof.
  intros host w x c msg e Hl H0.
  destruct (increment_error_step host w x c msg e Hl)
    as (w1 & e1 & R1 & L1 & C1 & S1 & _).
  destruct (increment_error_step host w1 x c msg e1 L1)
    as (w2 & e2 & R2 & L2 & C2 & S2 & _).
  destruct (increment_error_step host w2 x c msg e2 L2)
    as (w3 & e3 & R3 & L3 & C3 & S3 & _).
  destruct (increment_error_step host w3 x c msg e3 L3)
    as (w4 & e4 & R4 & L4 & C4 & S4 & _).
  rewrite H0 in *. rewrite C1 in *. rewrite C2 in *. rewrite C3 in *.
  cbn in R1, R2, R3, R4, S1, S2, S3, S4, C1, C2, C3, C4.
  split.
  - exists w3, e3.
    rewrite (record_failures_S _ _ _ _ _ _ _ _ R1).
    rewrite (record_failures_S _ _ _ _ _ _ _ _ R2).
    rewrite (record_failures_S _ _ _ _ _ _ _ _ R3).
    cbn. repeat split; try assumption; congruence.
  - exists w4, e4.
    rewrite (record_failures_S _ _ _ _ _ _ _ _ R1).
    rewrite (record_failures_S _ _ _ _ _ _ _ _ R2).
    rewrite (record_failures_S _ _ _ _ _ _ _ _ R3).
    rewrite (record_failures_S _ _ _ _ _ _ _ _ R4).
    cbn. repeat split; try assumption.
    intros -> Hs. rewrite S4. rewrite Z.abs_eq by assumption. reflexivity.
Qed.

Lemma four_failures_escalate_witness :
  lookup (db DemoFailures.w0) 1 = Some DemoFailures.ev /\
  error_count DemoFailures.ev = 0 /\
  exists w4 e4,
    record_failures (host := Demo.host) 4 1 10 "boom" DemoFailures.w0
      = (Ok [false; false; false; true], w4) /\
    lookup (db w4) 1 = Some e4 /\ status e4 = -10 /\ error_count e4 = 4.
Proof.
  split; [reflexivity|]. split; [reflexivity|].
  destruct (four_failures_escalate Demo.host DemoFailures.w0 1 10 "boom"
              DemoFailures.ev eq_refl eq_refl) as [_ (w4 & e4 & R & L & St & Ct & _)].
  exists w4, e4. auto.
Defined.

(** C3 as the claim words it fails in two ways.  On an event whose status
    is negative: the first event below is at status -100 with error_count
    0, the caller passes that status, and after four calls the status is
    still -100, not [-S] = 100.  And when the caller passes another status
    than the event's: the second event is at status 50 with error_count 0,
    the caller passes 10 as [_process_single_result] does, and after four
    calls the status is -10, not [-S] = -50. *)
Lemma four_failures_on_negative_status :
  (lookup (db DemoFailures.w_failed) 1 = Some DemoFailures.failed /\
   status DemoFailures.failed = -100 /\
   error_count DemoFailures.failed = 0 /\
   option_map status
     (lookup (db (snd (record_failures (host := Demo.host) 4 1
                         (status DemoFailures.failed) "boom"
                         DemoFailures.w_failed))) 1)
     = Some (-100) /\
   -100 <> - status DemoFailures.failed) /\
  (lookup (db DemoFailures.w_processing) 1 = Some DemoFailures.processing /\
   status DemoFailures.processing = 50 /\
   error_count DemoFailures.processing = 0 /\
   option_map status
     (lookup (db (snd (record_failures (host := Demo.host) 4 1
                         MHTResultProcessor.STATUS_OUTBOUND_READY "boom"
                         DemoFailures.w_processing))) 1)
     = Some (-10) /\
   -10 <> - status DemoFailures.processing).
Proof. vm_compute. repeat split; congruence. Qed.

(** C4. [_increment_error] adds one to error_count and writes nothing to
    [common_eventerror]: if the counter equalled the number of error rows
    of the event before the call, it exceeds it by one afterwards. *)
Theorem increment_error_writes_no_error_row :
  forall (host : Host) (w : World) (x c : Z) (msg : string) (e : Event),
    lookup (db w) x = Some e ->
    error_count e = errors_for (db w) x ->
    exists e',
      lookup (db (snd (MHTResultProcessor._increment_error x c msg w))) x = Some e' /\
      common_eventerror (db (snd (MHTResultProcessor._increment_error x c msg w)))
        = common_eventerror (db w) /\
      error_count e'
        = errors_for (db (snd (MHTResultProcessor._increment_error x c msg w))) x + 1.
Proof.
  intros host w x c msg e Hl Hinv.
  destruct (increment_error_step host w x c msg e Hl)
    as (w1 & e1 & R1 & L1 & C1 & _ & E1).
  rewrite R1. cbn. exists e1. repeat split; try assumption.
  unfold errors_for. rewrite E1. fold (errors_for (db w) x). lia.
Qed.

Lemma increment_error_writes_no_error_row_witness :
  lookup (db DemoFailures.w0) 1 = Some DemoFailures.ev /\
  error_count DemoFailures.ev = errors_for (db DemoFailures.w0) 1 /\
  exists e',
    lookup (db (snd (MHTResultProcessor._increment_error (host := Demo.host)
                       1 10 "boom" DemoFailures.w0))) 1 = Some e' /\
    common_eventerror
      (db (snd (MHTResultProcessor._increment_error (host := Demo.host)
                  1 10 "boom" DemoFailures.w0))) = [] /\
    error_count e' = 1.
Proof.
  split; [reflexivity|]. split; [reflexivity|].
  destruct (increment_error_writes_no_error_row Demo.host DemoFailures.w0 1 10
              "boom" DemoFailures.ev eq_refl eq_refl) as (e' & L & E & C).
  exists e'. split; [exact L|]. split; [exact E|]. rewrite C. reflexivity.
Defined.

(** ** What the methods do to the rows *)

Section Post.
Variable Q : World -> World -> Prop.
Hypothesis Q_refl : forall w, Q w w.
Hypothesis Q_trans : forall a b c, Q a b -> Q b c -> Q a c.

Lemma post_ret {A : Type} (a : A) : post Q (ret a).
Proof. intros w r w' H. inversion H. subst. apply Q_refl. Qed.

Lemma post_raise {A : Type} (e : Exn) : post Q (@raise World A e).
Proof. intros w r w' H. inversion H. subst. apply Q_refl. Qed.

Lemma post_lift_outcome {A : Type} (o : Outcome A) : post Q (lift_outcome o).
Proof. intros w r w' H. inversion H. subst. apply Q_refl. Qed.

Lemma post_bind {A B : Type} (m : M A) (k : A -> M B) :
  post Q m -> (forall a, post Q (k a)) -> post Q (bind m k).
Proof.
  intros Hm Hk w r w' H. unfold bind in H.
  destruct (m w) as [[a|e] w1] eqn:E.
  - eapply Q_trans; [eapply Hm, E | eapply Hk, H].
  - inversion H. subst. eapply Hm, E.
Qed.

Lemma post_try_except {A : Type} (body : M A) (handler : Exn -> M A) :
  post Q body -> (forall e, post Q (handler e)) -> post Q (try_except body handler).
Proof.
  intros Hb Hh w r w' H. unfold try_except in H.
  destruct (body w) as [[a|e] w1] eqn:E.
  - inversion H. subst. eapply Hb, E.
  - eapply Q_trans; [eapply Hb, E | eapply Hh, H].
Qed.

Lemma post_map_m {A B : Type} (f : A -> M B) (xs : list A) :
  (forall x, post Q (f x)) -> post Q (map_m f xs).
Proof.
  intros Hf. induction xs as [|x xs IH]; cbn [map_m].
  - apply post_ret.
  - apply post_bind; [apply Hf|]. intros y.
    apply post_bind; [apply IH|]. intros ys. apply post_ret.
Qed.

Lemma post_for_each {A : Type} (body : A -> M unit) (xs : list A) :
  (forall x, post Q (body x)) -> post Q (for_each xs body).
Proof.
  intros Hb. induction xs as [|x xs IH]; cbn [for_each].
  - apply post_ret.
  - apply post_bind; [apply Hb|]. intros _. apply IH.
Qed.
End Post.

Lemma quiet_refl (w : World) : quiet w w.
Proof. now split. Qed.

Lemma quiet_trans (a b c : World) : quiet a b -> quiet b c -> quiet a c.
Proof. intros [H1 H2] [H3 H4]. split; congruence. Qed.

Lemma quiet_now (host : Host) : post quiet datetime_now.
Proof. intros w r w' H. inversion H. now split. Qed.

Lemma quiet_randint (host : Host) (lo hi : Z) : post quiet (random_randint lo hi).
Proof. intros w r w' H. inversion H. now split. Qed.

Lemma quiet_invoke (cb : JSON -> Outcome unit) (payload : JSON) :
  post quiet (invoke cb payload).
Proof. intros w r w' H. inversion H. now split. Qed.

Ltac quiet_step :=
  first
    [ apply (post_ret quiet quiet_refl)
    | apply (post_raise quiet quiet_refl)
    | apply (post_lift_outcome quiet quiet_refl)
    | apply quiet_now
    | apply quiet_randint
    | apply quiet_invoke
    | apply (post_bind quiet quiet_trans); [|intro]
    | apply (post_map_m quiet quiet_refl quiet_trans); intro
    | match goal with
      | |- post _ (if ?b then _ else _) => destruct b
      | |- post _ (match ?x with _ => _ end) => destruct x
      end ].

Lemma quiet_assessment_summary (host : Host) (a : JSON) :
  post quiet (MHTResultProcessor.assessment_summary a).
Proof.
  unfold MHTResultProcessor.assessment_summary.
  repeat quiet_step.
Qed.

Lemma quiet_process_assessment_result (host : Host) (event : Event) :
  post quiet (MHTResultProcessor._process_assessment_result event).
Proof.
  unfold MHTResultProcessor._process_assessment_result.
  repeat first [apply (quiet_assessment_summary host) | quiet_step].
Qed.

Lemma quiet_generate_mock_assessment (host : Host)
      (self : MHTResponseSimulator.t) (patient_data : JSON) :
  post quiet (MHTResponseSimulator._generate_mock_assessment self patient_data).
Proof.
  unfold MHTResponseSimulator._generate_mock_assessment.
  repeat quiet_step.
  unfold MHTResponseSimulator.assessment_item.
  destruct x as [i [question score]]. repeat quiet_step.
Qed.

Lemma post_weaken {A : Type} (Q Q' : World -> World -> Prop) (m : M A) :
  (forall w w', Q w w' -> Q' w w') -> post Q m -> post Q' m.
Proof. intros HQ Hm w r w' H. eapply HQ, Hm, H. Qed.

Lemma map_update_row_id (x : Z) (rows : list Event) :
  map (update_row x (fun e => e)) rows = rows.
Proof.
  induction rows as [|e rows IH]; [reflexivity|].
  cbn. rewrite IH. unfold update_row. now destruct (id e =? x).
Qed.

Lemma update_status_effect (host : Host) (x s : Z) (cd rd : option JSON) (w : World) :
  exists b w',
    MHTResultProcessor._update_status x s cd rd w = (Ok b, w') /\
    rewrites x (restamped s) w w'.
Proof.
  unfold MHTResultProcessor._update_status. run.
  destruct cd as [cd|], rd as [rd|]; try destruct (py_truthy cd && py_truthy rd);
    cbn; eexists _, _; (split; [reflexivity|]);
    eexists; (split; [|split; reflexivity]);
    intro e; unfold restamped; cbn; auto 10.
Qed.

Lemma increment_error_effect (host : Host) (x c : Z) (msg : string) (w : World) :
  exists b w',
    MHTResultProcessor._increment_error x c msg w = (Ok b, w') /\
    rewrites x (recounted c) w w'.
Proof.
  unfold MHTResultProcessor._increment_error. run.
  destruct (find (has_id x) (common_event (db w))) as [r|]; cbn.
  - destruct (MHTResultProcessor.MAX_ERRORS <=? error_count r + 1); cbn;
      eexists _, _; (split; [reflexivity|]);
      eexists; (split; [|split; reflexivity]);
      intro e; unfold recounted; cbn; auto.
  - eexists _, _. split; [reflexivity|].
    exists (fun e => e). split; [|split].
    + intro e. unfold recounted. auto.
    + now rewrite map_update_row_id.
    + reflexivity.
Qed.

Lemma update_event_status_effect (host : Host) (x s : Z) (w : World) :
  exists w',
    OutboundWorker._update_event_status x s w = (Ok tt, w') /\
    rewrites x (restamped s) w w' /\
    history w' = history w ++ [db w'].
Proof.
  unfold OutboundWorker._update_event_status. run.
  eexists. split; [reflexivity|]. split; [|reflexivity].
  eexists. split; [|split; reflexivity].
  intro e. unfold restamped. cbn. auto 10.
Qed.

(** ** Draining the queue twice *)

Lemma Forall2_map_same {A : Type} (R : A -> A -> Prop) (g : A -> A) (l : list A) :
  (forall a, R a (g a)) -> Forall2 R l (map g l).
Proof. intros H. induction l; cbn; constructor; auto. Qed.

Lemma calmer_refl (w : World) : calmer w w.
Proof.
  unfold calmer. rewrite <- (map_id (common_event (db w))) at 2.
  apply Forall2_map_same. intro e. unfold settles. auto.
Qed.

Lemma Forall2_trans {A : Type} (R : A -> A -> Prop) :
  (forall a b c, R a b -> R b c -> R a c) ->
  forall l1 l2 l3, Forall2 R l1 l2 -> Forall2 R l2 l3 -> Forall2 R l1 l3.
Proof.
  intros HR l1 l2 l3 H12. revert l3.
  induction H12; intros l3 H23; inversion H23; subst; constructor; eauto.
Qed.

Lemma calmer_trans (a b c : World) : calmer a b -> calmer b c -> calmer a c.
Proof.
  apply Forall2_trans. unfold settles. intros x y z (I1 & D1 & S1) (I2 & D2 & S2).
  repeat split; try congruence. auto.
Qed.

Lemma quiet_calmer (w w' : World) : quiet w w' -> calmer w w'.
Proof. intros [H _]. unfold calmer. rewrite H. apply (calmer_refl w). Qed.

Lemma rewrites_calmer (x : Z) (P : Event -> Event -> Prop) (w w' : World) :
  (forall e e', P e e' -> settles e e') -> rewrites x P w w' -> calmer w w'.
Proof.
  intros HP (f & Hf & Hrows & _). unfold calmer. rewrite Hrows.
  apply Forall2_map_same. intro e. unfold update_row.
  destruct (id e =? x); [apply HP, Hf | unfold settles; auto].
Qed.

Lemma rewrites_cool (x s : Z) (w w' : World) :
  s <> MHTResultProcessor.STATUS_OUTBOUND_READY ->
  rewrites x (restamped s) w w' -> cool x w'.
Proof.
  intros Hs (f & Hf & Hrows & _) e' Hin Hid. rewrite Hrows in Hin.
  apply in_map_iff in Hin. destruct Hin as (e & <- & _).
  unfold update_row in *. destruct (id e =? x) eqn:E.
  - destruct (Hf e) as (_ & _ & -> & _). exact Hs.
  - apply Z.eqb_neq in E. contradiction.
Qed.

Lemma calmer_cool (x : Z) (w w' : World) : calmer w w' -> cool x w -> cool x w'.
Proof.
  unfold calmer, cool. intros HF. induction HF as [|e e' l l' He HF IH];
    intros Hc a Hin Hid; [destruct Hin|].
  destruct Hin as [<- | Hin].
  - destruct He as (I & _ & S). intro Hs. apply (Hc e); [now left | congruence | auto].
  - apply IH; auto. intros b Hb. apply Hc. now right.
Qed.

Lemma restamped_settles (s : Z) (e e' : Event) :
  s <> MHTResultProcessor.STATUS_OUTBOUND_READY -> restamped s e e' -> settles e e'.
Proof. intros Hs (I & D & S & _). unfold settles. repeat split; auto. congruence. Qed.

Lemma recounted_settles (e e' : Event) :
  recounted MHTResultProcessor.STATUS_OUTBOUND_READY e e' -> settles e e'.
Proof.
  intros (I & D & [S|S]); unfold settles; repeat split; auto; try congruence.
  rewrite S. cbn. discriminate.
Qed.

Lemma calmer_update_status (host : Host) (x s : Z) (cd rd : option JSON) :
  s <> MHTResultProcessor.STATUS_OUTBOUND_READY ->
  post calmer (MHTResultProcessor._update_status x s cd rd).
Proof.
  intros Hs w r w' H.
  destruct (update_status_effect host x s cd rd w) as (b & w1 & E & Hrw).
  rewrite E in H. inversion H. subst.
  eapply rewrites_calmer; [|exact Hrw]. intros e e'. now apply restamped_settles.
Qed.

Lemma calmer_increment_error (host : Host) (x : Z) (msg : string) :
  post calmer (MHTResultProcessor._increment_error x
                 MHTResultProcessor.STATUS_OUTBOUND_READY msg).
Proof.
  intros w r w' H.
  destruct (increment_error_effect host x MHTResultProcessor.STATUS_OUTBOUND_READY
              msg w) as (b & w1 & E & Hrw).
  rewrite E in H. inversion H. subst.
  eapply rewrites_calmer; [|exact Hrw]. apply recounted_settles.
Qed.

Lemma try_except_bind {A B : Type} (m : M A) (k : A -> M B) (h : Exn -> M B)
      (w : World) :
  try_except (bind m k) h w =
    match m w with
    | (Ok a, w1) => try_except (k a) h w1
    | (Raise e, w1) => h e w1
    end.
Proof.
  unfold try_except, bind. destruct (m w) as [[a|e] w1]; reflexivity.
Qed.

(** Processing one result always returns, never makes a row ready, and
    leaves no row with the event's id ready. *)
Lemma process_single_result_calms (host : Host) (self : MHTResultProcessor.t)
      (event : Event) (w : World) :
  exists b w',
    MHTResultProcessor._process_single_result self event w = (Ok b, w') /\
    calmer w w' /\ cool (id event) w'.
Proof.
  unfold MHTResultProcessor._process_single_result.
  rewrite try_except_bind.
  destruct (update_status_effect host (id event)
              MHTResultProcessor.STATUS_PROCESSING None None w)
    as (b1 & w1 & E1 & Hrw).
  rewrite E1.
  assert (Hc1 : calmer w w1).
  { eapply rewrites_calmer; [|exact Hrw].
    intros e e'. apply restamped_settles. discriminate. }
  assert (Hk1 : cool (id event) w1)
    by (eapply rewrites_cool; [|exact Hrw]; discriminate).
  match goal with
  | |- exists b w', try_except ?body ?handler w1 = _ /\ _ =>
      assert (Hpost : post calmer (try_except body handler));
      [| assert (Htot : forall ex w2, exists b w', handler ex w2 = (Ok b, w'));
         [| destruct (try_except body handler w1) as [r w'] eqn:E;
            assert (Hr : exists b, r = Ok b) ]]
  end.
  - apply (post_try_except calmer calmer_trans).
    + apply (post_bind calmer calmer_trans);
        [apply (post_weaken quiet), quiet_process_assessment_result;
         apply quiet_calmer|intro summary].
      apply (post_bind calmer calmer_trans);
        [apply (post_weaken quiet), quiet_now; apply quiet_calmer|intro now].
      apply (post_bind calmer calmer_trans);
        [apply calmer_update_status; discriminate|intros _].
      apply (post_bind calmer calmer_trans); [|intros _; apply post_ret, calmer_refl].
      destruct (MHTResultProcessor._on_result_processed self) as [cb|].
      * apply (post_weaken quiet), quiet_invoke. apply quiet_calmer.
      * apply post_ret, calmer_refl.
    + intro ex. apply (post_bind calmer calmer_trans);
        [apply calmer_increment_error|intros _; apply post_ret, calmer_refl].
  - intros ex w2. unfold bind, ret.
    destruct (increment_error_effect host (id event)
                MHTResultProcessor.STATUS_OUTBOUND_READY (exn_message ex) w2)
      as (b & w3 & E & _).
    rewrite E. eauto.
  - unfold try_except in E.
    match type of E with
    | match ?body w1 with _ => _ end = _ =>
        destruct (body w1) as [[a|ex] w2]
    end.
    + inversion E. eauto.
    + destruct (Htot ex w2) as (b & w3 & E3). rewrite E3 in E. inversion E. eauto.
  - destruct Hr as [b ->]. exists b, w'. split; [reflexivity|].
    pose proof (Hpost _ _ _ E) as Hc.
    split; [eapply calmer_trans; eauto | eapply calmer_cool; eauto].
Qed.

Lemma count_processed_calms (host : Host) (self : MHTResultProcessor.t)
      (pending : list Event) :
  forall (n : Z) (w : World),
  exists n' w',
    MHTResultProcessor.count_processed self pending n w = (Ok n', w') /\
    calmer w w' /\
    (forall event, In event pending -> cool (id event) w') /\
    (pending = [] -> n' = n /\ w' = w).
Proof.
  induction pending as [|event rest IH]; intros n w; cbn [MHTResultProcessor.count_processed].
  - exists n, w. split; [reflexivity|]. split; [apply calmer_refl|].
    split; [intros ? []|auto].
  - unfold bind at 1.
    destruct (process_single_result_calms host self event w) as (b & w1 & E & Hc & Hk).
    rewrite E.
    destruct (IH (if b then n + 1 else n) w1) as (n' & w' & E' & Hc' & Hk' & _).
    exists n', w'. split; [exact E'|]. split; [eapply calmer_trans; eauto|].
    split; [|discriminate].
    intros ev [<-|Hin]; [eapply calmer_cool; eauto | auto].
Qed.

Section OrderByFacts.
Variable K : Type.
Variable key_leb : K -> K -> bool.
Variable key : Event -> K.

Lemma insert_sorted_perm (e : Event) (l : list Event) :
  Permutation (e :: l) (insert_sorted key_leb key e l).
Proof.
  induction l as [|x l IH]; cbn; [reflexivity|].
  destruct (key_leb (key e) (key x)); [reflexivity|].
  rewrite perm_swap. now apply perm_skip.
Qed.

Lemma order_by_perm (l : list Event) : Permutation l (order_by key_leb key l).
Proof.
  induction l as [|x l IH]; cbn; [reflexivity|].
  rewrite <- insert_sorted_perm. now apply perm_skip.
Qed.
End OrderByFacts.

Lemma get_pending_results_eq (w : World) :
  MHTResultProcessor._get_pending_results w
    = (Ok (order_by String.leb received_at
             (filter ready_to_process (common_event (db w)))), w).
Proof. destruct w. reflexivity. Qed.

Lemma calmer_no_ready (w w' : World) :
  calmer w w' ->
  (forall e, In e (common_event (db w)) -> ready_to_process e = true ->
             cool (id e) w') ->
  filter ready_to_process (common_event (db w')) = [].
Proof.
  intros Hc Hall.
  assert (H : forall e', In e' (common_event (db w')) -> ready_to_process e' = false).
  { intros e' Hin. destruct (ready_to_process e') eqn:R; [exfalso|reflexivity].
    unfold calmer in Hc.
    assert (Hex : exists e, In e (common_event (db w)) /\ settles e e').
    { clear -Hc Hin. induction Hc as [|a b l l' Hab HF IH]; [destruct Hin|].
      destruct Hin as [<-|Hin].
      - exists a. split; [now left|exact Hab].
      - destruct (IH Hin) as (e & He & Hs). exists e. split; [now right|exact Hs]. }
    destruct Hex as (e & He & (I & D & S)).
    unfold ready_to_process in R. apply andb_true_iff in R. destruct R as [Rd Rs].
    apply Z.eqb_eq in Rs.
    assert (Re : ready_to_process e = true).
    { unfold ready_to_process. rewrite <- D, Rd. cbn. apply Z.eqb_eq. auto. }
    apply (Hall e He Re e' Hin); auto. }
  induction (common_event (db w')) as [|a l IH]; [reflexivity|].
  cbn. rewrite (H a) by now left. apply IH. intros e' Hin. apply H. now right.
Qed.

(** C9. [process_now] always returns a count, and a second call right
    after it, on the world the first call left, fetches no pending event,
    returns 0 and changes nothing: no row of either table, no commit, no
    callback. *)
Theorem process_now_twice :
  forall (host : Host) (self : MHTResultProcessor.t) (w : World),
  exists n w1,
    MHTResultProcessor.process_now self w = (Ok n, w1) /\
    MHTResultProcessor._get_pending_results w1 = (Ok [], w1) /\
    MHTResultProcessor.process_now self w1 = (Ok 0, w1).
Proof.
  intros host self w.
  unfold MHTResultProcessor.process_now at 1. unfold bind at 1.
  rewrite get_pending_results_eq.
  destruct (count_processed_calms host self
              (order_by String.leb received_at
                 (filter ready_to_process (common_event (db w)))) 0 w)
    as (n & w1 & E & Hc & Hk & _).
  exists n, w1. split; [exact E|].
  assert (Hnone : filter ready_to_process (common_event (db w1)) = []).
  { apply (calmer_no_ready w w1 Hc). intros e He Re. apply Hk.
    eapply Permutation_in; [apply order_by_perm|].
    apply filter_In. auto. }
  assert (Hget : MHTResultProcessor._get_pending_results w1 = (Ok [], w1))
    by (rewrite get_pending_results_eq, Hnone; reflexivity).
  split; [exact Hget|].
  unfold MHTResultProcessor.process_now, bind. rewrite Hget. reflexivity.
Qed.

(** ** The order of the rows a query returns *)

Lemma ascii_compare_lt_trans (a b c : ascii) :
  Ascii.compare a b = Lt -> Ascii.compare b c = Lt -> Ascii.compare a c = Lt.
Proof.
  unfold Ascii.compare. rewrite !N.compare_lt_iff. apply N.lt_trans.
Qed.

Lemma string_compare_lt_trans (a : string) :
  forall b c, String.compare a b = Lt -> String.compare b c = Lt ->
              String.compare a c = Lt.
Proof.
  induction a as [|x a IH]; intros [|y b] [|z c]; cbn; try congruence.
  destruct (Ascii.compare x y) eqn:Exy; try discriminate;
    destruct (Ascii.compare y z) eqn:Eyz; try discriminate; intros Hab Hbc.
  - apply Ascii.compare_eq_iff in Exy, Eyz. subst.
    replace (Ascii.compare z z) with Eq
      by (symmetry; unfold Ascii.compare; apply N.compare_refl).
    eauto.
  - apply Ascii.compare_eq_iff in Exy. subst. now rewrite Eyz.
  - apply Ascii.compare_eq_iff in Eyz. subst. now rewrite Exy.
  - now rewrite (ascii_compare_lt_trans x y z).
Qed.

Lemma string_compare_refl (a : string) : String.compare a a = Eq.
Proof.
  induction a as [|x a IH]; cbn; [reflexivity|].
  replace (Ascii.compare x x) with Eq
    by (symmetry; unfold Ascii.compare; apply N.compare_refl).
  exact IH.
Qed.

Lemma string_leb_trans (a b c : string) :
  String.leb a b = true -> String.leb b c = true -> String.leb a c = true.
Proof.
  unfold String.leb.
  destruct (String.compare a b) eqn:Eab; try discriminate;
    destruct (String.compare b c) eqn:Ebc; try discriminate; intros _ _.
  - apply String.compare_eq_iff in Eab, Ebc. subst.
    now rewrite string_compare_refl.
  - apply String.compare_eq_iff in Eab. subst. now rewrite Ebc.
  - apply String.compare_eq_iff in Ebc. subst. now rewrite Eab.
  - now rewrite (string_compare_lt_trans a b c).
Qed.

Lemma string_ltb_leb (a b : string) : String.ltb a b = true -> String.leb a b = true.
Proof. unfold String.ltb, String.leb. now destruct (String.compare a b). Qed.

Lemma string_ltb_neq (a b : string) : String.ltb a b = true -> a <> b.
Proof.
  unfold String.ltb. intros H ->. rewrite string_compare_refl in H. discriminate.
Qed.

Lemma nullable_leb_total (a b : option string) :
  nullable_leb a b = true \/ nullable_leb b a = true.
Proof. destruct a, b; cbn; auto using String.leb_total. Qed.

Lemma nullable_leb_trans (a b c : option string) :
  nullable_leb a b = true -> nullable_leb b c = true -> nullable_leb a c = true.
Proof. destruct a, b, c; cbn; try congruence. apply string_leb_trans. Qed.

Lemma Z_leb_total (a b : Z) : (a <=? b) = true \/ (b <=? a) = true.
Proof. rewrite !Z.leb_le. lia. Qed.

Lemma Z_leb_trans (a b c : Z) :
  (a <=? b) = true -> (b <=? c) = true -> (a <=? c) = true.
Proof. rewrite !Z.leb_le. lia. Qed.

Section Sorting.
Variable K : Type.
Variable key_leb : K -> K -> bool.
Variable key : Event -> K.
Hypothesis key_leb_total : forall a b, key_leb a b = true \/ key_leb b a = true.
Hypothesis key_leb_trans :
  forall a b c, key_leb a b = true -> key_leb b c = true -> key_leb a c = true.

Lemma insert_sorted_ascending (e : Event) (l : list Event) :
  ascending K key_leb key l -> ascending K key_leb key (insert_sorted key_leb key e l).
Proof.
  unfold ascending. induction l as [|x l IH]; intros Hl; cbn.
  - constructor; constructor.
  - inversion Hl as [|? ? Hl' Hx]; subst.
    destruct (key_leb (key e) (key x)) eqn:E.
    + constructor; [exact Hl|]. constructor; [exact E|].
      eapply Forall_impl; [|exact Hx]. intros a Ha. cbn in Ha.
      eapply key_leb_trans; eauto.
    + constructor; [auto|].
      assert (Hxe : key_leb (key x) (key e) = true)
        by (destruct (key_leb_total (key x) (key e)); congruence).
      eapply Permutation_Forall; [apply insert_sorted_perm|].
      constructor; assumption.
Qed.

Lemma order_by_ascending (l : list Event) : ascending K key_leb key (order_by key_leb key l).
Proof.
  induction l as [|x l IH]; cbn; [constructor|].
  now apply insert_sorted_ascending.
Qed.

(** Two ascending arrangements of the same rows are the same list when no
    two different rows tie. *)
Lemma ascending_unique (l1 : list Event) :
  forall l2,
    ascending K key_leb key l1 -> ascending K key_leb key l2 -> Permutation l1 l2 ->
    (forall a b, In a l1 -> In b l1 ->
                 key_leb (key a) (key b) = true -> key_leb (key b) (key a) = true ->
                 a = b) ->
    l1 = l2.
Proof.
  unfold ascending. induction l1 as [|a l1 IH]; intros l2 H1 H2 Hp Hanti.
  - apply Permutation_nil in Hp. now subst.
  - destruct l2 as [|b l2]; [apply Permutation_sym, Permutation_nil in Hp; discriminate|].
    inversion H1 as [|? ? H1' Ha]; subst. inversion H2 as [|? ? H2' Hb]; subst.
    assert (Hab : a = b).
    { assert (Hbin : In b (a :: l1))
        by (eapply Permutation_in; [apply Permutation_sym, Hp|now left]).
      assert (Hain : In a (b :: l2))
        by (eapply Permutation_in; [apply Hp|now left]).
      destruct Hbin as [->|Hbin]; [reflexivity|].
      destruct Hain as [->|Hain]; [reflexivity|].
      apply Hanti; [now left | now right | |].
      - rewrite Forall_forall in Ha. auto.
      - rewrite Forall_forall in Hb. auto. }
    subst b. f_equal. apply IH; auto.
    + eapply Permutation_cons_inv, Hp.
    + intros x y Hx Hy. apply Hanti; now right.
Qed.
End Sorting.

Lemma get_ready_outbound_events_eq (w : World) :
  OutboundWorker._get_ready_outbound_events w
    = (Ok (order_by Z.leb id (filter ready_for_delivery (common_event (db w)))), w).
Proof. destruct w. reflexivity. Qed.

Lemma get_pending_events_eq (w : World) :
  MHTDatabase.get_pending_events w
    = (Ok (order_by String.leb received_at
             (filter (fun e => status e =? 0) (common_event (db w)))), w).
Proof. destruct w. reflexivity. Qed.

Lemma get_converted_events_eq (w : World) :
  MHTDatabase.get_converted_events w
    = (Ok (order_by nullable_leb converted_at
             (filter (fun e => status e =? 10) (common_event (db w)))), w).
Proof. destruct w. reflexivity. Qed.

(** C6, as the code has it.  The processor's [_get_pending_results] and
    the store's [get_pending_events] return exactly the matching rows in
    ascending [received_at]; the delivery worker's
    [_get_ready_outbound_events] returns them in ascending [id], and the
    store's [get_converted_events] in ascending [converted_at] (NULL
    first).  For three events ready to process with receipt times
    t1 < t2 < t3, [_get_pending_results] returns them in the order
    [t1, t2, t3] wherever they sit in the table. *)
Theorem pending_queries_order :
  forall (w : World),
    (exists l,
        MHTResultProcessor._get_pending_results w = (Ok l, w) /\
        Permutation (filter ready_to_process (common_event (db w))) l /\
        ascending string String.leb received_at l) /\
    (exists l,
        MHTDatabase.get_pending_events w = (Ok l, w) /\
        Permutation (filter (fun e => status e =? 0) (common_event (db w))) l /\
        ascending string String.leb received_at l) /\
    (exists l,
        OutboundWorker._get_ready_outbound_events w = (Ok l, w) /\
        Permutation (filter ready_for_delivery (common_event (db w))) l /\
        ascending Z Z.leb id l) /\
    (exists l,
        MHTDatabase.get_converted_events w = (Ok l, w) /\
        Permutation (filter (fun e => status e =? 10) (common_event (db w))) l /\
        ascending (option string) nullable_leb converted_at l) /\
    (forall e1 e2 e3,
        Permutation (filter ready_to_process (common_event (db w))) [e1; e2; e3] ->
        String.ltb (received_at e1) (received_at e2) = true ->
        String.ltb (received_at e2) (received_at e3) = true ->
        MHTResultProcessor._get_pending_results w = (Ok [e1; e2; e3], w)).
Proof.
  intro w.
  rewrite get_pending_results_eq, get_pending_events_eq,
    get_ready_outbound_events_eq, get_converted_events_eq.
  split; [|split; [|split; [|split]]].
  - eexists. split; [reflexivity|]. split; [apply order_by_perm|].
    apply order_by_ascending; [apply String.leb_total|apply string_leb_trans].
  - eexists. split; [reflexivity|]. split; [apply order_by_perm|].
    apply order_by_ascending; [apply String.leb_total|apply string_leb_trans].
  - eexists. split; [reflexivity|]. split; [apply order_by_perm|].
    apply order_by_ascending; [apply Z_leb_total|apply Z_leb_trans].
  - eexists. split; [reflexivity|]. split; [apply order_by_perm|].
    apply order_by_ascending; [apply nullable_leb_total|apply nullable_leb_trans].
  - intros e1 e2 e3 Hp H12 H23. do 2 f_equal.
    pose proof (string_ltb_leb _ _ H12) as L12.
    pose proof (string_ltb_leb _ _ H23) as L23.
    pose proof (string_leb_trans _ _ _ L12 L23) as L13.
    symmetry.
    apply (ascending_unique string String.leb received_at).
    + repeat constructor; assumption.
    + apply order_by_ascending; [apply String.leb_total|apply string_leb_trans].
    + rewrite <- Hp. apply order_by_perm.
    + intros a b Ha Hb Hab Hba.
      pose proof (String.leb_antisym _ _ Hab Hba) as Heq.
      pose proof (string_ltb_neq _ _ H12) as N12.
      pose proof (string_ltb_neq _ _ H23) as N23.
      assert (N13 : received_at e1 <> received_at e3).
      { intro E. rewrite E in L12. apply N23.
        apply String.leb_antisym; assumption. }
      cbn in Ha, Hb.
      destruct Ha as [<-|[<-|[<-|[]]]]; destruct Hb as [<-|[<-|[<-|[]]]];
        try reflexivity; exfalso; congruence.
Qed.

Lemma pending_queries_order_witness :
  Permutation (filter ready_to_process (common_event (db DemoOrder.w)))
              [DemoOrder.early; DemoOrder.middle; DemoOrder.late] /\
  String.ltb DemoOrder.t1 DemoOrder.t2 = true /\
  String.ltb DemoOrder.t2 DemoOrder.t3 = true /\
  MHTResultProcessor._get_pending_results DemoOrder.w
    = (Ok [DemoOrder.early; DemoOrder.middle; DemoOrder.late], DemoOrder.w).
Proof.
  assert (Hp : Permutation (filter ready_to_process (common_event (db DemoOrder.w)))
                           [DemoOrder.early; DemoOrder.middle; DemoOrder.late]).
  { cbn. eapply perm_trans; [apply perm_swap|]. apply perm_skip, perm_swap. }
  split; [exact Hp|]. split; [reflexivity|]. split; [reflexivity|].
  destruct (pending_queries_order DemoOrder.w) as (_ & _ & _ & _ & H).
  apply (H DemoOrder.early DemoOrder.middle DemoOrder.late Hp); reflexivity.
Defined.

(** C6 as the claim words it fails for two of the queries.  The delivery
    worker's query returns the three events above in id order, which is
    receipt order [t3, t1, t2]; and after two inbound events are created
    and the later one is converted first, [get_converted_events] returns
    the later one first. *)
Lemma queries_not_in_receipt_order :
  (fst (OutboundWorker._get_ready_outbound_events DemoOrder.w_delivery)
     = Ok (map (set_status OutboundWorker.STATUS_READY)
               [DemoOrder.late; DemoOrder.early; DemoOrder.middle]) /\
   String.ltb (received_at DemoOrder.early) (received_at DemoOrder.late) = true) /\
  (exists first second,
      fst (MHTDatabase.get_converted_events DemoOrder.w_converted)
        = Ok [first; second] /\
      id first = 2 /\ id second = 1 /\
      String.ltb (received_at second) (received_at first) = true).
Proof.
  split; [split; reflexivity|].
  eexists _, _. vm_compute. repeat split.
Qed.

(** ** What the simulator inserts *)

Lemma order_by_In {K : Type} (key_leb : K -> K -> bool) (key : Event -> K)
      (l : list Event) (e : Event) :
  In e (order_by key_leb key l) <-> In e l.
Proof.
  split; apply Permutation_in;
    [apply Permutation_sym|]; apply order_by_perm.
Qed.

(** C1. Whenever [_create_outbound_event] returns, the row it appended is
    an OUTBOUND event with error_count 0 and status 100, the value of the
    simulator's [STATUS_OUTBOUND_READY], not 10: the processor's
    [_get_pending_results] does not return it, the delivery worker's
    [_get_ready_outbound_events] does. *)
Theorem simulator_inserts_status_100 :
  forall (host : Host) (self : MHTResponseSimulator.t) (inbound_event_id : Z)
         (inbound_converted_data : JSON) (w w' : World) (rid : Z),
    MHTResponseSimulator._create_outbound_event self inbound_event_id
      inbound_converted_data w = (Ok rid, w') ->
    exists e,
      common_event (db w') = common_event (db w) ++ [e] /\
      id e = rid /\ direction e = O /\ error_count e = 0 /\
      status e = 100 /\
      status e <> MHTResultProcessor.STATUS_OUTBOUND_READY /\
      (forall l, fst (MHTResultProcessor._get_pending_results w') = Ok l -> ~ In e l) /\
      (forall l, fst (OutboundWorker._get_ready_outbound_events w') = Ok l -> In e l).
Proof.
  intros host self iid data w w' rid H.
  unfold MHTResponseSimulator._create_outbound_event in H.
  unfold bind at 1 in H. cbn [datetime_now] in H. unfold bind at 1 in H.
  match type of H with
  | context [MHTResponseSimulator._generate_mock_assessment self data ?w0] =>
      destruct (MHTResponseSimulator._generate_mock_assessment self data w0)
        as [[mock|ex] w1] eqn:G;
      [apply quiet_generate_mock_assessment in G; destruct G as [Gdb _]
      |discriminate]
  end.
  cbn [db] in Gdb. run_in H. rewrite Gdb in H. inversion H. subst. clear H.
  eexists. split; [reflexivity|].
  repeat (split; [reflexivity || discriminate|]).
  split.
  - intros l Hl. rewrite get_pending_results_eq in Hl. cbn in Hl.
    inversion Hl. subst l. rewrite order_by_In, filter_In. cbn. intros [_ Hr].
    discriminate.
  - intros l Hl. rewrite get_ready_outbound_events_eq in Hl. cbn in Hl.
    inversion Hl. subst l. rewrite order_by_In, filter_In. cbn.
    split; [|reflexivity]. apply in_or_app. right. now left.
Qed.

Lemma simulator_inserts_status_100_witness :
  exists w' e,
    MHTResponseSimulator._create_outbound_event (host := Demo.host)
      DemoSimulator.self 1 Demo.jane DemoSimulator.w0 = (Ok 2, w') /\
    common_event (db w') = common_event (db DemoSimulator.w0) ++ [e] /\
    status e = 100 /\
    (forall l, fst (MHTResultProcessor._get_pending_results w') = Ok l -> ~ In e l).
Proof.
  eexists.
  assert (H : MHTResponseSimulator._create_outbound_event (host := Demo.host)
                DemoSimulator.self 1 Demo.jane DemoSimulator.w0
              = (Ok 2, snd (MHTResponseSimulator._create_outbound_event
                              (host := Demo.host) DemoSimulator.self 1 Demo.jane
                              DemoSimulator.w0)))
    by (vm_compute; reflexivity).
  destruct (simulator_inserts_status_100 Demo.host _ _ _ _ _ _ H)
    as (e & Hrows & _ & _ & _ & Hs & _ & Hp & _).
  exists e. split; [exact H|]. split; [exact Hrows|]. split; [exact Hs|exact Hp].
Defined.

(** End to end: after the simulator has answered the inbound event, the
    new row is at status 100; the processor's [process_now] processes
    nothing, notifies nobody and leaves the row where it is. *)
Example simulator_then_processor :
  map (fun e => (id e, direction e, status e)) (common_event (db DemoSimulator.w1))
    = [(1, I, 40); (2, O, 100)] /\
  fst (MHTResultProcessor.process_now (host := Demo.host)
         (MHTResultProcessor.mk 10 None) DemoSimulator.w1) = Ok 0 /\
  snd (MHTResultProcessor.process_now (host := Demo.host)
         (MHTResultProcessor.mk 10 None) DemoSimulator.w1) = DemoSimulator.w1.
Proof. vm_compute. repeat split. Qed.

(** ** A result whose processing raised *)

Lemma same_rows_at_refl (x : Z) (w : World) : same_rows_at x w w.
Proof. reflexivity. Qed.

Lemma same_rows_at_trans (x : Z) (a b c : World) :
  same_rows_at x a b -> same_rows_at x b c -> same_rows_at x a c.
Proof. unfold same_rows_at. congruence. Qed.

Lemma quiet_same_rows_at (x : Z) (w w' : World) : quiet w w' -> same_rows_at x w w'.
Proof. intros [H _]. unfold same_rows_at. now rewrite H. Qed.

Lemma rewrites_same_rows_at (x y : Z) (P : Event -> Event -> Prop) (w w' : World) :
  y <> x -> (forall e e', P e e' -> id e' = id e) ->
  rewrites y P w w' -> same_rows_at x w w'.
Proof.
  intros Hxy HP (f & Hf & Hrows & _). unfold same_rows_at. rewrite Hrows.
  clear Hrows.
  induction (common_event (db w)) as [|e rows IH]; [reflexivity|].
  cbn [map filter]. rewrite IH. unfold update_row, has_id.
  destruct (id e =? y) eqn:E; [|reflexivity].
  rewrite (HP _ _ (Hf e)). apply Z.eqb_eq in E. rewrite E.
  apply Z.eqb_neq in Hxy. now rewrite Hxy.
Qed.

Lemma find_filter {A : Type} (p : A -> bool) (l : list A) :
  find p l = hd_error (filter p l).
Proof.
  induction l as [|a l IH]; [reflexivity|]. cbn. now destruct (p a).
Qed.

Lemma same_rows_at_lookup (x : Z) (w w' : World) :
  same_rows_at x w w' -> lookup (db w') x = lookup (db w) x.
Proof. unfold same_rows_at, lookup. intros H. now rewrite !find_filter, H. Qed.

Lemma rewrites_lookup (x : Z) (P : Event -> Event -> Prop) (w w' : World) (e : Event) :
  (forall a b, P a b -> id b = id a) ->
  rewrites x P w w' -> lookup (db w) x = Some e ->
  exists e', lookup (db w') x = Some e' /\ P e e'.
Proof.
  intros HP (f & Hf & Hrows & _) Hl. unfold lookup in *. rewrite Hrows.
  assert (Hid : forall a b, id a = id b -> has_id x a = has_id x b)
    by (unfold has_id; intros a b ->; reflexivity).
  clear Hrows. induction (common_event (db w)) as [|a rows IH]; [discriminate|].
  cbn [map find] in *. unfold update_row at 1.
  unfold has_id at 1 in Hl. unfold has_id at 1.
  destruct (id a =? x) eqn:E.
  - rewrite (HP _ _ (Hf a)), E. inversion Hl. subst.
    exists (f e). unfold update_row. rewrite E. auto.
  - rewrite E. auto.
Qed.

Lemma restamped_id (s : Z) (a b : Event) : restamped s a b -> id b = id a.
Proof. now intros (H & _). Qed.

Lemma recounted_id (c : Z) (a b : Event) : recounted c a b -> id b = id a.
Proof. now intros (H & _). Qed.

Lemma same_rows_update_status (host : Host) (x y s : Z) (cd rd : option JSON) :
  y <> x -> post (same_rows_at x) (MHTResultProcessor._update_status y s cd rd).
Proof.
  intros Hxy w r w' H.
  destruct (update_status_effect host y s cd rd w) as (b & w1 & E & Hrw).
  rewrite E in H. inversion H. subst.
  eapply rewrites_same_rows_at; [exact Hxy|apply restamped_id|exact Hrw].
Qed.

Lemma same_rows_increment_error (host : Host) (x y c : Z) (msg : string) :
  y <> x -> post (same_rows_at x) (MHTResultProcessor._increment_error y c msg).
Proof.
  intros Hxy w r w' H.
  destruct (increment_error_effect host y c msg w) as (b & w1 & E & Hrw).
  rewrite E in H. inversion H. subst.
  eapply rewrites_same_rows_at; [exact Hxy|apply recounted_id|exact Hrw].
Qed.

(** Processing an event leaves the rows of every other id alone. *)
Lemma same_rows_process_single_result (host : Host) (self : MHTResultProcessor.t)
      (x : Z) (event : Event) :
  id event <> x ->
  post (same_rows_at x) (MHTResultProcessor._process_single_result self event).
Proof.
  intros Hxy. unfold MHTResultProcessor._process_single_result.
  pose proof (same_rows_at_refl x) as Rf. pose proof (same_rows_at_trans x) as Tr.
  apply (post_try_except _ Tr).
  - apply (post_bind _ Tr); [now apply same_rows_update_status|intros _].
    apply (post_bind _ Tr);
      [apply (post_weaken quiet), quiet_process_assessment_result;
       apply quiet_same_rows_at|intro summary].
    apply (post_bind _ Tr);
      [apply (post_weaken quiet), quiet_now; apply quiet_same_rows_at|intro now].
    apply (post_bind _ Tr); [now apply same_rows_update_status|intros _].
    apply (post_bind _ Tr); [|intros _; apply (post_ret _ Rf)].
    destruct (MHTResultProcessor._on_result_processed self) as [cb|].
    + apply (post_weaken quiet), quiet_invoke. apply quiet_same_rows_at.
    + apply (post_ret _ Rf).
  - intro ex. apply (post_bind _ Tr);
      [now apply same_rows_increment_error|intros _; apply (post_ret _ Rf)].
Qed.

Lemma post_for_each_in {A : Type} (Q : World -> World -> Prop)
      (body : A -> M unit) (xs : list A) :
  (forall w, Q w w) -> (forall a b c, Q a b -> Q b c -> Q a c) ->
  (forall x, In x xs -> post Q (body x)) -> post Q (for_each xs body).
Proof.
  intros Rf Tr Hb. induction xs as [|x xs IH]; cbn [for_each].
  - apply (post_ret _ Rf).
  - apply (post_bind _ Tr); [apply Hb; now left|].
    intros _. apply IH. intros y Hy. apply Hb. now right.
Qed.

Lemma calmer_process_single_result (host : Host) (self : MHTResultProcessor.t)
      (event : Event) :
  post calmer (MHTResultProcessor._process_single_result self event).
Proof.
  intros w r w' H.
  destruct (process_single_result_calms host self event w) as (b & w1 & E & Hc & _).
  rewrite E in H. inversion H. now subst.
Qed.

(** A pass of the processor's loop over a world where no row with id [x]
    is ready keeps it so and leaves the rows with id [x] alone. *)
Lemma poll_skips_cool (host : Host) (self : MHTResultProcessor.t) (x : Z)
      (w : World) (r : Outcome unit) (w' : World) :
  cool x w ->
  MHTResultProcessor.poll self w = (r, w') ->
  cool x w' /\ same_rows_at x w w'.
Proof.
  intros Hcool H. unfold MHTResultProcessor.poll in H.
  unfold try_except, MHTResultProcessor._poll_and_process in H.
  unfold bind at 1 in H. rewrite get_pending_results_eq in H.
  set (pending := order_by String.leb received_at
                    (filter ready_to_process (common_event (db w)))) in H.
  assert (Hne : forall ev, In ev pending -> id ev <> x).
  { intros ev Hin Hid. apply order_by_In, filter_In in Hin. destruct Hin as [Hin Hr].
    unfold ready_to_process in Hr. apply andb_true_iff in Hr. destruct Hr as [_ Hs].
    apply Z.eqb_eq in Hs. now apply (Hcool ev Hin Hid). }
  set (Q := fun a b : World => calmer a b /\ same_rows_at x a b).
  assert (HQ : post Q (for_each pending
                 (fun event => MHTResultProcessor._process_single_result self event ;;;
                               ret tt))).
  { apply post_for_each_in.
    - intro a. split; [apply calmer_refl|apply same_rows_at_refl].
    - intros a b c [H1 H2] [H3 H4].
      split; [eapply calmer_trans|eapply same_rows_at_trans]; eauto.
    - intros ev Hin a ra a' Ha. unfold bind, ret in Ha.
      destruct (MHTResultProcessor._process_single_result self ev a)
        as [[ok|ex] a1] eqn:E; inversion Ha; subst;
        (split; [eapply calmer_process_single_result, E
                |eapply same_rows_process_single_result, E; auto]). }
  destruct (for_each pending _ w) as [[u|ex] w1] eqn:E in H.
  - inversion H. subst. destruct (HQ _ _ _ E) as [Hc Hs].
    split; [eapply calmer_cool; eauto|exact Hs].
  - unfold ret in H. inversion H. subst. destruct (HQ _ _ _ E) as [Hc Hs].
    split; [eapply calmer_cool; eauto|exact Hs].
Qed.

Lemma process_assessment_result_malformed (host : Host) (event : Event)
      (text : string) (w : World) :
  raw_data event = Some text -> text <> EmptyString -> json_loads text = None ->
  MHTResultProcessor._process_assessment_result event w = (Raise JSONDecodeError, w).
Proof.
  intros Hraw Hne Hloads. unfold MHTResultProcessor._process_assessment_result.
  unfold bind at 1. rewrite Hraw.
  apply String.eqb_neq in Hne. rewrite Hne, Hloads. reflexivity.
Qed.

Lemma cool_never_fetched (x : Z) (w : World) : cool x w -> never_fetched x w.
Proof.
  intros Hcool l Hl e Hin Hid. rewrite get_pending_results_eq in Hl.
  cbn in Hl. inversion Hl. subst l.
  apply order_by_In, filter_In in Hin. destruct Hin as [Hin Hr].
  unfold ready_to_process in Hr. apply andb_true_iff in Hr. destruct Hr as [_ Hs].
  apply Z.eqb_eq in Hs. now apply (Hcool e Hin Hid).
Qed.

Lemma passes_skip_cool (host : Host) (self : MHTResultProcessor.t) (x : Z)
      (n : nat) :
  forall w, cool x w ->
    cool x (snd (passes n (MHTResultProcessor.poll self) w)) /\
    lookup (db (snd (passes n (MHTResultProcessor.poll self) w))) x = lookup (db w) x.
Proof.
  induction n as [|n IH]; intros w Hcool; cbn [passes].
  - now split.
  - unfold bind.
    destruct (MHTResultProcessor.poll self w) as [[u|ex] w1] eqn:E;
      destruct (poll_skips_cool host self x w _ w1 Hcool E) as [Hc Hs].
    + destruct (IH w1 Hc) as [Hc' Hl']. split; [exact Hc'|].
      rewrite Hl'. now apply same_rows_at_lookup.
    + cbn. split; [exact Hc|now apply same_rows_at_lookup].
Qed.

(** C2. A result ready to process whose payload [json.loads] rejects is
    moved to PROCESSING (50) before the payload is read and is left there
    when its error is counted: [_process_single_result] returns False with
    error_count one higher, and from then on no pass of the processor's
    loop fetches the event or touches its row, however many follow.  Its
    error_count stays below the cap and its status never turns negative. *)
Theorem malformed_result_is_not_retried :
  forall (host : Host) (self : MHTResultProcessor.t) (w : World) (ev : Event)
         (text : string),
    lookup (db w) (id ev) = Some ev ->
    raw_data ev = Some text -> text <> EmptyString -> json_loads text = None ->
    error_count ev + 1 < MHTResultProcessor.MAX_ERRORS ->
    exists w1 ev1,
      MHTResultProcessor._process_single_result self ev w = (Ok false, w1) /\
      lookup (db w1) (id ev) = Some ev1 /\
      status ev1 = MHTResultProcessor.STATUS_PROCESSING /\
      error_count ev1 = error_count ev + 1 /\
      forall n,
        lookup (db (snd (passes n (MHTResultProcessor.poll self) w1))) (id ev)
          = Some ev1 /\
        never_fetched (id ev) (snd (passes n (MHTResultProcessor.poll self) w1)).
Proof.
  intros host self w ev text Hl Hraw Hne Hloads Hcap.
  unfold MHTResultProcessor._process_single_result.
  rewrite try_except_bind.
  destruct (update_status_effect host (id ev) MHTResultProcessor.STATUS_PROCESSING
              None None w) as (b1 & wa & E1 & Hrw).
  rewrite E1.
  destruct (rewrites_lookup _ _ _ _ _ (restamped_id _) Hrw Hl)
    as (ea & Hla & (_ & _ & Sa & Ca & _)).
  assert (Hcool_a : cool (id ev) wa)
    by (eapply rewrites_cool; [|exact Hrw]; discriminate).
  unfold try_except. unfold bind at 1.
  rewrite (process_assessment_result_malformed host ev text wa Hraw Hne Hloads).
  destruct (increment_error_step host wa (id ev)
              MHTResultProcessor.STATUS_OUTBOUND_READY
              (exn_message JSONDecodeError) ea Hla)
    as (w1 & e1 & R1 & L1 & C1 & S1 & _).
  assert (Hlt : (MHTResultProcessor.MAX_ERRORS <=? error_count ea + 1) = false)
    by (apply Z.leb_gt; rewrite Ca; exact Hcap).
  rewrite Hlt in R1, S1.
  unfold bind, ret. rewrite R1.
  exists w1, e1. split; [reflexivity|]. split; [exact L1|].
  split; [congruence|]. split; [congruence|].
  assert (Hcool_1 : cool (id ev) w1).
  { eapply calmer_cool; [|exact Hcool_a].
    eapply calmer_increment_error, R1. }
  intro n. destruct (passes_skip_cool host self (id ev) n w1 Hcool_1) as [Hc Hlk].
  split; [now rewrite Hlk|now apply cool_never_fetched].
Qed.

Lemma malformed_result_is_not_retried_witness :
  lookup (db DemoFailures.w0) (id DemoFailures.ev) = Some DemoFailures.ev /\
  json_loads (Host := Demo.host) "{" = None /\
  exists w1 ev1,
    MHTResultProcessor._process_single_result (host := Demo.host)
      (MHTResultProcessor.mk 10 None) DemoFailures.ev DemoFailures.w0 = (Ok false, w1) /\
    lookup (db w1) 1 = Some ev1 /\
    status ev1 = 50 /\ error_count ev1 = 1 /\
    lookup (db (snd (passes 5 (MHTResultProcessor.poll (host := Demo.host)
                                (MHTResultProcessor.mk 10 None)) w1))) 1 = Some ev1.
Proof.
  split; [reflexivity|]. split; [reflexivity|].
  destruct (malformed_result_is_not_retried Demo.host (MHTResultProcessor.mk 10 None)
              DemoFailures.w0 DemoFailures.ev "{" eq_refl eq_refl
              ltac:(discriminate) eq_refl ltac:(reflexivity))
    as (w1 & ev1 & R & L & S & C & Hn).
  exists w1, ev1. repeat (split; [assumption|]). apply (Hn 5%nat).
Defined.

(** ** Delivery *)

Lemma same_ids_refl (w : World) : same_ids w w.
Proof. reflexivity. Qed.

Lemma same_ids_trans (a b c : World) : same_ids a b -> same_ids b c -> same_ids a c.
Proof. unfold same_ids. congruence. Qed.

Lemma quiet_same_ids (w w' : World) : quiet w w' -> same_ids w w'.
Proof. intros [H _]. unfold same_ids. now rewrite H. Qed.

Lemma rewrites_same_ids (x : Z) (P : Event -> Event -> Prop) (w w' : World) :
  (forall e e', P e e' -> id e' = id e) -> rewrites x P w w' -> same_ids w w'.
Proof.
  intros HP (f & Hf & Hrows & _). unfold same_ids. rewrite Hrows, map_map.
  apply map_ext. intro e. unfold update_row.
  destruct (id e =? x); [apply HP, Hf|reflexivity].
Qed.

Lemma quiet_read_request (host : Host) (event : Event) :
  post quiet (OutboundWorker.read_request event).
Proof. unfold OutboundWorker.read_request. repeat quiet_step. Qed.

Lemma read_request_same_world (host : Host) (event : Event) (w : World) :
  snd (OutboundWorker.read_request event w) = w.
Proof.
  assert (Rf : forall a, unchanged a a) by reflexivity.
  assert (Tr : forall a b c, unchanged a b -> unchanged b c -> unchanged a c)
    by (unfold unchanged; congruence).
  assert (H : post unchanged (OutboundWorker.read_request event)).
  { unfold OutboundWorker.read_request.
    repeat first
      [ apply (post_ret unchanged Rf) | apply (post_raise unchanged Rf)
      | apply (post_lift_outcome unchanged Rf)
      | apply (post_bind unchanged Tr); [|intro]
      | match goal with |- post _ (match ?x with _ => _ end) => destruct x end ]. }
  destruct (OutboundWorker.read_request event w) as [r w'] eqn:E.
  cbn. eapply H, E.
Qed.

Section DeliveryFrame.
Context {host : Host}.
Variable flow : World -> string -> list JSON -> Outcome bool.
Variable self : OutboundWorker.t.

Lemma quiet_call_flow (name : string) (assessments : list JSON) :
  post quiet (OutboundWorker.call_flow flow name assessments).
Proof. intros w r w' H. inversion H. now split. Qed.

Lemma aside_refl (x : Z) (w : World) : aside x w w.
Proof. split; reflexivity. Qed.

Lemma aside_trans (x : Z) (a b c : World) : aside x a b -> aside x b c -> aside x a c.
Proof.
  intros [H1 H2] [H3 H4].
  split; [eapply same_ids_trans|eapply same_rows_at_trans]; eauto.
Qed.

Lemma quiet_aside (x : Z) (w w' : World) : quiet w w' -> aside x w w'.
Proof. intro H. split; [now apply quiet_same_ids|now apply quiet_same_rows_at]. Qed.

Lemma aside_update_event_status (x y s : Z) :
  y <> x -> post (aside x) (OutboundWorker._update_event_status y s).
Proof.
  intros Hxy w r w' H.
  destruct (update_event_status_effect host y s w) as (w1 & E & Hrw & _).
  rewrite E in H. inversion H. subst. split.
  - eapply rewrites_same_ids; [apply restamped_id|exact Hrw].
  - eapply rewrites_same_rows_at; [exact Hxy|apply restamped_id|exact Hrw].
Qed.

Lemma aside_process_event (x : Z) (event : Event) :
  id event <> x -> post (aside x) (OutboundWorker._process_event flow self event).
Proof.
  intros Hxy. unfold OutboundWorker._process_event, OutboundWorker.attempt_delivery.
  pose proof (aside_refl x) as Rf. pose proof (aside_trans x) as Tr.
  apply (post_bind _ Tr); [now apply aside_update_event_status|intros _].
  apply (post_try_except _ Tr); [|intros _; now apply aside_update_event_status].
  apply (post_bind _ Tr);
    [apply (post_weaken quiet), quiet_read_request; apply quiet_aside|].
  intros [name assessments].
  apply (post_bind _ Tr);
    [apply (post_weaken quiet), quiet_call_flow; apply quiet_aside|].
  intros [|]; [|now apply aside_update_event_status].
  apply (post_bind _ Tr); [now apply aside_update_event_status|intros _].
  destruct (OutboundWorker._callback self) as [cb|].
  - apply (post_weaken quiet), quiet_invoke. apply quiet_aside.
  - apply (post_ret _ Rf).
Qed.
End DeliveryFrame.

Lemma NoDup_id_inj (rows : list Event) (a b : Event) :
  NoDup (map id rows) -> In a rows -> In b rows -> id a = id b -> a = b.
Proof.
  induction rows as [|e rows IH]; intros Hnd Ha Hb Hid; [destruct Ha|].
  cbn in Hnd. inversion Hnd as [|? ? Hnotin Hnd']; subst.
  destruct Ha as [->|Ha], Hb as [->|Hb]; auto.
  - exfalso. apply Hnotin. rewrite Hid. now apply in_map.
  - exfalso. apply Hnotin. rewrite <- Hid. now apply in_map.
Qed.

Lemma lookup_In (d : Database) (x : Z) (e : Event) :
  lookup d x = Some e -> In e (common_event d) /\ id e = x.
Proof.
  unfold lookup. intro H. apply find_some in H. destruct H as [Hin Hid].
  split; [exact Hin|]. now apply Z.eqb_eq in Hid.
Qed.

Lemma parked_never_delivered (x : Z) (e : Event) (w : World) :
  parked x e w -> never_delivered x w.
Proof.
  intros (Hnd & Hl & Hs) l Hfetch ev Hin Hid.
  rewrite get_ready_outbound_events_eq in Hfetch. cbn in Hfetch.
  inversion Hfetch. subst l.
  apply order_by_In, filter_In in Hin. destruct Hin as [Hin Hr].
  apply lookup_In in Hl. destruct Hl as [He Hx].
  assert (ev = e) by (eapply NoDup_id_inj; eauto; congruence). subst ev.
  unfold ready_for_delivery in Hr. apply andb_true_iff in Hr. destruct Hr as [_ Hr].
  apply Z.eqb_eq in Hr. rewrite Hs in Hr. discriminate.
Qed.

Lemma poll_keeps_parked (host : Host)
      (flow : World -> string -> list JSON -> Outcome bool)
      (self : OutboundWorker.t) (x : Z) (e : Event)
      (w : World) (r : Outcome unit) (w' : World) :
  parked x e w -> OutboundWorker.poll flow self w = (r, w') -> parked x e w'.
Proof.
  intros Hp H. pose proof (parked_never_delivered x e w Hp) as Hnever.
  destruct Hp as (Hnd & Hl & Hs).
  assert (Haside : aside x w w').
  { unfold OutboundWorker.poll in H.
    unfold try_except, bind at 1 in H.
    rewrite get_ready_outbound_events_eq in H.
    set (events := order_by Z.leb id
                     (filter ready_for_delivery (common_event (db w)))) in H.
    assert (HQ : post (aside x)
                   (for_each events (OutboundWorker._process_event flow self))).
    { apply post_for_each_in; [apply aside_refl|apply aside_trans|].
      intros ev Hin. apply aside_process_event.
      apply (Hnever events); [now rewrite get_ready_outbound_events_eq|exact Hin]. }
    destruct (for_each events _ w) as [[u|ex] w1] eqn:E in H;
      [|unfold ret in H]; inversion H; subst; eapply HQ, E. }
  destruct Haside as [Hids Hrows]. repeat split.
  - unfold same_ids in Hids. now rewrite Hids.
  - now rewrite (same_rows_at_lookup x w w' Hrows).
  - exact Hs.
Qed.

Lemma passes_keep_parked (host : Host)
      (flow : World -> string -> list JSON -> Outcome bool)
      (self : OutboundWorker.t) (x : Z) (e : Event) (n : nat) :
  forall w, parked x e w ->
            parked x e (snd (passes n (OutboundWorker.poll flow self) w)).
Proof.
  induction n as [|n IH]; intros w Hp; cbn [passes]; [exact Hp|].
  unfold bind.
  destruct (OutboundWorker.poll flow self w) as [[u|ex] w1] eqn:E.
  - apply IH. eapply poll_keeps_parked; eauto.
  - cbn. eapply poll_keeps_parked; eauto.
Qed.

Lemma set_status_step (host : Host) (x s : Z) (w : World) (e : Event) :
  lookup (db w) x = Some e ->
  exists w2,
    OutboundWorker._update_event_status x s w = (Ok tt, w2) /\
    status_in (db w2) x = Some s /\
    history w2 = history w ++ [db w2] /\
    same_ids w w2.
Proof.
  intro Hl.
  destruct (update_event_status_effect host x s w) as (w2 & E & Hrw & Hh).
  destruct (rewrites_lookup _ _ _ _ _ (restamped_id s) Hrw Hl)
    as (e2 & Hl2 & (_ & _ & Hs & _)).
  exists w2. split; [exact E|]. split; [|split; [exact Hh|]].
  - unfold status_in. rewrite Hl2. cbn. now rewrite Hs.
  - eapply rewrites_same_ids; [apply restamped_id|exact Hrw].
Qed.

Lemma status_in_lookup (d : Database) (x s : Z) :
  status_in d x = Some s -> exists e, lookup d x = Some e.
Proof.
  unfold status_in. destruct (lookup d x) as [e|]; [eauto|discriminate].
Qed.

(** What the try block and its except clause do to the event, commit by
    commit, once the event is marked PROCESSING. *)
Lemma attempt_delivery_outcome (host : Host)
      (flow : World -> string -> list JSON -> Outcome bool)
      (self : OutboundWorker.t) (ev : Event) (w1 : World) (e1 : Event) :
  lookup (db w1) (id ev) = Some e1 ->
  exists w' later,
    OutboundWorker.attempt_delivery flow self ev w1 = (Ok tt, w') /\
    history w' = history w1 ++ later /\
    same_ids w1 w' /\
    (forall name assessments,
        fst (OutboundWorker.read_request ev w1) = Ok (name, assessments) ->
        flow w1 name assessments = Ok true ->
        exists rest,
          statuses (id ev) later = Some OutboundWorker.STATUS_DONE :: rest /\
          (callback_returns self (id ev) name ->
           rest = [] /\ status_in (db w') (id ev) = Some OutboundWorker.STATUS_DONE)) /\
    (forall name assessments,
        fst (OutboundWorker.read_request ev w1) = Ok (name, assessments) ->
        flow w1 name assessments <> Ok true ->
        statuses (id ev) later = [Some OutboundWorker.STATUS_ERROR] /\
        status_in (db w') (id ev) = Some OutboundWorker.STATUS_ERROR) /\
    (forall ex,
        fst (OutboundWorker.read_request ev w1) = Raise ex ->
        statuses (id ev) later = [Some OutboundWorker.STATUS_ERROR] /\
        status_in (db w') (id ev) = Some OutboundWorker.STATUS_ERROR).
Proof.
  intro Hl1.
  unfold OutboundWorker.attempt_delivery, try_except. unfold bind at 1.
  pose proof (read_request_same_world host ev w1) as Hsame.
  destruct (OutboundWorker.read_request ev w1) as [[[name assessments]|ex] wr] eqn:Er;
    cbn in Hsame; subst wr.
  2:{ (* the payload cannot be read *)
    destruct (set_status_step host (id ev) OutboundWorker.STATUS_ERROR w1 e1 Hl1)
      as (w2 & E2 & S2 & H2 & I2).
    rewrite E2. exists w2, [db w2].
    split; [reflexivity|]. split; [exact H2|]. split; [exact I2|].
    split; [intros ? ? Hr; discriminate|].
    split; [intros ? ? Hr; discriminate|].
    intros ? _. cbn. rewrite S2. auto. }
  unfold bind at 1. unfold OutboundWorker.call_flow at 1.
  destruct (flow w1 name assessments) as [[|]|exf] eqn:Ef.
  - (* the flow returned True *)
    unfold bind at 1.
    destruct (set_status_step host (id ev) OutboundWorker.STATUS_DONE w1 e1 Hl1)
      as (w2 & E2 & S2 & H2 & I2).
    rewrite E2. destruct (status_in_lookup _ _ _ S2) as (e2 & Hl2).
    unfold callback_returns.
    destruct (OutboundWorker._callback self) as [cb|].
    + unfold invoke.
      destruct (cb (OutboundWorker.done_notice (id ev) name)) as [[]|exc] eqn:Ec.
      * exists (mkWorld (db w2) (tick w2) (draws w2) (history w2)
                        (notified w2 ++ [OutboundWorker.done_notice (id ev) name])),
               [db w2].
        split; [reflexivity|]. cbn [history db].
        split; [exact H2|]. split; [exact I2|].
        split; [|split; [|intros ? Hr; discriminate]].
        -- intros n a Hr _. cbn in Hr. inversion Hr. subst.
           exists []. cbn. rewrite S2. auto.
        -- intros n a Hr Hf. cbn in Hr. inversion Hr. subst. congruence.
      * set (w2' := mkWorld (db w2) (tick w2) (draws w2) (history w2)
                      (notified w2 ++ [OutboundWorker.done_notice (id ev) name])).
        destruct (set_status_step host (id ev) OutboundWorker.STATUS_ERROR w2' e2 Hl2)
          as (w3 & E3 & S3 & H3 & I3).
        rewrite E3. exists w3, [db w2; db w3].
        split; [reflexivity|].
        split; [rewrite H3; cbn [history w2']; rewrite H2, <- !app_assoc;
                reflexivity|].
        split; [eapply same_ids_trans; [exact I2|exact I3]|].
        split; [|split; [|intros ? Hr; discriminate]].
        -- intros n a Hr _. cbn in Hr. inversion Hr. subst.
           exists [Some OutboundWorker.STATUS_ERROR]. cbn. rewrite S2, S3.
           split; [reflexivity|]. intro Hcb. rewrite Hcb in Ec. discriminate.
        -- intros n a Hr Hf. cbn in Hr. inversion Hr. subst. congruence.
    + exists w2, [db w2].
      split; [reflexivity|]. split; [exact H2|]. split; [exact I2|].
      split; [|split; [|intros ? Hr; discriminate]].
      * intros n a Hr _. exists []. cbn. rewrite S2. auto.
      * intros n a Hr Hf. cbn in Hr. inversion Hr. subst. congruence.
  - (* the flow returned False *)
    destruct (set_status_step host (id ev) OutboundWorker.STATUS_ERROR w1 e1 Hl1)
      as (w2 & E2 & S2 & H2 & I2).
    rewrite E2. exists w2, [db w2].
    split; [reflexivity|]. split; [exact H2|]. split; [exact I2|].
    split; [|split; [|intros ? Hr; discriminate]].
    + intros n a Hr Hf. cbn in Hr. inversion Hr. subst. congruence.
    + intros n a Hr _. cbn. rewrite S2. auto.
  - (* the flow raised *)
    destruct (set_status_step host (id ev) OutboundWorker.STATUS_ERROR w1 e1 Hl1)
      as (w2 & E2 & S2 & H2 & I2).
    rewrite E2. exists w2, [db w2].
    split; [reflexivity|]. split; [exact H2|]. split; [exact I2|].
    split; [|split; [|intros ? Hr; discriminate]].
    + intros n a Hr Hf. cbn in Hr. inversion Hr. subst. congruence.
    + intros n a Hr _. cbn. rewrite S2. auto.
Qed.

(** C8. An event handed to [_process_event] is first committed at
    PROCESSING (50); the next commit puts it at DONE (200) when the flow
    returned True, and it stays there if the registered callback, if any,
    returns normally; when the flow returned False or raised, or the
    payload could not be read, the next and last commit puts it at ERROR
    (-100).  An event that [_process_event] leaves at ERROR keeps its row
    and is fetched by no later pass of the worker's loop, whatever the flow
    does in them. *)
Theorem delivery_marks_and_never_retries :
  forall (host : Host) (flow : World -> string -> list JSON -> Outcome bool)
         (self : OutboundWorker.t) (ev : Event) (w : World) (e0 : Event),
    lookup (db w) (id ev) = Some e0 ->
    NoDup (map id (common_event (db w))) ->
    exists w1 w' later,
      OutboundWorker._update_event_status (id ev) OutboundWorker.STATUS_PROCESSING w
        = (Ok tt, w1) /\
      OutboundWorker._process_event flow self ev w = (Ok tt, w') /\
      history w' = history w ++ db w1 :: later /\
      status_in (db w1) (id ev) = Some OutboundWorker.STATUS_PROCESSING /\
      (forall name assessments,
          fst (OutboundWorker.read_request ev w1) = Ok (name, assessments) ->
          flow w1 name assessments = Ok true ->
          exists rest,
            statuses (id ev) later = Some OutboundWorker.STATUS_DONE :: rest /\
            (callback_returns self (id ev) name ->
             rest = [] /\
             status_in (db w') (id ev) = Some OutboundWorker.STATUS_DONE)) /\
      (forall name assessments,
          fst (OutboundWorker.read_request ev w1) = Ok (name, assessments) ->
          flow w1 name assessments <> Ok true ->
          statuses (id ev) later = [Some OutboundWorker.STATUS_ERROR] /\
          status_in (db w') (id ev) = Some OutboundWorker.STATUS_ERROR) /\
      (forall ex,
          fst (OutboundWorker.read_request ev w1) = Raise ex ->
          statuses (id ev) later = [Some OutboundWorker.STATUS_ERROR] /\
          status_in (db w') (id ev) = Some OutboundWorker.STATUS_ERROR) /\
      (status_in (db w') (id ev) = Some OutboundWorker.STATUS_ERROR ->
       forall (flow' : World -> string -> list JSON -> Outcome bool)
              (self' : OutboundWorker.t) (n : nat),
         lookup (db (snd (passes n (OutboundWorker.poll flow' self') w'))) (id ev)
           = lookup (db w') (id ev) /\
         never_delivered (id ev)
           (snd (passes n (OutboundWorker.poll flow' self') w'))).
Proof.
  intros host flow self ev w e0 Hl0 Hnd.
  destruct (set_status_step host (id ev) OutboundWorker.STATUS_PROCESSING w e0 Hl0)
    as (w1 & E1 & S1 & H1 & I1).
  destruct (status_in_lookup _ _ _ S1) as (e1 & Hl1).
  destruct (attempt_delivery_outcome host flow self ev w1 e1 Hl1)
    as (w' & later & E & Hh & Hids & Hdone & Herr & Hbad).
  exists w1, w', later.
  split; [exact E1|].
  split; [unfold OutboundWorker._process_event, bind; rewrite E1; exact E|].
  split; [rewrite Hh, H1, <- app_assoc; reflexivity|].
  split; [exact S1|].
  split; [exact Hdone|]. split; [exact Herr|]. split; [exact Hbad|].
  intros Hs flow' self' n.
  destruct (status_in_lookup _ _ _ Hs) as (e' & Hl').
  assert (Hp : parked (id ev) e' w').
  { split; [|split; [exact Hl'|]].
    - pose proof (same_ids_trans _ _ _ I1 Hids) as Hsame.
      unfold same_ids in Hsame. now rewrite Hsame.
    - unfold status_in in Hs. rewrite Hl' in Hs. cbn in Hs. congruence. }
  pose proof (passes_keep_parked host flow' self' (id ev) e' n w' Hp) as Hn.
  split; [|eapply parked_never_delivered; exact Hn].
  destruct Hn as (_ & Hln & _). now rewrite Hln, Hl'.
Qed.

Lemma delivery_marks_and_never_retries_witness :
  lookup (db DemoDelivery.w0) 1 = Some DemoDelivery.ev /\
  NoDup (map id (common_event (db DemoDelivery.w0))) /\
  exists w',
    OutboundWorker._process_event (host := Demo.host) DemoDelivery.flow_fails
      DemoDelivery.self DemoDelivery.ev DemoDelivery.w0 = (Ok tt, w') /\
    status_in (db w') 1 = Some (-100) /\
    never_delivered 1
      (snd (passes 3 (OutboundWorker.poll (host := Demo.host)
                        DemoDelivery.flow_succeeds DemoDelivery.self) w')).
Proof.
  assert (Hl : lookup (db DemoDelivery.w0) (id DemoDelivery.ev) = Some DemoDelivery.ev)
    by reflexivity.
  assert (Hnd : NoDup (map id (common_event (db DemoDelivery.w0)))).
  { cbn. constructor; [intros []|constructor]. }
  split; [exact Hl|]. split; [exact Hnd|].
  destruct (delivery_marks_and_never_retries Demo.host DemoDelivery.flow_fails
              DemoDelivery.self DemoDelivery.ev DemoDelivery.w0 DemoDelivery.ev Hl Hnd)
    as (w1 & w' & later & _ & E & _ & _ & _ & Herr & _ & Hnever).
  exists w'. split; [exact E|].
  destruct (Herr "Doe, Jane"
              [JDict [ ("assessment_name", JStr "PHQ-9");
                       ("total_score_value", JStr "7");
                       ("total_score_legend", JStr "Mild");
                       ("assessment_items", JList []) ]])
    as [_ Hs]; [reflexivity|discriminate|].
  split; [exact Hs|].
  apply (Hnever Hs DemoDelivery.flow_succeeds DemoDelivery.self 3%nat).
Defined.

(** A delivery that succeeds: committed at 50, then at 200. *)
Example delivery_done :
  statuses 1 (history (snd (OutboundWorker._process_event (host := Demo.host)
                              DemoDelivery.flow_succeeds DemoDelivery.self
                              DemoDelivery.ev DemoDelivery.w0)))
    = [Some 50; Some 200].
Proof. vm_compute. reflexivity. Qed.

(** ** Noticing a stop request while waiting *)

Lemma duration_sliced_wait (n : nat) :
  duration (sliced_wait n ++ [ReadRunning]) = 100 * Z.of_nat n.
Proof.
  induction n as [|n IH]; [reflexivity|].
  cbn [sliced_wait app duration]. rewrite IH. lia.
Qed.

Lemma sliced_wait_notices (n : nat) :
  forall now stop,
    now - 100 < stop <= now + 100 * Z.of_nat n ->
    exists t, noticed_at (sliced_wait n ++ [ReadRunning]) now stop = Some t /\
              stop <= t < stop + 100.
Proof.
  induction n as [|n IH]; intros now stop H.
  - cbn. assert (E : (stop <=? now) = true) by (apply Z.leb_le; lia).
    rewrite E. exists now. split; [reflexivity|lia].
  - cbn [sliced_wait app noticed_at].
    destruct (stop <=? now) eqn:E.
    + apply Z.leb_le in E. exists now. split; [reflexivity|lia].
    + apply Z.leb_gt in E. apply IH. lia.
Qed.

(** C10. A stop request that arrives while a loop waits for its next poll
    is noticed by the delivery worker less than 100 ms later, by the
    simulator only when its 5 s sleep is over, and by the result processor
    only when its sleep of the whole poll interval is over. *)
Theorem stop_is_noticed :
  (forall (self : OutboundWorker.t) (now stop : Z),
      now <= stop <= now + duration (outbound_wait self) ->
      exists t, noticed_at (outbound_wait self) now stop = Some t /\
                stop <= t < stop + 100) /\
  (forall (now stop : Z),
      now < stop <= now + duration simulator_wait ->
      noticed_at simulator_wait now stop = Some (now + 5000)) /\
  (forall (self : MHTResultProcessor.t) (now stop : Z),
      now < stop <= now + duration (processor_wait self) ->
      noticed_at (processor_wait self) now stop
        = Some (now + 1000 * MHTResultProcessor.poll_interval self)).
Proof.
  split; [|split].
  - intros self now stop H. unfold outbound_wait in *.
    rewrite duration_sliced_wait in H. apply sliced_wait_notices. lia.
  - intros now stop H. cbn in *.
    assert (E : (stop <=? now + 5000) = true) by (apply Z.leb_le; lia).
    now rewrite E.
  - intros self now stop H. cbn [processor_wait duration noticed_at] in *.
    assert (E : (stop <=? now + 1000 * MHTResultProcessor.poll_interval self) = true)
      by (apply Z.leb_le; lia).
    now rewrite E.
Qed.

Lemma stop_is_noticed_witness :
  (exists t, noticed_at (outbound_wait (OutboundWorker.mk 50 None)) 0 1 = Some t /\
             1 <= t < 101) /\
  noticed_at simulator_wait 0 1 = Some 5000 /\
  noticed_at (processor_wait (MHTResultProcessor.mk 10 None)) 0 1 = Some 10000.
Proof.
  destruct stop_is_noticed as (Hout & Hsim & Hproc).
  split; [|split].
  - apply (Hout (OutboundWorker.mk 50 None) 0 1). vm_compute. split; discriminate.
  - apply (Hsim 0 1). vm_compute. split; [reflexivity|discriminate].
  - apply (Hproc (MHTResultProcessor.mk 10 None) 0 1). vm_compute.
    split; [reflexivity|discriminate].
Defined.

(** ** The whole pipeline on an example *)

(** One well-formed and one malformed result: the first [process_now]
    processes one of them, notifies once and counts one error; the second
    does nothing. *)
Example process_now_example :
  let self := MHTResultProcessor.mk 10 None in
  let w :=
    Demo.world_of
      (mkDatabase
         [ Demo.received 1 "2024-01-01T00:00:00" (Some (Demo.dumps Demo.result_for_jane));
           Demo.received 2 "2024-01-01T00:00:01" (Some "{") ] [] 2 0) in
  let first := MHTResultProcessor.process_now (host := Demo.host) self w in
  let second := MHTResultProcessor.process_now (host := Demo.host) self (snd first) in
  fst first = Ok 1 /\
  map (fun e => (id e, status e, error_count e)) (common_event (db (snd first)))
    = [(1, 100, 0); (2, 50, 1)] /\
  common_eventerror (db (snd first)) = [] /\
  second = (Ok 0, snd first).
Proof. vm_compute. repeat split. Qed.

(** * More of the store and the workers *)

(** ** Creating an event and reading it back *)

Lemma next_rowid_above (seq : Z) (ids : list Z) :
  seq < next_rowid seq ids /\ forall x, In x ids -> x < next_rowid seq ids.
Proof.
  unfold next_rowid. induction ids as [|a ids [IHs IHx]]; cbn.
  - split; [lia|intros x []].
  - split; [lia|]. intros x [<-|Hx]; [lia|]. specialize (IHx x Hx). lia.
Qed.

Lemma find_fresh (x : Z) (rows : list Event) (e : Event) :
  (forall a, In a rows -> id a < x) -> id e = x ->
  find (has_id x) (rows ++ [e]) = Some e.
Proof.
  intros Hlt He. induction rows as [|a rows IH]; cbn.
  - unfold has_id. rewrite He, Z.eqb_refl. reflexivity.
  - assert (Ha : has_id x a = false)
      by (unfold has_id; apply Z.eqb_neq; specialize (Hlt a (or_introl eq_refl)); lia).
    rewrite Ha. apply IH. intros b Hb. apply Hlt. now right.
Qed.

Lemma create_event_then_get_event_aux (host : Host) (w : World) (raw : JSON)
      (kind : string) :
  exists rid w',
    MHTDatabase.create_event raw kind w = (Ok rid, w') /\
    (forall e, In e (common_event (db w)) -> id e < rid) /\
    common_event (db w')
      = common_event (db w) ++ [created_row rid (clock (tick w)) raw kind].
Proof.
  unfold MHTDatabase.create_event. run.
  eexists _, _. split; [reflexivity|]. cbn. split; [|reflexivity].
  intros e He.
  apply (proj2 (next_rowid_above (seq_event (db w)) (map id (common_event (db w))))).
  now apply in_map.
Qed.

(** X1. [create_event] always returns an id larger than every id in the
    table, appends one inbound row at status 0 with error_count 0 that
    carries the serialized payload and the clock reading as received_at and
    updated_at, and [get_event] of the returned id reads exactly that row
    back. *)
Theorem create_event_then_get_event :
  forall (host : Host) (w : World) (raw : JSON) (kind : string),
  exists rid w',
    MHTDatabase.create_event raw kind w = (Ok rid, w') /\
    (forall e, In e (common_event (db w)) -> id e < rid) /\
    common_event (db w')
      = common_event (db w) ++ [created_row rid (clock (tick w)) raw kind] /\
    common_eventerror (db w') = common_eventerror (db w) /\
    MHTDatabase.get_event rid w'
      = (Ok (Some (created_row rid (clock (tick w)) raw kind)), w').
Proof.
  intros host w raw kind. unfold MHTDatabase.create_event. run.
  eexists _, _. split; [reflexivity|]. cbn.
  pose proof (next_rowid_above (seq_event (db w)) (map id (common_event (db w))))
    as [_ Habove].
  assert (Hlt : forall e, In e (common_event (db w)) ->
                          id e < next_rowid (seq_event (db w))
                                   (map id (common_event (db w))))
    by (intros e He; apply Habove; now apply in_map).
  split; [exact Hlt|]. split; [reflexivity|]. split; [reflexivity|].
  unfold MHTDatabase.get_event. run.
  rewrite find_fresh; [reflexivity|exact Hlt|reflexivity].
Qed.

(** ** Advancing a row that is there *)

Lemma lookup_rowcount (d : Database) (x : Z) (e : Event) :
  lookup d x = Some e ->
  (0 <? Z.of_nat (List.length (filter (has_id x) (common_event d)))) = true.
Proof.
  unfold lookup. rewrite find_filter.
  destruct (filter (has_id x) (common_event d)); [discriminate|].
  intros _. cbn [List.length]. apply Z.ltb_lt. lia.
Qed.

Lemma filter_update_row_other (x y : Z) (f : Event -> Event) (rows : list Event) :
  y <> x -> (forall e, id (f e) = id e) ->
  filter (has_id y) (map (update_row x f) rows) = filter (has_id y) rows.
Proof.
  intros Hxy Hid. induction rows as [|e rows IH]; [reflexivity|].
  cbn [map filter]. rewrite IH. unfold update_row, has_id.
  destruct (id e =? x) eqn:E; [|reflexivity].
  rewrite Hid. apply Z.eqb_eq in E. rewrite E.
  assert (Hn : (x =? y) = false) by (apply Z.eqb_neq; congruence).
  now rewrite Hn.
Qed.

(** X2. On a row that exists, [update_event_converted], [update_event_sent]
    and [expire_event] return True and rewrite that row only: the first
    sets status 10 with converted_at and converted_data, the second status
    40 with sent_at and response_data, the third status 100; each stamps
    updated_at with the clock reading and keeps every other column, and no
    row with another id changes.  None looks at the status the row had. *)
Theorem advance_existing_row :
  forall (host : Host) (w : World) (x : Z) (e : Event),
    lookup (db w) x = Some e ->
    let now := clock (tick w) in
    (forall payload,
        exists w',
          MHTDatabase.update_event_converted x payload w = (Ok true, w') /\
          lookup (db w') x
            = Some (mkEvent (id e) (received_at e) (direction e) (raw_data e)
                            (Some now) (Some (json_dumps payload)) (sent_at e)
                            (response_data e) 10 (kind e) (Some now)
                            (error_count e)) /\
          forall y, y <> x -> same_rows_at y w w') /\
    (forall payload,
        exists w',
          MHTDatabase.update_event_sent x payload w = (Ok true, w') /\
          lookup (db w') x
            = Some (mkEvent (id e) (received_at e) (direction e) (raw_data e)
                            (converted_at e) (converted_data e) (Some now)
                            (Some (json_dumps payload)) 40 (kind e) (Some now)
                            (error_count e)) /\
          forall y, y <> x -> same_rows_at y w w') /\
    (exists w',
        MHTDatabase.expire_event x w = (Ok true, w') /\
        lookup (db w') x
          = Some (mkEvent (id e) (received_at e) (direction e) (raw_data e)
                          (converted_at e) (converted_data e) (sent_at e)
                          (response_data e) 100 (kind e) (Some now)
                          (error_count e)) /\
        forall y, y <> x -> same_rows_at y w w').
Proof.
  intros host w x e Hl now.
  pose proof (lookup_rowcount _ _ _ Hl) as Hcount.
  unfold lookup in Hl.
  split; [|split].
  - intro payload. unfold MHTDatabase.update_event_converted. run.
    rewrite Hcount. eexists. split; [reflexivity|]. cbn. split.
    + unfold lookup. cbn. rewrite find_update_row by reflexivity.
      rewrite Hl. reflexivity.
    + intros y Hy. unfold same_rows_at. cbn.
      apply filter_update_row_other; [congruence|reflexivity].
  - intro payload. unfold MHTDatabase.update_event_sent. run.
    rewrite Hcount. eexists. split; [reflexivity|]. cbn. split.
    + unfold lookup. cbn. rewrite find_update_row by reflexivity.
      rewrite Hl. reflexivity.
    + intros y Hy. unfold same_rows_at. cbn.
      apply filter_update_row_other; [congruence|reflexivity].
  - unfold MHTDatabase.expire_event. run.
    rewrite Hcount. eexists. split; [reflexivity|]. cbn. split.
    + unfold lookup. cbn. rewrite find_update_row by reflexivity.
      rewrite Hl. reflexivity.
    + intros y Hy. unfold same_rows_at. cbn.
      apply filter_update_row_other; [congruence|reflexivity].
Qed.

(** ** Rows are never deleted or reordered *)

Lemma map_id_update_row (x : Z) (f : Event -> Event) (rows : list Event) :
  (forall e, id (f e) = id e) -> map id (map (update_row x f) rows) = map id rows.
Proof.
  intro Hid. rewrite map_map. apply map_ext. intro e. unfold update_row.
  destruct (id e =? x); [apply Hid|reflexivity].
Qed.

Lemma same_ids_update_status (host : Host) (x s : Z) (cd rd : option JSON) :
  post same_ids (MHTResultProcessor._update_status x s cd rd).
Proof.
  intros w r w' H.
  destruct (update_status_effect host x s cd rd w) as (b & w1 & E & Hrw).
  rewrite E in H. inversion H. subst.
  eapply rewrites_same_ids; [apply restamped_id|exact Hrw].
Qed.

Lemma same_ids_increment_error (host : Host) (x c : Z) (msg : string) :
  post same_ids (MHTResultProcessor._increment_error x c msg).
Proof.
  intros w r w' H.
  destruct (increment_error_effect host x c msg w) as (b & w1 & E & Hrw).
  rewrite E in H. inversion H. subst.
  eapply rewrites_same_ids; [apply recounted_id|exact Hrw].
Qed.

Lemma same_ids_process_single_result (host : Host) (self : MHTResultProcessor.t)
      (event : Event) :
  post same_ids (MHTResultProcessor._process_single_result self event).
Proof.
  unfold MHTResultProcessor._process_single_result.
  pose proof same_ids_refl as Rf. pose proof same_ids_trans as Tr.
  apply (post_try_except _ Tr).
  - apply (post_bind _ Tr); [apply same_ids_update_status|intros _].
    apply (post_bind _ Tr);
      [apply (post_weaken quiet), quiet_process_assessment_result;
       apply quiet_same_ids|intro summary].
    apply (post_bind _ Tr);
      [apply (post_weaken quiet), quiet_now; apply quiet_same_ids|intro now].
    apply (post_bind _ Tr); [apply same_ids_update_status|intros _].
    apply (post_bind _ Tr); [|intros _; apply (post_ret _ Rf)].
    destruct (MHTResultProcessor._on_result_processed self) as [cb|].
    + apply (post_weaken quiet), quiet_invoke. apply quiet_same_ids.
    + apply (post_ret _ Rf).
  - intro ex. apply (post_bind _ Tr);
      [apply same_ids_increment_error|intros _; apply (post_ret _ Rf)].
Qed.

Lemma same_ids_count_processed (host : Host) (self : MHTResultProcessor.t)
      (pending : list Event) :
  forall n, post same_ids (MHTResultProcessor.count_processed self pending n).
Proof.
  induction pending as [|event rest IH]; intro n;
    cbn [MHTResultProcessor.count_processed].
  - apply (post_ret _ same_ids_refl).
  - apply (post_bind _ same_ids_trans);
      [apply same_ids_process_single_result|intro ok; apply IH].
Qed.

Lemma same_ids_process_event (host : Host)
      (flow : World -> string -> list JSON -> Outcome bool)
      (self : OutboundWorker.t) (event : Event) :
  post same_ids (OutboundWorker._process_event flow self event).
Proof.
  intros w r w' H.
  destruct (Z.eq_dec (id event) (id event + 1)) as [Hbad|Hne]; [lia|].
  apply (aside_process_event flow self (id event + 1) event Hne w r w' H).
Qed.

Lemma same_ids_with_select {K : Type} (p : Event -> bool)
      (key_leb : K -> K -> bool) (key : Event -> K) :
  post unchanged (with_connection (select_where_order_by p key_leb key)).
Proof. intros w r w' H. destruct w. inversion H. reflexivity. Qed.

Lemma generate_keeps_notices (host : Host) (self : MHTResponseSimulator.t)
      (data : JSON) :
  post same_notices (MHTResponseSimulator._generate_mock_assessment self data).
Proof.
  assert (Rf : forall a, same_notices a a) by reflexivity.
  assert (Tr : forall a b c, same_notices a b -> same_notices b c -> same_notices a c)
    by (unfold same_notices; congruence).
  assert (Hnow : post same_notices datetime_now)
    by (intros ? ? ? Hx; inversion Hx; reflexivity).
  assert (Hrand : forall lo hi, post same_notices (random_randint lo hi))
    by (intros ? ? ? ? ? Hx; inversion Hx; reflexivity).
  unfold MHTResponseSimulator._generate_mock_assessment.
  repeat first
    [ apply (post_ret same_notices Rf) | apply (post_lift_outcome same_notices Rf)
    | apply Hnow | apply Hrand
    | apply (post_bind same_notices Tr); [|intro]
    | apply (post_map_m same_notices Rf Tr); intro ].
  unfold MHTResponseSimulator.assessment_item.
  destruct x as [i [question score]].
  repeat first
    [ apply (post_ret same_notices Rf) | apply (post_lift_outcome same_notices Rf)
    | apply (post_bind same_notices Tr); [|intro] ].
Qed.

Lemma create_outbound_event_cases (host : Host) (self : MHTResponseSimulator.t)
      (iid : Z) (data : JSON) (w : World) :
  (exists ex w',
      MHTResponseSimulator._create_outbound_event self iid data w = (Raise ex, w') /\
      quiet w w' /\ notified w' = notified w) \/
  (exists w' e,
      MHTResponseSimulator._create_outbound_event self iid data w = (Ok (id e), w') /\
      id e = next_rowid (seq_event (db w)) (map id (common_event (db w))) /\
      common_event (db w') = common_event (db w) ++ [e] /\
      common_eventerror (db w') = common_eventerror (db w) /\
      history w' = history w ++ [db w'] /\
      notified w' = notified w /\
      direction e = O /\ status e = MHTResponseSimulator.STATUS_OUTBOUND_READY /\
      error_count e = 0 /\ received_at e = clock (tick w)).
Proof.
  destruct (MHTResponseSimulator._create_outbound_event self iid data w)
    as [r w'] eqn:E.
  unfold MHTResponseSimulator._create_outbound_event in E.
  unfold bind at 1 in E. cbn [datetime_now] in E. unfold bind at 1 in E.
  match type of E with
  | context [MHTResponseSimulator._generate_mock_assessment self data ?w0] =>
      destruct (MHTResponseSimulator._generate_mock_assessment self data w0)
        as [[mock|ex] w1] eqn:G;
      pose proof (quiet_generate_mock_assessment host self data _ _ _ G) as [Gdb Gh];
      pose proof (generate_keeps_notices host self data _ _ _ G) as Gn
  end; cbn [db history notified] in Gdb, Gh; unfold same_notices in Gn; cbn in Gn.
  - right. run_in E. rewrite Gdb, Gh, Gn in E. inversion E. subst. clear E.
    eexists _, (mkEvent _ _ _ _ _ _ _ _ _ _ _ _). cbn.
    repeat (split; [reflexivity|]). reflexivity.
  - left. inversion E. subst. exists ex, w'.
    split; [reflexivity|]. split; [split; assumption|exact Gn].
Qed.

(** X3. No operation of the store or of the workers deletes or reorders
    rows of [common_event]: the updates, the always-failing [record_error],
    a whole [process_now] and a whole pass of the delivery worker leave the
    list of ids as it was; [create_event] and the simulator's
    [_create_outbound_event] append at most one row, whose id is new.  So
    ids that are unique stay unique. *)
Theorem events_are_never_deleted :
  forall (host : Host) (w : World),
    (forall x payload,
        same_ids w (snd (MHTDatabase.update_event_converted x payload w))) /\
    (forall x payload, same_ids w (snd (MHTDatabase.update_event_sent x payload w))) /\
    (forall x, same_ids w (snd (MHTDatabase.expire_event x w))) /\
    (forall x msg, same_ids w (snd (MHTDatabase.record_error x msg w))) /\
    (forall self, same_ids w (snd (MHTResultProcessor.process_now self w))) /\
    (forall flow self, same_ids w (snd (OutboundWorker.poll flow self w))) /\
    (forall raw kind,
        exists rid,
          map id (common_event (db (snd (MHTDatabase.create_event raw kind w))))
            = map id (common_event (db w)) ++ [rid] /\
          ~ In rid (map id (common_event (db w)))) /\
    (forall self iid data,
        same_ids w (snd (MHTResponseSimulator._create_outbound_event self iid data w))
        \/ exists rid,
          map id (common_event
                    (db (snd (MHTResponseSimulator._create_outbound_event
                                self iid data w))))
            = map id (common_event (db w)) ++ [rid] /\
          ~ In rid (map id (common_event (db w)))).
Proof.
  intros host w.
  assert (Hfresh : ~ In (next_rowid (seq_event (db w)) (map id (common_event (db w))))
                        (map id (common_event (db w)))).
  { intro Hin.
    apply (proj2 (next_rowid_above (seq_event (db w))
                    (map id (common_event (db w))))) in Hin. lia. }
  repeat match goal with |- _ /\ _ => split end.
  - intros x payload. unfold MHTDatabase.update_event_converted, same_ids. run.
    now apply map_id_update_row.
  - intros x payload. unfold MHTDatabase.update_event_sent, same_ids. run.
    now apply map_id_update_row.
  - intros x. unfold MHTDatabase.expire_event, same_ids. run.
    now apply map_id_update_row.
  - intros x msg. unfold MHTDatabase.record_error, same_ids. run. reflexivity.
  - intro self.
    destruct (MHTResultProcessor.process_now self w) as [r w'] eqn:E. cbn.
    unfold MHTResultProcessor.process_now, bind in E.
    rewrite get_pending_results_eq in E.
    eapply same_ids_count_processed, E.
  - intros flow self.
    destruct (OutboundWorker.poll flow self w) as [r w'] eqn:E. cbn.
    unfold OutboundWorker.poll, try_except, bind in E.
    rewrite get_ready_outbound_events_eq in E.
    match type of E with
    | context [for_each ?evs ?body w] =>
        assert (HQ : post same_ids (for_each evs body))
          by (apply (post_for_each _ same_ids_refl same_ids_trans); intro ev;
              apply same_ids_process_event);
        destruct (for_each evs body w) as [[u|ex] w1] eqn:E1
    end; [|unfold ret in E]; inversion E; subst; eapply HQ, E1.
  - intros raw kind. unfold MHTDatabase.create_event. run.
    eexists. rewrite map_app. cbn. split; [reflexivity|exact Hfresh].
  - intros self iid data.
    destruct (create_outbound_event_cases host self iid data w)
      as [(ex & w' & E & [Hq _] & _)|(w' & e & E & Hid & Hrows & _)]; rewrite E; cbn.
    + left. unfold same_ids. now rewrite Hq.
    + right. exists (id e). rewrite Hrows, map_app. cbn.
      split; [reflexivity|]. rewrite Hid. exact Hfresh.
Qed.

Lemma advance_existing_row_witness :
  let w := snd (MHTDatabase.create_event (host := Demo.host) Demo.jane "patient_extraction"
                  (Demo.world_of Demo.empty_db)) in
  exists e w',
    lookup (db w) 1 = Some e /\
    MHTDatabase.update_event_converted (host := Demo.host) 1 Demo.jane w = (Ok true, w') /\
    option_map status (lookup (db w') 1) = Some 10.
Proof.
  set (w := snd (MHTDatabase.create_event (host := Demo.host) Demo.jane
                   "patient_extraction" (Demo.world_of Demo.empty_db))).
  assert (Hl : lookup (db w) 1
               = Some (created_row (host := Demo.host) 1 (Demo.reading 0) Demo.jane
                         "patient_extraction")) by reflexivity.
  destruct (advance_existing_row Demo.host w 1 _ Hl) as (Hconv & _ & _).
  destruct (Hconv Demo.jane) as (w' & E & Hl' & _).
  eexists _, w'. split; [exact Hl|]. split; [exact E|]. rewrite Hl'. reflexivity.
Defined.

(** ** From pending to converted *)

Lemma map_update_row_fresh (x : Z) (f : Event -> Event) (rows : list Event)
      (e : Event) :
  (forall a, In a rows -> id a < x) -> id e = x ->
  map (update_row x f) (rows ++ [e]) = rows ++ [f e].
Proof.
  intros Hlt He. rewrite map_app.
  rewrite (proj1 (update_absent x f rows
                    (fun a Ha => Z.lt_neq _ _ (Hlt a Ha)))).
  cbn. unfold update_row. rewrite He, Z.eqb_refl. reflexivity.
Qed.

(** X4. A freshly created event is among the rows [get_pending_events]
    returns; once [update_event_converted] has been applied to its id it is
    no longer returned there and is returned by [get_converted_events]
    instead, with the converted payload next to the untouched raw one. *)
Theorem converting_moves_between_queues :
  forall (host : Host) (w : World) (raw payload : JSON) (kind : string),
  exists rid w1 w2,
    MHTDatabase.create_event raw kind w = (Ok rid, w1) /\
    MHTDatabase.update_event_converted rid payload w1 = (Ok true, w2) /\
    (exists l e, MHTDatabase.get_pending_events w1 = (Ok l, w1) /\
                 In e l /\ id e = rid) /\
    (exists l, MHTDatabase.get_pending_events w2 = (Ok l, w2) /\
               forall e, In e l -> id e <> rid) /\
    (exists l e, MHTDatabase.get_converted_events w2 = (Ok l, w2) /\
                 In e l /\ id e = rid /\
                 raw_data e = Some (json_dumps raw) /\
                 converted_data e = Some (json_dumps payload)).
Proof.
  intros host w raw payload kind.
  destruct (create_event_then_get_event_aux host w raw kind)
    as (rid & w1 & E1 & Hlt & Hrows1).
  exists rid, w1.
  set (new := created_row rid (clock (tick w)) raw kind) in *.
  assert (Hl1 : lookup (db w1) rid = Some new)
    by (unfold lookup; rewrite Hrows1; now apply find_fresh).
  pose proof (lookup_rowcount _ _ _ Hl1) as Hcount.
  assert (E2 : exists w2,
             MHTDatabase.update_event_converted rid payload w1 = (Ok true, w2) /\
             common_event (db w2)
               = map (update_row rid (fun e =>
                        set_updated_at (clock (tick w1))
                          (set_status 10
                             (set_converted (clock (tick w1)) (json_dumps payload) e))))
                     (common_event (db w1))).
  { unfold MHTDatabase.update_event_converted. run. rewrite Hcount.
    eexists. split; reflexivity. }
  destruct E2 as (w2 & E2 & Hrows2). exists w2.
  split; [exact E1|]. split; [exact E2|].
  rewrite !get_pending_events_eq, get_converted_events_eq.
  rewrite Hrows2, Hrows1.
  rewrite (map_update_row_fresh rid _ _ new Hlt eq_refl).
  split; [|split].
  - eexists _, new. split; [reflexivity|]. split; [|reflexivity].
    apply order_by_In, filter_In. split; [apply in_or_app; right; now left|].
    reflexivity.
  - eexists. split; [reflexivity|]. intros e He.
    apply order_by_In, filter_In in He. destruct He as [He Hs].
    apply in_app_or in He. destruct He as [He|[<-|[]]].
    + specialize (Hlt e He). lia.
    + discriminate.
  - eexists _, _. split; [reflexivity|]. split.
    + apply order_by_In, filter_In. split; [apply in_or_app; right; now left|].
      reflexivity.
    + cbn. auto.
Qed.

(** ** Statistics *)

Lemma get_stats_eq (w : World) :
  MHTResultProcessor.get_stats w =
    (Ok (MHTResultProcessor.mkStats
           (count_rows (fun e => Direction_eqb (direction e) O && (status e =? 10)) (db w))
           (count_rows (fun e => Direction_eqb (direction e) O && (status e =? 100)) (db w))
           (count_rows (fun e => Direction_eqb (direction e) O && (status e <? 0)) (db w))
           (count_rows (fun e => Direction_eqb (direction e) I) (db w))
           (count_rows (fun e => Direction_eqb (direction e) I && (1 <=? status e)) (db w))),
     w).
Proof. destruct w. reflexivity. Qed.

Lemma count_rows_cons (p : Event -> bool) (e : Event) (rows : list Event)
      (errs : list EventError) (s1 s2 : Z) :
  count_rows p (mkDatabase (e :: rows) errs s1 s2)
    = (if p e then 1 else 0) + count_rows p (mkDatabase rows errs s1 s2).
Proof.
  unfold count_rows. cbn [common_event filter].
  destruct (p e); cbn [List.length]; lia.
Qed.

(** X5. [get_stats] reads without writing, and its counts add up as
    follows: inbound_complete never exceeds inbound_total and counts every
    inbound row of status 1 or more, converted ones included; inbound_total
    plus the outbound rows is the whole table; and an outbound row is in
    exactly one of pending, complete and failed unless its status is
    non-negative and neither 10 nor 100, as for a row at PROCESSING (50) or
    at DONE (200), which is in none of them. *)
Theorem stats_add_up :
  forall (w : World),
  exists st,
    MHTResultProcessor.get_stats w = (Ok st, w) /\
    0 <= MHTResultProcessor.inbound_complete st <= MHTResultProcessor.inbound_total st /\
    MHTResultProcessor.inbound_total st + count_rows is_outbound (db w)
      = Z.of_nat (List.length (common_event (db w))) /\
    MHTResultProcessor.outbound_pending st + MHTResultProcessor.outbound_complete st
      + MHTResultProcessor.outbound_failed st + count_rows uncounted (db w)
      = count_rows is_outbound (db w) /\
    (forall e, In e (common_event (db w)) -> direction e = O ->
               status e = 50 \/ status e = 200 -> uncounted e = true).
Proof.
  intro w. rewrite get_stats_eq. eexists. split; [reflexivity|].
  cbn [MHTResultProcessor.inbound_complete MHTResultProcessor.inbound_total
       MHTResultProcessor.outbound_pending MHTResultProcessor.outbound_complete
       MHTResultProcessor.outbound_failed].
  destruct (db w) as [rows errs s1 s2].
  split; [|split; [|split]].
  - induction rows as [|e rows IH]; [cbn; lia|].
    rewrite !count_rows_cons.
    destruct (Direction_eqb (direction e) I), (1 <=? status e); cbn [andb]; lia.
  - cbn [common_event]. induction rows as [|e rows IH]; [reflexivity|].
    rewrite !count_rows_cons. cbn [List.length]. unfold is_outbound at 1.
    destruct (direction e); cbn [Direction_eqb]; lia.
  - induction rows as [|e rows IH]; [reflexivity|].
    rewrite !count_rows_cons. unfold uncounted at 1, is_outbound at 1 2.
    destruct (Direction_eqb (direction e) O); cbn [andb]; [|lia].
    destruct (status e =? 10) eqn:E10; destruct (status e =? 100) eqn:E100;
      destruct (status e <? 0) eqn:Eneg; destruct (0 <=? status e) eqn:Epos;
      cbn [andb negb];
      rewrite ?Z.eqb_eq, ?Z.eqb_neq, ?Z.ltb_lt, ?Z.ltb_ge, ?Z.leb_le, ?Z.leb_gt in *;
      lia.
  - intros e _ Hd Hs. unfold uncounted, is_outbound. rewrite Hd. cbn [Direction_eqb andb].
    destruct Hs as [-> | ->]; reflexivity.
Qed.

Lemma filter_length_perm (l l' : list Event) :
  Permutation l l' -> List.length l = List.length l'.
Proof. apply Permutation_length. Qed.

(** X6. The count [get_stats] reports as outbound_pending is the number of
    events [_get_pending_results] returns, and it is 0 on the world any
    [process_now] leaves behind. *)
Theorem stats_pending_is_the_queue :
  forall (host : Host) (self : MHTResultProcessor.t) (w : World),
    (exists st l,
        MHTResultProcessor.get_stats w = (Ok st, w) /\
        MHTResultProcessor._get_pending_results w = (Ok l, w) /\
        MHTResultProcessor.outbound_pending st = Z.of_nat (List.length l)) /\
    (exists st,
        MHTResultProcessor.get_stats (snd (MHTResultProcessor.process_now self w))
          = (Ok st, snd (MHTResultProcessor.process_now self w)) /\
        MHTResultProcessor.outbound_pending st = 0).
Proof.
  intros host self w. split.
  - rewrite get_stats_eq, get_pending_results_eq. eexists _, _.
    split; [reflexivity|]. split; [reflexivity|].
    cbn [MHTResultProcessor.outbound_pending]. unfold count_rows. f_equal.
    apply Permutation_length, order_by_perm.
  - rewrite get_stats_eq. eexists. split; [reflexivity|].
    cbn [MHTResultProcessor.outbound_pending].
    unfold MHTResultProcessor.process_now, bind. rewrite get_pending_results_eq.
    destruct (count_processed_calms host self
                (order_by String.leb received_at
                   (filter ready_to_process (common_event (db w)))) 0 w)
      as (n & w1 & E & Hc & Hk & _).
    rewrite E. cbn [snd].
    assert (Hnone : filter ready_to_process (common_event (db w1)) = []).
    { apply (calmer_no_ready w w1 Hc). intros e He Re. apply Hk.
      apply order_by_In, filter_In. auto. }
    unfold count_rows. change (fun e : Event =>
      Direction_eqb (direction e) O && (status e =? 10)) with ready_to_process.
    now rewrite Hnone.
Qed.

(** X7. A result the simulator has just inserted is counted by
    [get_stats] as complete and not as pending: outbound_complete goes up
    by one, outbound_pending stays. *)
Theorem simulated_result_counts_as_complete :
  forall (host : Host) (self : MHTResponseSimulator.t) (iid : Z) (data : JSON)
         (w w' : World) (rid : Z) (st st' : MHTResultProcessor.Stats),
    MHTResponseSimulator._create_outbound_event self iid data w = (Ok rid, w') ->
    fst (MHTResultProcessor.get_stats w) = Ok st ->
    fst (MHTResultProcessor.get_stats w') = Ok st' ->
    MHTResultProcessor.outbound_complete st'
      = MHTResultProcessor.outbound_complete st + 1 /\
    MHTResultProcessor.outbound_pending st' = MHTResultProcessor.outbound_pending st /\
    MHTResultProcessor.outbound_failed st' = MHTResultProcessor.outbound_failed st /\
    MHTResultProcessor.inbound_total st' = MHTResultProcessor.inbound_total st.
Proof.
  intros host self iid data w w' rid st st' E Hst Hst'.
  destruct (create_outbound_event_cases host self iid data w)
    as [(ex & w1 & E1 & _)|(w1 & e & E1 & _ & Hrows & _ & _ & _ & Hd & Hs & _)];
    rewrite E1 in E; [discriminate|]. inversion E. subst w1. clear E.
  rewrite get_stats_eq in Hst, Hst'. cbn in Hst, Hst'.
  inversion Hst. inversion Hst'. subst st st'. clear Hst Hst'.
  cbn [MHTResultProcessor.inbound_complete MHTResultProcessor.inbound_total
       MHTResultProcessor.outbound_pending MHTResultProcessor.outbound_complete
       MHTResultProcessor.outbound_failed].
  unfold count_rows. rewrite Hrows, !filter_app, !length_app. cbn [filter].
  rewrite Hd, Hs. cbn. lia.
Qed.

Lemma simulated_result_counts_as_complete_witness :
  exists w',
    MHTResponseSimulator._create_outbound_event (host := Demo.host)
      DemoSimulator.self 1 Demo.jane DemoSimulator.w0 = (Ok 2, w') /\
    fst (MHTResultProcessor.get_stats DemoSimulator.w0)
      = Ok (MHTResultProcessor.mkStats 0 0 0 1 1) /\
    fst (MHTResultProcessor.get_stats w')
      = Ok (MHTResultProcessor.mkStats 0 1 0 1 1) /\
    1 = 0 + 1.
Proof.
  exists (snd (MHTResponseSimulator._create_outbound_event (host := Demo.host)
                 DemoSimulator.self 1 Demo.jane DemoSimulator.w0)).
  assert (H : MHTResponseSimulator._create_outbound_event (host := Demo.host)
                DemoSimulator.self 1 Demo.jane DemoSimulator.w0
              = (Ok 2, snd (MHTResponseSimulator._create_outbound_event
                              (host := Demo.host) DemoSimulator.self 1 Demo.jane
                              DemoSimulator.w0)))
    by (vm_compute; reflexivity).
  assert (Hst : fst (MHTResultProcessor.get_stats DemoSimulator.w0)
                = Ok (MHTResultProcessor.mkStats 0 0 0 1 1))
    by (vm_compute; reflexivity).
  assert (Hst' : fst (MHTResultProcessor.get_stats
                        (snd (MHTResponseSimulator._create_outbound_event
                                (host := Demo.host) DemoSimulator.self 1 Demo.jane
                                DemoSimulator.w0)))
                 = Ok (MHTResultProcessor.mkStats 0 1 0 1 1))
    by (vm_compute; reflexivity).
  split; [exact H|]. split; [exact Hst|]. split; [exact Hst'|].
  exact (proj1 (simulated_result_counts_as_complete Demo.host _ _ _ _ _ _ _ _
                  H Hst Hst')).
Defined.

(** ** A result that is processed *)

Lemma returns_ret {A : Type} (P : A -> Prop) (a : A) : P a -> returns P (ret a).
Proof. intros H w b w' E. inversion E. now subst. Qed.

Lemma returns_bind {A B : Type} (P : B -> Prop) (m : M A) (k : A -> M B) :
  (forall a, returns P (k a)) -> returns P (bind m k).
Proof.
  intros Hk w b w' E. unfold bind in E.
  destruct (m w) as [[a|ex] w1]; [eapply Hk, E|discriminate].
Qed.

Lemma summary_is_truthy (host : Host) (event : Event) :
  returns (fun s => py_truthy s = true)
          (MHTResultProcessor._process_assessment_result event).
Proof.
  unfold MHTResultProcessor._process_assessment_result.
  repeat (apply returns_bind; intro). apply returns_ret. reflexivity.
Qed.

Lemma update_status_plain_step (host : Host) (x s : Z) (w : World) (e : Event) :
  lookup (db w) x = Some e ->
  exists w',
    MHTResultProcessor._update_status x s None None w = (Ok true, w') /\
    lookup (db w') x = Some (set_updated_at (clock (tick w)) (set_status s e)) /\
    history w' = history w ++ [db w'] /\
    notified w' = notified w /\
    common_eventerror (db w') = common_eventerror (db w) /\
    tick w' = S (tick w).
Proof.
  intro Hl. pose proof (lookup_rowcount _ _ _ Hl) as Hcount. unfold lookup in Hl.
  unfold MHTResultProcessor._update_status. run. rewrite Hcount.
  eexists. split; [reflexivity|]. cbn. unfold lookup. cbn.
  rewrite find_update_row by reflexivity. rewrite Hl. cbn. auto 10.
Qed.

Lemma update_status_full_step (host : Host) (x s : Z) (cd rd : JSON) (w : World)
      (e : Event) :
  lookup (db w) x = Some e -> py_truthy cd = true -> py_truthy rd = true ->
  exists w',
    MHTResultProcessor._update_status x s (Some cd) (Some rd) w = (Ok true, w') /\
    lookup (db w') x
      = Some (set_updated_at (clock (tick w))
                (set_sent (clock (tick w)) (json_dumps rd)
                   (set_converted (clock (tick w)) (json_dumps cd) (set_status s e)))) /\
    history w' = history w ++ [db w'] /\
    notified w' = notified w /\
    common_eventerror (db w') = common_eventerror (db w) /\
    tick w' = S (tick w).
Proof.
  intros Hl Hcd Hrd. pose proof (lookup_rowcount _ _ _ Hl) as Hcount.
  unfold lookup in Hl.
  unfold MHTResultProcessor._update_status. run. rewrite Hcd, Hrd. cbn.
  rewrite Hcount.
  eexists. split; [reflexivity|]. cbn. unfold lookup. cbn.
  rewrite find_update_row by reflexivity. rewrite Hl. cbn. auto 10.
Qed.

Lemma process_single_result_until_callback (host : Host)
      (self : MHTResultProcessor.t) (ev : Event) (w : World) (summary : JSON)
      (w2 : World) :
  lookup (db w) (id ev) = Some ev ->
  MHTResultProcessor._process_assessment_result ev
    (snd (MHTResultProcessor._update_status (id ev)
            MHTResultProcessor.STATUS_PROCESSING None None w)) = (Ok summary, w2) ->
  exists w1 w4,
    MHTResultProcessor._update_status (id ev) MHTResultProcessor.STATUS_PROCESSING
      None None w = (Ok true, w1) /\
    MHTResultProcessor._process_single_result self ev w
      = after_commit self (id ev) summary w4 /\
    lookup (db w4) (id ev)
      = Some (completed_row ev summary (clock (tick w2)) (clock (S (tick w2)))) /\
    history w4 = history w ++ [db w1; db w4] /\
    status_in (db w1) (id ev) = Some MHTResultProcessor.STATUS_PROCESSING /\
    notified w4 = notified w /\
    common_eventerror (db w4) = common_eventerror (db w).
Proof.
  intros Hl Hpar.
  destruct (update_status_plain_step host (id ev) MHTResultProcessor.STATUS_PROCESSING
              w ev Hl) as (w1 & E1 & L1 & H1 & N1 & R1 & T1).
  rewrite E1 in Hpar. cbn [snd] in Hpar.
  pose proof (quiet_process_assessment_result host ev _ _ _ Hpar) as [Qdb Qh].
  pose proof (summary_is_truthy host ev _ _ _ Hpar) as Htruthy.
  assert (Qn : notified w2 = notified w1).
  { assert (Hn : post same_notices (MHTResultProcessor._process_assessment_result ev)).
    { assert (Rf : forall a, same_notices a a) by reflexivity.
      assert (Tr : forall a b c, same_notices a b -> same_notices b c ->
                                 same_notices a c)
        by (unfold same_notices; congruence).
      assert (Hnow : post same_notices datetime_now)
        by (intros ? ? ? Hx; inversion Hx; reflexivity).
      unfold MHTResultProcessor._process_assessment_result,
        MHTResultProcessor.assessment_summary.
      repeat first
        [ apply (post_ret same_notices Rf) | apply (post_raise same_notices Rf)
        | apply (post_lift_outcome same_notices Rf) | apply Hnow
        | apply (post_bind same_notices Tr); [|intro]
        | apply (post_map_m same_notices Rf Tr); intro
        | match goal with
          | |- post _ (if ?b then _ else _) => destruct b
          | |- post _ (match ?x with _ => _ end) => destruct x
          end ]. }
    exact (Hn _ _ _ Hpar). }
  set (w3 := mkWorld (db w2) (S (tick w2)) (draws w2) (history w2) (notified w2)).
  assert (L3 : lookup (db w3) (id ev)
               = Some (set_updated_at (clock (tick w))
                         (set_status MHTResultProcessor.STATUS_PROCESSING ev)))
    by (cbn [w3 db]; rewrite Qdb; exact L1).
  destruct (update_status_full_step host (id ev) MHTResultProcessor.STATUS_COMPLETE
              summary (response_for summary (clock (tick w2))) w3 _ L3 Htruthy eq_refl)
    as (w4 & E4 & L4 & H4 & N4 & R4 & T4).
  exists w1, w4. split; [exact E1|].
  split.
  - unfold MHTResultProcessor._process_single_result, after_commit.
    rewrite try_except_bind, E1. rewrite try_except_bind, Hpar.
    rewrite try_except_bind. cbn [datetime_now]. fold w3.
    rewrite try_except_bind.
    unfold response_for in E4. rewrite E4. reflexivity.
  - split; [rewrite L4; reflexivity|].
    split; [rewrite H4; cbn [w3 history]; rewrite Qh, H1, <- app_assoc; reflexivity|].
    split; [unfold status_in; rewrite L1; reflexivity|].
    split; [rewrite N4; cbn [w3 notified]; congruence|].
    rewrite R4. cbn [w3 db]. rewrite Qdb. exact R1.
Qed.

(** X8. When the payload of a fetched event can be summarized and the
    callback, if registered, returns normally, [_process_single_result]
    returns True after exactly two commits, the first with the event at
    PROCESSING (50), the second at COMPLETE (100): the row then carries the
    serialized summary as converted_data, the acknowledgement wrapping that
    summary as response_data, both stamped with the time of the commit, and
    keeps its raw payload and its error_count; no error row is written and
    the callback has been handed the summary once. *)
Theorem processed_result_is_completed :
  forall (host : Host) (self : MHTResultProcessor.t) (ev : Event) (w : World)
         (summary : JSON) (w2 : World),
    lookup (db w) (id ev) = Some ev ->
    MHTResultProcessor._process_assessment_result ev
      (snd (MHTResultProcessor._update_status (id ev)
              MHTResultProcessor.STATUS_PROCESSING None None w)) = (Ok summary, w2) ->
    callback_accepts self summary ->
    exists w' d1,
      MHTResultProcessor._process_single_result self ev w = (Ok true, w') /\
      lookup (db w') (id ev)
        = Some (completed_row ev summary (clock (tick w2)) (clock (S (tick w2)))) /\
      history w' = history w ++ [d1; db w'] /\
      status_in d1 (id ev) = Some MHTResultProcessor.STATUS_PROCESSING /\
      notified w' = notified w ++ notices_for self summary /\
      common_eventerror (db w') = common_eventerror (db w).
Proof.
  intros host self ev w summary w2 Hl Hpar Hcb.
  destruct (process_single_result_until_callback host self ev w summary w2 Hl Hpar)
    as (w1 & w4 & E1 & E & L4 & H4 & S1 & N4 & R4).
  rewrite E. unfold after_commit, try_except, bind, callback_accepts, notices_for in *.
  destruct (MHTResultProcessor._on_result_processed self) as [cb|].
  - unfold invoke. rewrite Hcb. cbn.
    eexists _, (db w1). split; [reflexivity|]. cbn.
    rewrite N4. auto 10.
  - cbn. exists w4, (db w1). rewrite app_nil_r. auto 10.
Qed.

Lemma increment_error_row (host : Host) (w : World) (x c : Z) (msg : string)
      (e : Event) :
  lookup (db w) x = Some e ->
  let n := error_count e + 1 in
  exists w',
    MHTResultProcessor._increment_error x c msg w
      = (Ok (MHTResultProcessor.MAX_ERRORS <=? n), w') /\
    lookup (db w') x
      = Some (set_updated_at (clock (tick w))
                (set_error_count n
                   (if MHTResultProcessor.MAX_ERRORS <=? n
                    then set_status (- Z.abs c) e else e))) /\
    notified w' = notified w /\
    common_eventerror (db w') = common_eventerror (db w).
Proof.
  intros Hl n. unfold lookup in Hl.
  unfold MHTResultProcessor._increment_error. run. rewrite Hl. fold n.
  destruct (MHTResultProcessor.MAX_ERRORS <=? n) eqn:E; cbn;
    eexists; (split; [reflexivity|]); cbn; unfold lookup; cbn;
    rewrite find_update_row by reflexivity; rewrite Hl; cbn; auto.
Qed.

(** X9. When the summary has been committed and the registered callback
    then raises, [_process_single_result] returns False and counts an error
    on the event although its summary is stored: below the cap the event
    stays at COMPLETE (100) with error_count one higher; when that makes
    error_count reach 4 the completed event is marked failed, status -10. *)
Theorem raising_callback_counts_an_error :
  forall (host : Host) (self : MHTResultProcessor.t) (ev : Event) (w : World)
         (summary : JSON) (w2 : World) (cb : JSON -> Outcome unit) (ex : Exn),
    lookup (db w) (id ev) = Some ev ->
    MHTResultProcessor._process_assessment_result ev
      (snd (MHTResultProcessor._update_status (id ev)
              MHTResultProcessor.STATUS_PROCESSING None None w)) = (Ok summary, w2) ->
    MHTResultProcessor._on_result_processed self = Some cb ->
    cb summary = Raise ex ->
    exists w' e',
      MHTResultProcessor._process_single_result self ev w = (Ok false, w') /\
      lookup (db w') (id ev) = Some e' /\
      converted_data e' = Some (json_dumps summary) /\
      error_count e' = error_count ev + 1 /\
      status e' = (if MHTResultProcessor.MAX_ERRORS <=? error_count ev + 1
                   then -10 else MHTResultProcessor.STATUS_COMPLETE) /\
      notified w' = notified w ++ [summary].
Proof.
  intros host self ev w summary w2 cb ex Hl Hpar Hself Hcb.
  destruct (process_single_result_until_callback host self ev w summary w2 Hl Hpar)
    as (w1 & w4 & E1 & E & L4 & H4 & S1 & N4 & R4).
  rewrite E. unfold after_commit, try_except. unfold bind at 1.
  rewrite Hself. unfold invoke. rewrite Hcb. cbv beta. unfold bind, ret.
  match goal with
  | |- context [MHTResultProcessor._increment_error _ _ _ ?w5] =>
      destruct (increment_error_row host w5 (id ev)
                  MHTResultProcessor.STATUS_OUTBOUND_READY (exn_message ex) _ L4)
        as (w6 & R6 & L6 & N6 & _)
  end.
  rewrite R6.
  cbn [completed_row error_count] in R6, L6.
  eexists w6, _. split; [reflexivity|]. split; [exact L6|].
  cbn [notified] in N6. rewrite N6, N4.
  destruct (MHTResultProcessor.MAX_ERRORS <=? error_count ev + 1); cbn; auto.
Qed.

Lemma processed_result_is_completed_witness :
  exists w',
    MHTResultProcessor._process_single_result (host := Demo.host)
      DemoProcessing.quiet_self DemoProcessing.ev DemoProcessing.w0 = (Ok true, w') /\
    status_in (db w') 1 = Some 100 /\
    statuses 1 (history w') = [Some 50; Some 100].
Proof.
  assert (Hl : lookup (db DemoProcessing.w0) (id DemoProcessing.ev)
               = Some DemoProcessing.ev) by reflexivity.
  assert (Hpar : MHTResultProcessor._process_assessment_result (host := Demo.host)
                   DemoProcessing.ev
                   (snd (MHTResultProcessor._update_status (host := Demo.host)
                           (id DemoProcessing.ev)
                           MHTResultProcessor.STATUS_PROCESSING None None
                           DemoProcessing.w0))
                 = (Ok DemoProcessing.summary, DemoProcessing.w2))
    by (vm_compute; reflexivity).
  destruct (processed_result_is_completed Demo.host DemoProcessing.quiet_self
              DemoProcessing.ev DemoProcessing.w0 DemoProcessing.summary
              DemoProcessing.w2 Hl Hpar Logic.I)
    as (w' & d1 & E & L & H & S1 & _).
  exists w'. split; [exact E|].
  split; [unfold status_in; cbn [id DemoProcessing.ev Demo.received] in L;
          rewrite L; reflexivity|].
  rewrite H. cbn [statuses map app DemoProcessing.w0 Demo.world_of history].
  cbn [id DemoProcessing.ev Demo.received] in S1, L. rewrite S1.
  unfold status_in. rewrite L. reflexivity.
Defined.

Lemma raising_callback_counts_an_error_witness :
  exists w' e',
    MHTResultProcessor._process_single_result (host := Demo.host)
      DemoProcessing.failing_self DemoProcessing.ev DemoProcessing.w0 = (Ok false, w') /\
    lookup (db w') 1 = Some e' /\
    status e' = 100 /\ error_count e' = 1.
Proof.
  assert (Hl : lookup (db DemoProcessing.w0) (id DemoProcessing.ev)
               = Some DemoProcessing.ev) by reflexivity.
  assert (Hpar : MHTResultProcessor._process_assessment_result (host := Demo.host)
                   DemoProcessing.ev
                   (snd (MHTResultProcessor._update_status (host := Demo.host)
                           (id DemoProcessing.ev)
                           MHTResultProcessor.STATUS_PROCESSING None None
                           DemoProcessing.w0))
                 = (Ok DemoProcessing.summary, DemoProcessing.w2))
    by (vm_compute; reflexivity).
  destruct (raising_callback_counts_an_error Demo.host DemoProcessing.failing_self
              DemoProcessing.ev DemoProcessing.w0 DemoProcessing.summary
              DemoProcessing.w2 _ (OtherError "callback") Hl Hpar eq_refl eq_refl)
    as (w' & e' & E & L & _ & C & S & _).
  exists w', e'. split; [exact E|]. split; [exact L|]. split; [exact S|exact C].
Defined.

(** ** Payloads at the edges *)




(** X11. A payload that is valid JSON but not an object (null, a number, a
    string, an array) makes [_process_assessment_result] raise
    AttributeError at its first [.get], before the clock is read; the same
    happens when the object's "data" member is not an object. *)
Theorem non_object_payload_raises :
  forall (host : Host) (ev : Event) (w : World) (text : string) (v : JSON),
    raw_data ev = Some text -> text <> EmptyString -> json_loads text = Some v ->
    is_object v = false \/
    (exists kv d, v = JDict kv /\ assoc "data" kv = Some d /\ is_object d = false) ->
    MHTResultProcessor._process_assessment_result ev w
      = (Raise (AttributeError "get"), w).
Proof.
  intros host ev w text v Hraw Hne Hloads Hshape.
  unfold MHTResultProcessor._process_assessment_result. unfold bind at 1.
  rewrite Hraw. apply String.eqb_neq in Hne. rewrite Hne, Hloads.
  destruct Hshape as [Hv|(kv & d & -> & Hd & Hobj)].
  - destruct v; try discriminate; reflexivity.
  - unfold ret, bind, lift_outcome. cbn [py_get]. rewrite Hd.
    destruct d; try discriminate; reflexivity.
Qed.

Lemma non_object_payload_raises_witness :
  let ev := Demo.received 1 "2024-01-01T00:00:00" (Some "null") in
  json_loads (Host := DemoEdge.host) "null" = Some JNull /\
  MHTResultProcessor._process_assessment_result (host := DemoEdge.host) ev
    (Demo.world_of Demo.empty_db)
    = (Raise (AttributeError "get"), Demo.world_of Demo.empty_db).
Proof.
  intro ev. split; [reflexivity|].
  apply (non_object_payload_raises DemoEdge.host ev (Demo.world_of Demo.empty_db)
           "null" JNull eq_refl ltac:(discriminate) eq_refl (or_introl eq_refl)).
Defined.

(** ** The summary of a well-formed payload *)

Lemma assessment_summary_ok (host : Host) (a : JSON) :
  summarizable a ->
  exists s, (forall w, MHTResultProcessor.assessment_summary a w = (Ok s, w)) /\
            summarizes a s.
Proof.
  intros (kv & -> & Hitems).
  unfold MHTResultProcessor.assessment_summary, summarizes.
  unfold bind, lift_outcome, ret. cbn [py_get].
  assert (Hlen : exists n,
             py_len (match assoc "assessment_items" kv with
                     | Some v => v
                     | None => JList []
                     end) = Ok n).
  { destruct (assoc "assessment_items" kv) as [items|]; [|cbn; eauto].
    destruct items; cbn in Hitems; try contradiction; cbn; eauto. }
  destruct Hlen as (n & Hn). rewrite Hn.
  unfold py_or.
  destruct (py_truthy (match assoc "total_score_legend" kv with
                       | Some v => v
                       | None => JNull
                       end)) eqn:Et;
    eexists; (split; [intro w; reflexivity|]); cbn;
    repeat (split; [reflexivity|]);
    (split; [eexists _, _; (split; [reflexivity|]); (split; [reflexivity|]);
             rewrite Et; reflexivity
            |eexists _, _; (split; [reflexivity|]); split; [exact Hn|reflexivity]]).
Qed.

Lemma map_m_pure {A B : Type} (f : A -> M B) (R : A -> B -> Prop) (l : list A) :
  Forall (fun a => exists b, (forall w, f a w = (Ok b, w)) /\ R a b) l ->
  exists bs, (forall w, map_m f l w = (Ok bs, w)) /\ Forall2 R l bs.
Proof.
  induction 1 as [|a l (b & Hb & Rb) _ (bs & Hbs & Rbs)].
  - exists []. split; [reflexivity|constructor].
  - exists (b :: bs). split; [|now constructor].
    intro w. cbn [map_m]. unfold bind, ret. now rewrite Hb, Hbs.
Qed.

(** X12. For a payload that is an object whose data (its "data" member, or
    the object itself without one) is an object with a list under
    "assessment" made of summarizable assessments, and whose "patient", if
    present, is an object, [_process_assessment_result] returns a summary
    after one clock reading: it names the event, echoes the patient id and
    the report link, and holds one entry per assessment, in order, each
    with the assessment's id, name, type, total score and flag, the first
    truthy one of its two legends as severity, and the length of its item
    list as item_count. *)
Theorem well_formed_payload_is_summarized :
  forall (host : Host) (ev : Event) (w : World) (text : string)
         (kv dkv pkv : list (string * JSON)) (al : list JSON),
    raw_data ev = Some text -> text <> EmptyString ->
    json_loads text = Some (JDict kv) ->
    match assoc "data" kv with Some d => d | None => JDict kv end = JDict dkv ->
    match assoc "patient" dkv with Some p => p | None => JDict [] end = JDict pkv ->
    assoc "assessment" dkv = Some (JList al) ->
    Forall summarizable al ->
    exists summary entries,
      MHTResultProcessor._process_assessment_result ev w
        = (Ok summary, mkWorld (db w) (S (tick w)) (draws w) (history w) (notified w)) /\
      py_get summary "event_id" JNull = Ok (JInt (id ev)) /\
      py_get summary "processed_at" JNull = Ok (JStr (clock (tick w))) /\
      py_get summary "patient_id" JNull = py_get (JDict pkv) "patient_id" JNull /\
      py_get summary "pdf_url" JNull
        = py_get (JDict dkv) "assessment_response_url" JNull /\
      py_get summary "assessments" JNull = Ok (JList entries) /\
      Forall2 summarizes al entries.
Proof.
  intros host ev w text kv dkv pkv al Hraw Hne Hloads Hdata Hpatient Hassess Hall.
  destruct (map_m_pure MHTResultProcessor.assessment_summary summarizes al)
    as (entries & Hmap & Hrel).
  { eapply Forall_impl; [|exact Hall]. intros a Ha.
    now apply assessment_summary_ok. }
  unfold MHTResultProcessor._process_assessment_result.
  unfold bind at 1. rewrite Hraw. apply String.eqb_neq in Hne.
  rewrite Hne, Hloads. unfold ret at 1.
  unfold bind at 1. unfold lift_outcome at 1. cbn [py_get]. rewrite Hdata.
  unfold bind at 1. unfold lift_outcome at 1. cbn [py_get]. rewrite Hpatient.
  unfold bind at 1. unfold lift_outcome at 1. cbn [py_get]. rewrite Hassess.
  unfold bind at 1. cbn [datetime_now].
  unfold bind at 1. unfold lift_outcome at 1. cbn [py_get].
  unfold bind at 1. unfold lift_outcome at 1. cbn [py_get].
  unfold bind at 1. unfold lift_outcome at 1. cbn [py_get].
  unfold bind at 1. unfold lift_outcome at 1. cbn [py_iter].
  unfold bind at 1. rewrite Hmap.
  unfold bind, lift_outcome, ret. cbn [py_get].
  eexists _, entries. split; [reflexivity|]. cbn.
  repeat (split; [reflexivity|]). exact Hrel.
Qed.

Lemma well_formed_payload_is_summarized_witness :
  exists summary entry,
    json_loads (Host := Demo.host) (Demo.dumps Demo.result_for_jane)
      = Some Demo.result_for_jane /\
    fst (MHTResultProcessor._process_assessment_result (host := Demo.host)
           DemoProcessing.ev DemoProcessing.w0) = Ok summary /\
    py_get summary "patient_id" JNull = Ok (JStr "123") /\
    py_get summary "assessments" JNull = Ok (JList [entry]) /\
    py_get entry "item_count" JNull = Ok (JInt 0).
Proof.
  assert (Hsum : Forall summarizable
                   [JDict [ ("assessment_name", JStr "PHQ-9");
                            ("total_score_value", JStr "7");
                            ("total_score_legend", JStr "Mild");
                            ("assessment_items", JList []) ]]).
  { constructor; [|constructor]. eexists. split; [reflexivity|]. exact Logic.I. }
  destruct (well_formed_payload_is_summarized Demo.host DemoProcessing.ev
              DemoProcessing.w0 (Demo.dumps Demo.result_for_jane)
              _ _ _ _ eq_refl ltac:(discriminate) eq_refl eq_refl eq_refl eq_refl Hsum)
    as (summary & entries & E & _ & _ & Hpid & _ & Hass & Hrel).
  inversion Hrel as [|a s l l' Hs Hnil]; subst. inversion Hnil; subst.
  exists summary, s. split; [reflexivity|]. split; [now rewrite E|].
  split; [exact Hpid|]. split; [exact Hass|].
  destruct Hs as (_ & _ & _ & _ & _ & _ & (items & n & Hi & Hn & Hc)).
  cbn in Hi. inversion Hi. subst items. cbn in Hn. inversion Hn. subst n. exact Hc.
Defined.

(** ** What the simulator generates *)

Lemma py_index_legends (score : Z) :
  0 <= score <= 3 ->
  exists legend, MHTResponseSimulator.py_index MHTResponseSimulator.legends score
                 = Ok legend.
Proof.
  intro H. assert (Hc : score = 0 \/ score = 1 \/ score = 2 \/ score = 3) by lia.
  destruct Hc as [-> | [-> | [-> | ->]]]; eexists; reflexivity.
Qed.

Lemma assessment_item_ok (host : Host) (i : Z) (question : string) (score : Z) :
  0 <= score <= 3 ->
  exists item,
    (forall w, MHTResponseSimulator.assessment_item (i, (question, score)) w
               = (Ok item, w)) /\
    True.
Proof.
  intro H. destruct (py_index_legends score H) as (legend & Hl).
  unfold MHTResponseSimulator.assessment_item, bind, lift_outcome, ret.
  rewrite Hl. eexists. split; [intro w; reflexivity|exact Logic.I].
Qed.

Lemma drawn_scores_bounds (host : Host) (w : World) :
  randint_in_bounds host -> Forall (fun s => 0 <= s <= 3) (drawn_scores w).
Proof.
  intro Hb. unfold drawn_scores. apply Forall_map, Forall_forall.
  intros k _. apply Hb. lia.
Qed.

Lemma drawn_total_bounds (host : Host) (w : World) :
  randint_in_bounds host -> 0 <= drawn_total w <= 27.
Proof.
  intro Hb. pose proof (drawn_scores_bounds host w Hb) as HF.
  unfold drawn_total. unfold drawn_scores in *. cbn [seq map] in *.
  repeat match goal with
         | H : Forall _ (_ :: _) |- _ => inversion H; clear H; subst
         end.
  cbn [fold_right Nat.add]. lia.
Qed.

Lemma generate_shape (host : Host) (self : MHTResponseSimulator.t)
      (kv pkv : list (string * JSON)) (w : World) :
  randint_in_bounds host ->
  patient_of kv = JDict pkv ->
  exists items,
    List.length items = 9%nat /\
    MHTResponseSimulator._generate_mock_assessment self (JDict kv) w
      = (Ok (mock_document self kv pkv w items),
         mkWorld (db w) (5 + tick w) (10 + draws w) (history w) (notified w)).
Proof.
  intros Hb Hp.
  pose proof (drawn_scores_bounds host w Hb) as HF.
  unfold drawn_scores in HF. cbn [seq map] in HF.
  repeat match goal with
         | H : Forall _ (_ :: _) |- _ => inversion H; clear H; subst
         end.
  match goal with H : Forall _ [] |- _ => clear H end.
  destruct (map_m_pure MHTResponseSimulator.assessment_item (fun _ _ => True)
              (MHTResponseSimulator.enumerate_from 1
                 (MHTResponseSimulator.zip MHTResponseSimulator.phq9_questions
                    (drawn_scores w))))
    as (items & Hitems & Hrel).
  { unfold drawn_scores. cbn [seq map MHTResponseSimulator.zip
                               MHTResponseSimulator.phq9_questions
                               MHTResponseSimulator.enumerate_from].
    repeat (constructor; [apply assessment_item_ok; assumption|]). constructor. }
  exists items. split.
  { apply Forall2_length in Hrel. rewrite <- Hrel. reflexivity. }
  unfold patient_of in Hp.
  unfold MHTResponseSimulator._generate_mock_assessment.
  unfold bind at 1. unfold lift_outcome at 1. cbn [py_get]. rewrite Hp.
  unfold bind at 1. unfold lift_outcome at 1. cbn [py_get].
  unfold bind at 1. unfold lift_outcome at 1. cbn [py_get].
  unfold bind at 1. unfold lift_outcome at 1. cbn [py_get].
  unfold bind at 1.
  change (map_m (fun _ : nat => random_randint 0 3) (seq 0 9) w)
    with (Ok (drawn_scores w),
          mkWorld (db w) (tick w) (9 + draws w) (history w) (notified w)).
  unfold bind at 1. rewrite Hitems.
  reflexivity.
Qed.

Lemma create_outbound_event_raises (host : Host) (self : MHTResponseSimulator.t)
      (iid : Z) (data : JSON) (ex : Exn) (w : World) :
  (forall w0, MHTResponseSimulator._generate_mock_assessment self data w0
              = (Raise ex, w0)) ->
  MHTResponseSimulator._create_outbound_event self iid data w
    = (Raise ex, mkWorld (db w) (S (tick w)) (draws w) (history w) (notified w)).
Proof.
  intro G. unfold MHTResponseSimulator._create_outbound_event.
  unfold bind at 1. cbn [datetime_now]. unfold bind at 1. rewrite G. reflexivity.
Qed.

(** X13. With a [random.randint] that respects its bounds,
    [_generate_mock_assessment] succeeds exactly on converted data that is
    an object whose "patient", if present, is an object.  It then reads
    the clock five times and draws ten numbers, writes nothing, echoes the
    patient's id and names (with "unknown" and the empty string as
    defaults), carries one assessment with nine items and records the
    configured delay.  On any other converted data it raises
    AttributeError before reading the clock or drawing, and
    [_create_outbound_event] then inserts nothing. *)
Theorem simulator_answers_objects_only :
  forall (host : Host) (self : MHTResponseSimulator.t) (data : JSON) (w : World),
    randint_in_bounds host ->
    (forall kv pkv,
        data = JDict kv -> patient_of kv = JDict pkv ->
        exists mock items,
          MHTResponseSimulator._generate_mock_assessment self data w
            = (Ok mock,
               mkWorld (db w) (5 + tick w) (10 + draws w) (history w) (notified w)) /\
          py_path ["data"; "patient"; "patient_id"] mock
            = Ok (get_or pkv "patient_id" (JStr "unknown")) /\
          py_path ["data"; "patient"; "patient_first_name"] mock
            = Ok (get_or pkv "patient_first_name" (JStr EmptyString)) /\
          py_path ["data"; "patient"; "patient_last_name"] mock
            = Ok (get_or pkv "patient_last_name" (JStr EmptyString)) /\
          py_path ["_metadata"; "response_delay_seconds"] mock
            = Ok (JInt (MHTResponseSimulator.response_delay self)) /\
          (exists a, py_path ["data"; "assessment"] mock = Ok (JList [a]) /\
                     py_get a "assessment_items" JNull = Ok (JList items)) /\
          List.length items = 9%nat) /\
    (is_object data = false \/
     (exists kv, data = JDict kv /\ is_object (patient_of kv) = false) ->
     MHTResponseSimulator._generate_mock_assessment self data w
       = (Raise (AttributeError "get"), w) /\
     forall iid,
       fst (MHTResponseSimulator._create_outbound_event self iid data w)
         = Raise (AttributeError "get") /\
       db (snd (MHTResponseSimulator._create_outbound_event self iid data w)) = db w /\
       history (snd (MHTResponseSimulator._create_outbound_event self iid data w))
         = history w).
Proof.
  intros host self data w Hb. split.
  - intros kv pkv -> Hp.
    destruct (generate_shape host self kv pkv w Hb Hp) as (items & Hlen & G).
    exists (mock_document self kv pkv w items), items.
    split; [exact G|]. unfold mock_document, get_or. cbn.
    repeat (split; [reflexivity|]).
    split; [|exact Hlen]. eexists. split; reflexivity.
  - intros Hshape.
    assert (G : forall w0, MHTResponseSimulator._generate_mock_assessment self data w0
                           = (Raise (AttributeError "get"), w0)).
    { intro w0. unfold MHTResponseSimulator._generate_mock_assessment.
      destruct Hshape as [Hd|(kv & -> & Hp)].
      - destruct data; try discriminate; reflexivity.
      - unfold bind at 1. unfold lift_outcome at 1. cbn [py_get].
        unfold patient_of in Hp.
        destruct (assoc "patient" kv) as [p|]; [|discriminate].
        destruct p; try discriminate; reflexivity. }
    split; [apply G|]. intro iid.
    rewrite (create_outbound_event_raises host self iid data _ w G). cbn. auto.
Qed.

Lemma simulator_answers_objects_only_witness :
  randint_in_bounds Demo.host /\
  patient_of [("patient", JDict [ ("patient_id", JStr "123");
                                  ("patient_first_name", JStr "Jane");
                                  ("patient_last_name", JStr "Doe") ])]
    = JDict [ ("patient_id", JStr "123"); ("patient_first_name", JStr "Jane");
              ("patient_last_name", JStr "Doe") ] /\
  (exists mock,
      fst (MHTResponseSimulator._generate_mock_assessment (host := Demo.host)
             DemoSimulator.self Demo.jane DemoSimulator.w0) = Ok mock /\
      py_path ["data"; "patient"; "patient_id"] mock = Ok (JStr "123")) /\
  fst (MHTResponseSimulator._create_outbound_event (host := Demo.host)
         DemoSimulator.self 1 (JList []) DemoSimulator.w0)
    = Raise (AttributeError "get").
Proof.
  assert (Hb : randint_in_bounds Demo.host).
  { intros n lo hi Hle. cbn.
    pose proof (Z.mod_pos_bound (Z.of_nat n) (hi - lo + 1)). lia. }
  split; [exact Hb|]. split; [reflexivity|].
  destruct (simulator_answers_objects_only Demo.host DemoSimulator.self Demo.jane
              DemoSimulator.w0 Hb) as [Hok _].
  destruct (simulator_answers_objects_only Demo.host DemoSimulator.self (JList [])
              DemoSimulator.w0 Hb) as [_ Hbad].
  split.
  - destruct (Hok _ _ eq_refl eq_refl) as (mock & items & G & Hpid & _).
    exists mock. rewrite G. split; [reflexivity|exact Hpid].
  - destruct (Hbad (or_introl eq_refl)) as [_ Hc]. apply (Hc 1).
Defined.

(** ** From the simulator to the processor *)

Lemma severity_is_truthy (total : Z) :
  py_truthy (JStr (MHTResponseSimulator.severity_of total)) = true.
Proof.
  unfold MHTResponseSimulator.severity_of.
  repeat match goal with |- context [if ?b then _ else _] => destruct b end;
    reflexivity.
Qed.

Lemma flag_matches_severity (total : Z) :
  (10 <=? total) = true <->
  MHTResponseSimulator.severity_of total <> "Minimal" /\
  MHTResponseSimulator.severity_of total <> "Mild".
Proof.
  unfold MHTResponseSimulator.severity_of.
  destruct (total <=? 4) eqn:E4; destruct (total <=? 9) eqn:E9;
    destruct (total <=? 14) eqn:E14; destruct (total <=? 19) eqn:E19;
    rewrite ?Z.leb_le, ?Z.leb_gt in *;
    (split; [intro H; apply Z.leb_le in H; try lia; split; discriminate
            |intros [H1 H2]; try congruence; apply Z.leb_le; lia]).
Qed.

(** X14. What the processor reads out of a result the simulator generated
    (with a [random.randint] that respects its bounds, and a payload text
    that decodes to the generated document): a summary with the patient id
    of the inbound event and exactly one assessment, "PHQ-9", with
    item_count 9, whose total score is the sum of the nine draws and lies
    between 0 and 27, whose severity is the label of that total, and which
    is flagged exactly when the label is neither "Minimal" nor "Mild". *)
Theorem processor_summarizes_simulated_result :
  forall (host : Host) (self : MHTResponseSimulator.t)
         (kv pkv : list (string * JSON)) (w w' : World) (mock : JSON)
         (ev : Event) (text : string) (wp : World),
    randint_in_bounds host ->
    patient_of kv = JDict pkv ->
    MHTResponseSimulator._generate_mock_assessment self (JDict kv) w = (Ok mock, w') ->
    raw_data ev = Some text -> text <> EmptyString -> json_loads text = Some mock ->
    let total := drawn_total w in
    exists summary entry,
      MHTResultProcessor._process_assessment_result ev wp
        = (Ok summary,
           mkWorld (db wp) (S (tick wp)) (draws wp) (history wp) (notified wp)) /\
      py_get summary "patient_id" JNull = Ok (get_or pkv "patient_id" (JStr "unknown")) /\
      py_get summary "assessments" JNull = Ok (JList [entry]) /\
      py_get entry "assessment_name" JNull = Ok (JStr "PHQ-9") /\
      py_get entry "item_count" JNull = Ok (JInt 9) /\
      py_get entry "total_score" JNull = Ok (JStr (py_str (JInt total))) /\
      py_get entry "severity" JNull
        = Ok (JStr (MHTResponseSimulator.severity_of total)) /\
      py_get entry "flagged_abnormal" JNull = Ok (JBool (10 <=? total)) /\
      0 <= total <= 27 /\
      ((10 <=? total) = true <->
       MHTResponseSimulator.severity_of total <> "Minimal" /\
       MHTResponseSimulator.severity_of total <> "Mild").
Proof.
  intros host self kv pkv w w' mock ev text wp Hb Hp G Hraw Hne Hloads total.
  destruct (generate_shape host self kv pkv w Hb Hp) as (items & Hlen & G').
  rewrite G' in G. inversion G. subst mock. clear G H1.
  pose proof (severity_is_truthy total) as Htruthy.
  unfold MHTResultProcessor._process_assessment_result.
  unfold bind at 1. rewrite Hraw. apply String.eqb_neq in Hne.
  rewrite Hne, Hloads. unfold ret at 1.
  unfold mock_document. fold total.
  unfold bind at 1. unfold lift_outcome at 1. cbn [py_get assoc String.eqb Ascii.eqb Bool.eqb].
  unfold bind at 1. unfold lift_outcome at 1. cbn [py_get assoc String.eqb Ascii.eqb Bool.eqb].
  unfold bind at 1. unfold lift_outcome at 1. cbn [py_get assoc String.eqb Ascii.eqb Bool.eqb].
  unfold bind at 1. cbn [datetime_now].
  unfold bind at 1. unfold lift_outcome at 1. cbn [py_get assoc String.eqb Ascii.eqb Bool.eqb].
  unfold bind at 1. unfold lift_outcome at 1. cbn [py_get assoc String.eqb Ascii.eqb Bool.eqb].
  unfold bind at 1. unfold lift_outcome at 1. cbn [py_get assoc String.eqb Ascii.eqb Bool.eqb].
  unfold bind at 1. unfold lift_outcome at 1. cbn [py_iter].
  unfold bind at 1. cbn [map_m].
  unfold bind at 1. unfold MHTResultProcessor.assessment_summary.
  unfold bind, lift_outcome, ret.
  cbn [py_get assoc String.eqb Ascii.eqb Bool.eqb py_len].
  rewrite Htruthy, Hlen.
  eexists _, _. split; [reflexivity|].
  cbn [py_get assoc String.eqb Ascii.eqb Bool.eqb Z.of_nat Pos.of_succ_nat Pos.succ].
  unfold get_or.
  repeat (split; [reflexivity|]).
  split; [apply drawn_total_bounds, Hb|apply flag_matches_severity].
Qed.

Lemma processor_summarizes_simulated_result_witness :
  randint_in_bounds DemoPipeline.host /\
  json_loads (Host := DemoPipeline.host) (Demo.dumps DemoPipeline.mock)
    = Some DemoPipeline.mock /\
  exists summary entry,
    fst (MHTResultProcessor._process_assessment_result (host := DemoPipeline.host)
           DemoPipeline.ev DemoSimulator.w0) = Ok summary /\
    py_get summary "patient_id" JNull = Ok (JStr "123") /\
    py_get summary "assessments" JNull = Ok (JList [entry]) /\
    py_get entry "item_count" JNull = Ok (JInt 9).
Proof.
  assert (Hb : randint_in_bounds DemoPipeline.host).
  { intros n lo hi Hle. cbn.
    pose proof (Z.mod_pos_bound (Z.of_nat n) (hi - lo + 1)). lia. }
  assert (Hloads : json_loads (Host := DemoPipeline.host) (Demo.dumps DemoPipeline.mock)
                   = Some DemoPipeline.mock) by (vm_compute; reflexivity).
  split; [exact Hb|]. split; [exact Hloads|].
  assert (G : MHTResponseSimulator._generate_mock_assessment (host := DemoPipeline.host)
                DemoSimulator.self Demo.jane DemoSimulator.w0
              = (Ok DemoPipeline.mock,
                 snd (MHTResponseSimulator._generate_mock_assessment
                        (host := DemoPipeline.host) DemoSimulator.self Demo.jane
                        DemoSimulator.w0)))
    by (vm_compute; reflexivity).
  destruct (processor_summarizes_simulated_result DemoPipeline.host DemoSimulator.self
              [("patient", JDict [ ("patient_id", JStr "123");
                                   ("patient_first_name", JStr "Jane");
                                   ("patient_last_name", JStr "Doe") ])]
              [ ("patient_id", JStr "123"); ("patient_first_name", JStr "Jane");
                ("patient_last_name", JStr "Doe") ]
              DemoSimulator.w0 _ DemoPipeline.mock DemoPipeline.ev
              (Demo.dumps DemoPipeline.mock) DemoSimulator.w0
              Hb eq_refl G eq_refl ltac:(vm_compute; discriminate) Hloads)
    as (summary & entry & E & Hpid & Hass & _ & Hcount & _).
  exists summary, entry. rewrite E.
  split; [reflexivity|]. split; [exact Hpid|]. split; [exact Hass|exact Hcount].
Defined.

(** ** Answering each inbound event once *)

Lemma answered_nothing (fetched : list Event) (s s' : MHTResponseSimulator.t * World) :
  fst s' = fst s -> db (snd s') = db (snd s) -> answered fetched s s'.
Proof.
  intros Hs Hd. exists [], []. rewrite Hs, Hd, app_nil_r. cbn.
  repeat split; auto; constructor.
Qed.

Lemma answered_trans (fetched : list Event) (a b c : MHTResponseSimulator.t * World) :
  answered fetched a b -> answered fetched b c -> answered fetched a c.
Proof.
  intros (ad1 & n1 & P1 & D1 & R1 & E1 & L1 & F1 & I1 & N1)
         (ad2 & n2 & P2 & D2 & R2 & E2 & L2 & F2 & I2 & N2).
  exists (ad2 ++ ad1), (n1 ++ n2).
  split; [rewrite P2, P1, app_assoc; reflexivity|].
  split; [congruence|].
  split; [rewrite R2, R1, app_assoc; reflexivity|].
  split; [congruence|].
  split; [rewrite !length_app; lia|].
  split; [apply Forall_app; auto|].
  split.
  - apply Forall_app. split; [|exact I1].
    eapply Forall_impl; [|exact I2]. intros i [Hn Hi]. split; [|exact Hi].
    intro Hin. apply Hn. rewrite P1. apply in_or_app. now right.
  - apply NoDup_app; [exact N2|exact N1|].
    intros i Hi2 Hi1. rewrite Forall_forall in I2. destruct (I2 i Hi2) as [Hn _].
    apply Hn. rewrite P1. apply in_or_app. now left.
Qed.

Lemma post_se_for_each_in {S A : Type} (Q : S -> S -> Prop)
      (body : A -> SE S unit) (xs : list A) :
  (forall s, Q s s) -> (forall a b c, Q a b -> Q b c -> Q a c) ->
  (forall x, In x xs -> post_se Q (body x)) -> post_se Q (for_each xs body).
Proof.
  intros Rf Tr Hb. induction xs as [|x xs IH]; cbn [for_each].
  - intros s r s' H. inversion H. subst. apply Rf.
  - intros s r s' H. unfold bind in H.
    destruct (body x s) as [[u|ex] s1] eqn:E.
    + eapply Tr; [eapply (Hb x), E; now left|].
      eapply IH; [|exact H]. intros y Hy. apply Hb. now right.
    + inversion H. subst. eapply (Hb x), E. now left.
Qed.

Lemma existsb_eqb_false (x : Z) (l : list Z) :
  existsb (Z.eqb x) l = false -> ~ In x l.
Proof.
  intros H Hin.
  assert (Ht : existsb (Z.eqb x) l = true)
    by (apply existsb_exists; exists x; split; [exact Hin|apply Z.eqb_refl]).
  congruence.
Qed.

Section Responding.
Context {host : Host}.

Lemma record_and_log_state (event_id : Z) (converted : JSON)
      (s : MHTResponseSimulator.t * World) :
  existsb (Z.eqb event_id) (MHTResponseSimulator._processed_event_ids (fst s)) = false ->
  snd (record_and_log event_id converted s)
    = (MHTResponseSimulator.mk (MHTResponseSimulator.response_delay (fst s))
         (event_id :: MHTResponseSimulator._processed_event_ids (fst s)),
       snd s).
Proof.
  intro Hex. unfold record_and_log. unfold bind at 1.
  unfold MHTResponseSimulator.mark_processed. rewrite Hex.
  unfold bind, lift_outcome, ret.
  destruct (py_get converted "patient" (JDict [])) as [patient|]; [|reflexivity].
  destruct (py_get patient "patient_first_name" (JStr EmptyString)); [|reflexivity].
  destruct (py_get patient "patient_last_name" (JStr EmptyString)); reflexivity.
Qed.

Lemma respond_to_answered (fetched : list Event) (row : Event) :
  In row fetched -> post_se (answered fetched) (MHTResponseSimulator.respond_to row).
Proof.
  intros Hrow [self w] r [self' w'] H.
  unfold MHTResponseSimulator.respond_to in H.
  unfold bind at 1 in H. cbn [MHTResponseSimulator.get_self fst] in H.
  destruct (existsb (Z.eqb (id row)) (MHTResponseSimulator._processed_event_ids self))
    eqn:Hex.
  { inversion H. subst. now apply answered_nothing. }
  destruct (fromisoformat (received_at row)) as [received|].
  2:{ inversion H. subst. now apply answered_nothing. }
  unfold bind at 1 in H.
  cbn [MHTResponseSimulator.lift_m datetime_now snd fst] in H.
  destruct (MHTResponseSimulator.response_delay self <=? _).
  2:{ inversion H. subst. now apply answered_nothing. }
  unfold bind at 1 in H.
  destruct (converted_data row) as [text|].
  2:{ inversion H. subst. now apply answered_nothing. }
  destruct (json_loads text) as [converted|].
  2:{ inversion H. subst. now apply answered_nothing. }
  unfold ret at 1 in H.
  unfold bind at 1 in H.
  unfold MHTResponseSimulator.lift_m in H. cbn [snd fst] in H.
  match type of H with
  | context [MHTResponseSimulator._create_outbound_event self (id row) converted ?w0] =>
      destruct (create_outbound_event_cases host self (id row) converted w0)
        as [(ex & w1 & E & [Hq _] & _)
           |(w1 & e & E & _ & Hrows & Herrs & _ & _ & Hd & Hs & _)];
      rewrite E in H
  end.
  { inversion H. subst. apply answered_nothing; [reflexivity|exact Hq]. }
  change (record_and_log (id row) converted (self, w1) = (r, (self', w'))) in H.
  pose proof (record_and_log_state (id row) converted (self, w1) Hex) as Hstate.
  rewrite H in Hstate. cbn [snd fst] in Hstate. inversion Hstate. subst self' w'.
  exists [id row], [e]. cbn [fst snd app List.length
                               MHTResponseSimulator._processed_event_ids
                               MHTResponseSimulator.response_delay].
  cbn [db] in Hrows, Herrs.
  split; [reflexivity|]. split; [reflexivity|]. split; [exact Hrows|].
  split; [exact Herrs|]. split; [reflexivity|].
  split; [constructor; [split; assumption|constructor]|].
  split.
  - constructor; [|constructor]. split; [now apply existsb_eqb_false|].
    now apply in_map.
  - constructor; [intros []|constructor].
Qed.
End Responding.

(** X15. Whatever a call of [_check_and_respond] did, and however it
    ended: the ids in the object's [_processed_event_ids] before the call
    are still there and none of them was answered again; the ids it added
    are distinct ids of inbound rows with status 1 or more and converted
    data; for each added id exactly one row was appended to the table, an
    outbound row at status 100; no other row and no error row changed. *)
Theorem each_inbound_event_is_answered_once :
  forall (host : Host) (self self' : MHTResponseSimulator.t) (w w' : World)
         (r : Outcome unit),
    MHTResponseSimulator._check_and_respond (self, w) = (r, (self', w')) ->
    exists added new,
      MHTResponseSimulator._processed_event_ids self'
        = added ++ MHTResponseSimulator._processed_event_ids self /\
      common_event (db w') = common_event (db w) ++ new /\
      common_eventerror (db w') = common_eventerror (db w) /\
      List.length new = List.length added /\
      NoDup added /\
      Forall (fun e => direction e = O /\ status e = 100) new /\
      Forall (fun i =>
                ~ In i (MHTResponseSimulator._processed_event_ids self) /\
                exists row, In row (common_event (db w)) /\ id row = i /\
                            MHTResponseSimulator.answerable row = true) added.
Proof.
  intros host self self' w w' r H.
  unfold MHTResponseSimulator._check_and_respond in H.
  unfold bind at 1 in H. unfold MHTResponseSimulator.lift_m at 1 in H.
  cbn [snd fst] in H.
  set (fetched := order_by Z.leb id
                    (filter MHTResponseSimulator.answerable (common_event (db w)))).
  assert (Hsel : with_connection
                   (select_where_order_by MHTResponseSimulator.answerable Z.leb id) w
                 = (Ok fetched, w)) by (destruct w; reflexivity).
  rewrite Hsel in H.
  assert (HQ : post_se (answered fetched)
                 (for_each fetched MHTResponseSimulator.respond_to)).
  { apply post_se_for_each_in.
    - intro s. now apply answered_nothing.
    - apply answered_trans.
    - intros row Hin. now apply respond_to_answered. }
  destruct (HQ _ _ _ H) as (added & new & P & _ & R & E & L & F & Iadd & N).
  exists added, new. cbn [fst snd] in *.
  repeat (split; [assumption|]).
  eapply Forall_impl; [|exact Iadd]. intros i [Hn Hi]. split; [exact Hn|].
  apply in_map_iff in Hi. destruct Hi as (row & Hid & Hrow).
  apply order_by_In, filter_In in Hrow. destruct Hrow as [Hrow Hans].
  exists row. auto.
Qed.

Lemma each_inbound_event_is_answered_once_witness :
  exists (added : list Z) (new : list Event),
    common_event (db DemoSimulator.w1) = common_event (db DemoSimulator.w0) ++ new /\
    List.length new = List.length added /\
    NoDup added /\
    Forall (fun e => direction e = O /\ status e = 100) new.
Proof.
  destruct (each_inbound_event_is_answered_once Demo.host DemoSimulator.self
              (fst (snd (MHTResponseSimulator._check_and_respond (host := Demo.host)
                           (DemoSimulator.self, DemoSimulator.w0))))
              DemoSimulator.w0 DemoSimulator.w1
              (fst (MHTResponseSimulator._check_and_respond (host := Demo.host)
                      (DemoSimulator.self, DemoSimulator.w0)))
              ltac:(vm_compute; reflexivity))
    as (added & new & _ & R & _ & L & N & F & _).
  exists added, new. auto.
Defined.

(** ** A converted event the simulator cannot decode *)

Lemma respond_to_processed (host : Host) (self : MHTResponseSimulator.t)
      (row : Event) (w : World) :
  In (id row) (MHTResponseSimulator._processed_event_ids self) ->
  MHTResponseSimulator.respond_to row (self, w) = (Ok tt, (self, w)).
Proof.
  intro Hin. unfold MHTResponseSimulator.respond_to.
  unfold bind at 1. cbn [MHTResponseSimulator.get_self fst].
  assert (Hex : existsb (Z.eqb (id row))
                  (MHTResponseSimulator._processed_event_ids self) = true)
    by (apply existsb_exists; exists (id row); split; [exact Hin|apply Z.eqb_refl]).
  now rewrite Hex.
Qed.

Lemma respond_to_undecodable (host : Host) (self : MHTResponseSimulator.t)
      (row : Event) (text : string) (received : Z) (w : World) :
  ~ In (id row) (MHTResponseSimulator._processed_event_ids self) ->
  fromisoformat (received_at row) = Some received ->
  (forall now, MHTResponseSimulator.response_delay self <= seconds_since now received) ->
  converted_data row = Some text -> json_loads text = None ->
  exists w',
    MHTResponseSimulator.respond_to row (self, w) = (Raise JSONDecodeError, (self, w')) /\
    db w' = db w /\ history w' = history w.
Proof.
  intros Hnot Hiso Hdue Hconv Hloads.
  unfold MHTResponseSimulator.respond_to.
  unfold bind at 1. cbn [MHTResponseSimulator.get_self fst].
  destruct (existsb (Z.eqb (id row)) (MHTResponseSimulator._processed_event_ids self))
    eqn:Hex.
  { exfalso. apply Hnot. apply existsb_exists in Hex. destruct Hex as (x & Hx & Hxe).
    apply Z.eqb_eq in Hxe. now subst. }
  rewrite Hiso. unfold bind at 1.
  cbn [MHTResponseSimulator.lift_m datetime_now snd fst].
  assert (Hle : (MHTResponseSimulator.response_delay self
                 <=? seconds_since (clock (tick w)) received) = true)
    by (apply Z.leb_le, Hdue).
  rewrite Hle, Hconv, Hloads. unfold bind at 1, raise.
  eexists. split; [reflexivity|]. split; reflexivity.
Qed.

(** X16. When the first fetched row that is not yet answered is due and
    carries converted data that [json.loads] rejects, [_check_and_respond]
    raises JSONDecodeError at that row: nothing is inserted, nothing is
    committed and no id is added to [_processed_event_ids], whatever rows
    come after it.  The call leaves the table and the set as they were,
    so the next call raises at the same row in the same way. *)
Theorem undecodable_event_blocks_later_events :
  forall (host : Host) (self : MHTResponseSimulator.t) (w : World)
         (skipped rest : list Event) (row : Event) (text : string) (received : Z),
    order_by Z.leb id (filter MHTResponseSimulator.answerable (common_event (db w)))
      = skipped ++ row :: rest ->
    Forall (fun e => In (id e) (MHTResponseSimulator._processed_event_ids self)) skipped ->
    ~ In (id row) (MHTResponseSimulator._processed_event_ids self) ->
    fromisoformat (received_at row) = Some received ->
    (forall now, MHTResponseSimulator.response_delay self <= seconds_since now received) ->
    converted_data row = Some text ->
    json_loads text = None ->
    exists w',
      MHTResponseSimulator._check_and_respond (self, w)
        = (Raise JSONDecodeError, (self, w')) /\
      db w' = db w /\ history w' = history w /\
      exists w'',
        MHTResponseSimulator._check_and_respond (self, w')
          = (Raise JSONDecodeError, (self, w'')) /\
        db w'' = db w.
Proof.
  intros host self w skipped rest row text received Hf Hsk Hnot Hiso Hdue Hconv Hloads.
  assert (Hpass : forall v, db v = db w ->
            exists v', MHTResponseSimulator._check_and_respond (self, v)
                         = (Raise JSONDecodeError, (self, v')) /\
                       db v' = db w /\ history v' = history v).
  { intros v Hv.
    unfold MHTResponseSimulator._check_and_respond.
    unfold bind at 1. unfold MHTResponseSimulator.lift_m at 1. cbn [snd fst].
    assert (Hsel : with_connection
                     (select_where_order_by MHTResponseSimulator.answerable Z.leb id) v
                   = (Ok (skipped ++ row :: rest), v))
      by (rewrite <- Hf, <- Hv; destruct v; reflexivity).
    rewrite Hsel. clear Hsel Hf.
    induction Hsk as [|e skipped He Hsk IH]; cbn [app for_each].
    - destruct (respond_to_undecodable host self row text received v
                  Hnot Hiso Hdue Hconv Hloads) as (v' & E & Hd & Hh).
      exists v'. unfold bind. rewrite E. split; [reflexivity|].
      split; [congruence|exact Hh].
    - unfold bind at 1. rewrite (respond_to_processed host self e v He). exact IH. }
  destruct (Hpass w eq_refl) as (w' & E1 & D1 & H1).
  exists w'. split; [exact E1|]. split; [exact D1|]. split; [exact H1|].
  destruct (Hpass w' D1) as (w'' & E2 & D2 & _).
  exists w''. split; [exact E2|exact D2].
Qed.

Lemma undecodable_event_blocks_later_events_witness :
  MHTResponseSimulator.answerable DemoBlocked.good = true /\
  exists w',
    MHTResponseSimulator._check_and_respond (host := Demo.host)
      (DemoSimulator.self, DemoBlocked.w0)
      = (Raise JSONDecodeError, (DemoSimulator.self, w')) /\
    db w' = db DemoBlocked.w0.
Proof.
  split; [reflexivity|].
  destruct (undecodable_event_blocks_later_events Demo.host DemoSimulator.self
              DemoBlocked.w0 [] [DemoBlocked.good] DemoBlocked.bad "{" 0
              eq_refl (Forall_nil _) ltac:(intros [])
              eq_refl ltac:(intro; cbn; lia) eq_refl eq_refl)
    as (w' & E & D & _).
  exists w'. split; [exact E|exact D].
Defined.

(** ** Delivery on demand *)

Lemma delivered_then_callback_raises (host : Host)
      (flow : World -> string -> list JSON -> Outcome bool)
      (self : OutboundWorker.t) (ev : Event) (w1 : World) (e1 : Event)
      (name : string) (assessments : list JSON)
      (cb : JSON -> Outcome unit) (ex : Exn) :
  lookup (db w1) (id ev) = Some e1 ->
  fst (OutboundWorker.read_request ev w1) = Ok (name, assessments) ->
  flow w1 name assessments = Ok true ->
  OutboundWorker._callback self = Some cb ->
  cb (OutboundWorker.done_notice (id ev) name) = Raise ex ->
  exists w' d1,
    OutboundWorker.attempt_delivery flow self ev w1 = (Ok tt, w') /\
    history w' = history w1 ++ [d1; db w'] /\
    status_in d1 (id ev) = Some OutboundWorker.STATUS_DONE /\
    status_in (db w') (id ev) = Some OutboundWorker.STATUS_ERROR /\
    same_ids w1 w'.
Proof.
  intros Hl1 Hr Hf Hcb Hex.
  unfold OutboundWorker.attempt_delivery, try_except. unfold bind at 1.
  pose proof (read_request_same_world host ev w1) as Hsame.
  destruct (OutboundWorker.read_request ev w1) as [[[n a]|exr] wr] eqn:Er;
    cbn in Hsame, Hr; subst wr; [|discriminate].
  inversion Hr. subst n a.
  unfold bind at 1. unfold OutboundWorker.call_flow at 1. rewrite Hf.
  unfold bind at 1.
  destruct (set_status_step host (id ev) OutboundWorker.STATUS_DONE w1 e1 Hl1)
    as (w2 & E2 & S2 & H2 & I2).
  rewrite E2. destruct (status_in_lookup _ _ _ S2) as (e2 & Hl2).
  rewrite Hcb. unfold invoke. rewrite Hex.
  set (w2' := mkWorld (db w2) (tick w2) (draws w2) (history w2)
                (notified w2 ++ [OutboundWorker.done_notice (id ev) name])).
  destruct (set_status_step host (id ev) OutboundWorker.STATUS_ERROR w2' e2 Hl2)
    as (w3 & E3 & S3 & H3 & I3).
  rewrite E3. exists w3, (db w2).
  split; [reflexivity|].
  split; [rewrite H3; cbn [history w2']; rewrite H2, <- !app_assoc; reflexivity|].
  split; [exact S2|]. split; [exact S3|].
  eapply same_ids_trans; [exact I2|exact I3].
Qed.

(** [_process_event] always returns, and leaves the event at DONE or at
    ERROR. *)
Lemma process_event_settles (host : Host)
      (flow : World -> string -> list JSON -> Outcome bool)
      (self : OutboundWorker.t) (ev : Event) (w : World) (e0 : Event) :
  lookup (db w) (id ev) = Some e0 ->
  exists w',
    OutboundWorker._process_event flow self ev w = (Ok tt, w') /\
    same_ids w w' /\
    (status_in (db w') (id ev) = Some OutboundWorker.STATUS_DONE \/
     status_in (db w') (id ev) = Some OutboundWorker.STATUS_ERROR).
Proof.
  intro Hl0.
  destruct (set_status_step host (id ev) OutboundWorker.STATUS_PROCESSING w e0 Hl0)
    as (w1 & E1 & S1 & H1 & I1).
  destruct (status_in_lookup _ _ _ S1) as (e1 & Hl1).
  unfold OutboundWorker._process_event. unfold bind at 1. rewrite E1.
  destruct (attempt_delivery_outcome host flow self ev w1 e1 Hl1)
    as (w' & later & E & Hh & Hids & Htrue & Hfalse & Hraise).
  destruct (OutboundWorker.read_request ev w1) as [[[name a]|exr] wr] eqn:Er.
  2:{ exists w'. split; [exact E|]. split; [eapply same_ids_trans; eassumption|].
      right. eapply Hraise. reflexivity. }
  destruct (flow w1 name a) as [[|]|exf] eqn:Ef.
  - destruct (OutboundWorker._callback self) as [cb|] eqn:Hcb.
    + destruct (cb (OutboundWorker.done_notice (id ev) name)) as [[]|exc] eqn:Ec.
      * exists w'. split; [exact E|]. split; [eapply same_ids_trans; eassumption|].
        left. destruct (Htrue name a eq_refl Ef) as (rest & _ & Hret).
        apply Hret. unfold callback_returns. now rewrite Hcb.
      * destruct (delivered_then_callback_raises host flow self ev w1 e1 name a cb exc
                    Hl1 ltac:(now rewrite Er) Ef Hcb Ec)
          as (v & d1 & Ev & _ & _ & Sv & Iv).
        exists v. split; [exact Ev|]. split; [eapply same_ids_trans; eassumption|].
        now right.
    + exists w'. split; [exact E|]. split; [eapply same_ids_trans; eassumption|].
      left. destruct (Htrue name a eq_refl Ef) as (rest & _ & Hret).
      apply Hret. unfold callback_returns. now rewrite Hcb.
  - exists w'. split; [exact E|]. split; [eapply same_ids_trans; eassumption|].
    right. eapply (Hfalse name a eq_refl). rewrite Ef. discriminate.
  - exists w'. split; [exact E|]. split; [eapply same_ids_trans; eassumption|].
    right. eapply (Hfalse name a eq_refl). rewrite Ef. discriminate.
Qed.

(** X17. When the flow returned True for an event and the registered
    callback raises on the notice of the delivery, [_process_event] still
    returns normally; it has committed the event at PROCESSING, then at
    DONE, then at ERROR, and ERROR is where the event stays. *)
Theorem raising_delivery_callback_marks_error :
  forall (host : Host) (flow : World -> string -> list JSON -> Outcome bool)
         (self : OutboundWorker.t) (ev : Event) (w w1 : World) (e0 : Event)
         (name : string) (assessments : list JSON)
         (cb : JSON -> Outcome unit) (ex : Exn),
    lookup (db w) (id ev) = Some e0 ->
    OutboundWorker._update_event_status (id ev) OutboundWorker.STATUS_PROCESSING w
      = (Ok tt, w1) ->
    fst (OutboundWorker.read_request ev w1) = Ok (name, assessments) ->
    flow w1 name assessments = Ok true ->
    OutboundWorker._callback self = Some cb ->
    cb (OutboundWorker.done_notice (id ev) name) = Raise ex ->
    exists w' d1,
      OutboundWorker._process_event flow self ev w = (Ok tt, w') /\
      history w' = history w ++ [db w1; d1; db w'] /\
      status_in (db w1) (id ev) = Some OutboundWorker.STATUS_PROCESSING /\
      status_in d1 (id ev) = Some OutboundWorker.STATUS_DONE /\
      status_in (db w') (id ev) = Some OutboundWorker.STATUS_ERROR.
Proof.
  intros host flow self ev w w1 e0 name assessments cb ex Hl0 E1 Hr Hf Hcb Hex.
  destruct (set_status_step host (id ev) OutboundWorker.STATUS_PROCESSING w e0 Hl0)
    as (v1 & E1' & S1 & H1 & I1).
  rewrite E1 in E1'. inversion E1'. subst v1.
  destruct (status_in_lookup _ _ _ S1) as (e1 & Hl1).
  destruct (delivered_then_callback_raises host flow self ev w1 e1 name assessments
              cb ex Hl1 Hr Hf Hcb Hex) as (w' & d1 & E & Hh & Sd & Se & _).
  exists w', d1. unfold OutboundWorker._process_event. unfold bind at 1.
  rewrite E1. split; [exact E|].
  split; [rewrite Hh, H1, <- app_assoc; reflexivity|]. auto.
Qed.

Lemma raising_delivery_callback_marks_error_witness :
  exists w',
    OutboundWorker._process_event (host := Demo.host) DemoDelivery.flow_succeeds
      DemoCallback.failing_self DemoDelivery.ev DemoDelivery.w0 = (Ok tt, w') /\
    List.length (history w') = 3%nat /\
    status_in (db w') 1 = Some (-100).
Proof.
  destruct (raising_delivery_callback_marks_error Demo.host DemoDelivery.flow_succeeds
              DemoCallback.failing_self DemoDelivery.ev DemoDelivery.w0 _
              DemoDelivery.ev "Doe, Jane" _ _ (ValueError "callback failed")
              eq_refl eq_refl eq_refl eq_refl eq_refl eq_refl)
    as (w' & d1 & E & Hh & _ & _ & Se).
  exists w'. split; [exact E|]. split; [rewrite Hh; reflexivity|exact Se].
Defined.

Lemma lookup_of_id (d : Database) (x : Z) :
  In x (map id (common_event d)) -> exists e, lookup d x = Some e.
Proof.
  intro Hin. apply in_map_iff in Hin. destruct Hin as (e & Hid & He).
  unfold lookup. destruct (find (has_id x) (common_event d)) as [e'|] eqn:E; [eauto|].
  exfalso. pose proof (find_none _ _ E e He) as Hn.
  unfold has_id in Hn. rewrite Hid, Z.eqb_refl in Hn. discriminate.
Qed.

(** Rows selected from a table with unique ids have unique ids. *)
Lemma selected_ids_unique (selected : Event -> bool) (rows : list Event) :
  NoDup (map id rows) -> NoDup (map id (filter selected rows)).
Proof.
  intro Hrows. induction rows as [|e rows IH]; [constructor|].
  cbn [map] in Hrows. apply NoDup_cons_iff in Hrows. destruct Hrows as [Hfresh Hrows].
  cbn [filter]. destruct (selected e); [|now apply IH].
  cbn [map]. apply NoDup_cons; [|now apply IH].
  rewrite in_map_iff. intros (e' & Hid & He').
  apply filter_In in He'. apply Hfresh. rewrite <- Hid. apply in_map, He'.
Qed.

Lemma same_rows_at_In (x : Z) (w w' : World) (e : Event) :
  same_rows_at x w w' -> id e = x ->
  In e (common_event (db w)) -> In e (common_event (db w')).
Proof.
  intros Hs Hid Hin.
  assert (H : In e (filter (has_id x) (common_event (db w'))))
    by (rewrite Hs; apply filter_In; split; [exact Hin|];
        unfold has_id; rewrite Hid; apply Z.eqb_refl).
  now apply filter_In in H.
Qed.

Section OnDemand.
Context {host : Host}.
Variable flow : World -> string -> list JSON -> Outcome bool.
Variable self : OutboundWorker.t.

(** The loop of [process_pending] over rows that are in the table:
    every row is processed and counted. *)
Lemma deliver_each (l : list Event) :
  forall (n : Z) (w : World),
    NoDup (map id l) ->
    (forall e, In e l -> In (id e) (map id (common_event (db w)))) ->
    exists w',
      for_each l (fun event =>
        OutboundWorker.lift_w (OutboundWorker._process_event flow self event) ;;;
        OutboundWorker.count_one) (n, w)
        = (Ok tt, (n + Z.of_nat (List.length l), w')) /\
      same_ids w w' /\
      (forall x, ~ In x (map id l) -> same_rows_at x w w') /\
      (forall x, In x (map id l) ->
         status_in (db w') x = Some OutboundWorker.STATUS_DONE \/
         status_in (db w') x = Some OutboundWorker.STATUS_ERROR).
Proof.
  induction l as [|e l IH]; intros n w Hnd Hin.
  - exists w. cbn [for_each List.length]. unfold ret. rewrite Z.add_0_r.
    split; [reflexivity|]. split; [reflexivity|].
    split; [intros; reflexivity|intros x []].
  - cbn [map] in Hnd. inversion Hnd as [|? ? Hnot Hnd']; subst.
    destruct (lookup_of_id (db w) (id e) (Hin e (or_introl eq_refl))) as (e0 & Hl0).
    destruct (process_event_settles host flow self e w e0 Hl0) as (w1 & E1 & I1 & S1).
    assert (Hin1 : forall a, In a l -> In (id a) (map id (common_event (db w1)))).
    { intros a Ha. rewrite I1. apply Hin. now right. }
    destruct (IH (n + 1) w1 Hnd' Hin1) as (w' & E & I & Hout & Hins).
    exists w'. cbn [for_each]. unfold bind at 1. unfold bind at 1.
    unfold OutboundWorker.lift_w at 1. cbn [snd fst]. rewrite E1.
    unfold OutboundWorker.count_one at 1. cbn [snd fst]. rewrite E.
    split; [f_equal; f_equal; cbn [List.length]; lia|].
    split; [eapply same_ids_trans; eassumption|].
    split.
    + intros x Hx. cbn [map] in Hx.
      assert (Hxe : id e <> x) by (intro; apply Hx; now left).
      assert (Hxl : ~ In x (map id l)) by (intro; apply Hx; now right).
      eapply same_rows_at_trans; [|apply Hout, Hxl].
      destruct (aside_process_event flow self x e Hxe w (Ok tt) w1 E1) as [_ Hs].
      exact Hs.
    + intros x [<-|Hx]; [|now apply Hins].
      unfold status_in in *.
      now rewrite (same_rows_at_lookup (id e) w1 w' (Hout (id e) Hnot)).
Qed.
End OnDemand.

(** X18. When no two rows share an id, [process_pending] returns, without
    raising, the number of outbound rows that were at status 100.  It
    leaves each of them at DONE or at ERROR, every other row as it was and
    the ids of the table unchanged, so that no row is ready afterwards: a
    second call finds nothing, returns 0 and changes nothing. *)
Theorem process_pending_delivers_every_ready_event :
  forall (host : Host) (flow : World -> string -> list JSON -> Outcome bool)
         (self : OutboundWorker.t) (w : World),
    NoDup (map id (common_event (db w))) ->
    exists w',
      OutboundWorker.process_pending flow self w
        = (Ok (Z.of_nat (List.length
                           (filter ready_for_delivery (common_event (db w))))), w') /\
      map id (common_event (db w')) = map id (common_event (db w)) /\
      (forall e, In e (common_event (db w)) -> ready_for_delivery e = true ->
         status_in (db w') (id e) = Some OutboundWorker.STATUS_DONE \/
         status_in (db w') (id e) = Some OutboundWorker.STATUS_ERROR) /\
      (forall e, In e (common_event (db w)) -> ready_for_delivery e = false ->
         In e (common_event (db w'))) /\
      filter ready_for_delivery (common_event (db w')) = [] /\
      forall (flow' : World -> string -> list JSON -> Outcome bool)
             (self' : OutboundWorker.t),
        OutboundWorker.process_pending flow' self' w' = (Ok 0, w').
Proof.
  intros host flow self w Hnd.
  set (ready := filter ready_for_delivery (common_event (db w))).
  set (fetched := order_by Z.leb id ready).
  assert (Hsel : forall v, OutboundWorker._get_ready_outbound_events v
                           = (Ok (order_by Z.leb id
                                    (filter ready_for_delivery (common_event (db v)))), v))
    by (intro v; destruct v; reflexivity).
  assert (Hperm : Permutation ready fetched) by apply order_by_perm.
  assert (Hfnd : NoDup (map id fetched)).
  { eapply Permutation_NoDup; [apply Permutation_map, Hperm|].
    now apply selected_ids_unique. }
  assert (Hfin : forall e, In e fetched -> In e (common_event (db w)) /\
                                          ready_for_delivery e = true).
  { intros e He. apply order_by_In in He. now apply filter_In in He. }
  destruct (deliver_each flow self fetched 0 w Hfnd
              ltac:(intros e He; apply in_map; now apply Hfin))
    as (w' & E & I & Hout & Hins).
  assert (Hnd' : NoDup (map id (common_event (db w')))) by (now rewrite I).
  assert (Hfetched : forall e, In e (common_event (db w)) ->
            (In (id e) (map id fetched) <-> ready_for_delivery e = true)).
  { intros e He. split.
    - intro Hid. apply in_map_iff in Hid. destruct Hid as (e2 & Hid & He2).
      destruct (Hfin e2 He2) as [Hin2 Hr2].
      now rewrite <- (NoDup_id_inj _ e2 e Hnd Hin2 He Hid).
    - intro Hr. apply in_map, order_by_In, filter_In. now split. }
  assert (Hnone : filter ready_for_delivery (common_event (db w')) = []).
  { destruct (filter ready_for_delivery (common_event (db w'))) as [|e' rest] eqn:Ef;
      [reflexivity|exfalso].
    assert (He' : In e' (common_event (db w')) /\ ready_for_delivery e' = true)
      by (apply filter_In; rewrite Ef; now left).
    destruct He' as [Hin' Hr'].
    assert (Hst : status e' = OutboundWorker.STATUS_READY).
    { unfold ready_for_delivery in Hr'. apply andb_true_iff in Hr'.
      destruct Hr' as [_ Hs]. now apply Z.eqb_eq in Hs. }
    destruct (in_dec Z.eq_dec (id e') (map id fetched)) as [Hf|Hf].
    - destruct (lookup_of_id (db w') (id e') (in_map id _ _ Hin')) as (e2 & Hl2).
      destruct (lookup_In _ _ _ Hl2) as [Hin2 Hid2].
      pose proof (NoDup_id_inj _ e2 e' Hnd' Hin2 Hin' Hid2) as ->.
      destruct (Hins _ Hf) as [Hs|Hs]; unfold status_in in Hs; rewrite Hl2 in Hs;
        cbn in Hs; inversion Hs as [Hs']; rewrite Hst in Hs'; discriminate.
    - assert (Hback : In e' (common_event (db w))).
      { pose proof (Hout _ Hf) as Hs. unfold same_rows_at in Hs.
        assert (H : In e' (filter (has_id (id e')) (common_event (db w)))).
        { rewrite <- Hs. apply filter_In. split; [exact Hin'|].
          unfold has_id. apply Z.eqb_refl. }
        now apply filter_In in H. }
      apply Hf. now apply (Hfetched e' Hback). }
  exists w'.
  split.
  { unfold OutboundWorker.process_pending, try_except. unfold bind at 1.
    unfold OutboundWorker.lift_w at 1. cbn [snd fst]. rewrite (Hsel w).
    fold ready. fold fetched. rewrite E. cbn [Z.add].
    do 2 f_equal. f_equal. symmetry. now apply Permutation_length. }
  split; [exact I|].
  split.
  { intros e He Hr. apply Hins. now apply (Hfetched e He). }
  split.
  { intros e He Hr. eapply same_rows_at_In; [apply (Hout (id e))|reflexivity|exact He].
    intro Hf. apply (Hfetched e He) in Hf. congruence. }
  split; [exact Hnone|].
  intros flow' self'.
  unfold OutboundWorker.process_pending, try_except. unfold bind at 1.
  unfold OutboundWorker.lift_w at 1. cbn [snd fst]. rewrite (Hsel w'), Hnone.
  reflexivity.
Qed.

Lemma process_pending_delivers_every_ready_event_witness :
  exists w',
    OutboundWorker.process_pending (host := Demo.host) DemoDelivery.flow_succeeds
      DemoDelivery.self DemoCallback.w0 = (Ok 2, w') /\
    status_in (db w') 1 = Some 200 /\
    status_in (db w') 2 = Some (-100) /\
    In DemoCallback.inbound (common_event (db w')).
Proof.
  destruct (process_pending_delivers_every_ready_event Demo.host
              DemoDelivery.flow_succeeds DemoDelivery.self DemoCallback.w0)
    as (w' & E & _ & _ & Hrest & _).
  { cbn. repeat constructor; cbn; intuition discriminate. }
  exists w'. split; [exact E|].
  assert (Hw : w' = snd (OutboundWorker.process_pending (host := Demo.host)
                           DemoDelivery.flow_succeeds DemoDelivery.self DemoCallback.w0))
    by (now rewrite E).
  split; [rewrite Hw; reflexivity|]. split; [rewrite Hw; reflexivity|].
  apply Hrest; [cbn; tauto|reflexivity].
Defined.
